(** * PsychoPy shape stimuli: [psychopy/visual/shape.py] and
      [psychopy/visual/target.py]

    A shallow embedding of [BaseShapeStim], [ShapeStim] and [TargetStim].
    Python objects are records, attribute assignment is explicit state
    passing in a state-and-exception monad whose exceptions keep the state
    reached so far (a Python [raise] does not undo earlier assignments), and
    the calls made to OpenGL, to the tessellator and to the logging module are
    recorded in an event trace.

    The parts of PsychoPy that the two files call and do not define are the
    members of the class [Collaborators] (the tessellator, [val2array], the
    transform pipeline, [layout.Size], colour rendering), or are modelled
    from the specification where a property needs them; the module
    [Reference] gives concrete stand-ins to evaluate the model with.

    Numbers: Python and numpy floats are modelled as exact rationals extended
    with the two infinities and nan; rounding is not modelled.

    Layout: [Py], [Np] and [Mon] (values, arrays, the monad); [Shape] and
    [Target] (the two files); [Reference]; [Trace] (what the properties
    observe); [ShapeFacts] and [TargetFacts] (the properties). *)

From Stdlib Require Import String Ascii ZArith QArith Qreduction Bool Lia Arith.
From Stdlib Require Import List.
Import ListNotations.
Local Open Scope string_scope.
Local Open Scope list_scope.
Local Open Scope nat_scope.
Set Warnings "-register-all".

(** ** Python values *)

Module Py.

(** The exceptions the two modules can raise or let through. *)
Inductive exn : Type :=
| ValueError (msg : string)
| IndexError
| TypeError
| ArgumentError
| UnboundLocalError
| TesselateError (msg : string).

(** A float: a rational, an infinity, or nan. *)
Inductive float : Type :=
| Fin (q : Q)
| Inf (negative : bool)
| NaN.

Definition Qlt_bool (p q : Q) : bool := negb (Qle_bool q p).

(** Finite results are kept in lowest terms, so that equal numbers are equal
    terms. *)
Definition fin (q : Q) : float := Fin (Qred q).

Definition of_Z (z : Z) : float := fin (inject_Z z).

(** Products and quotients are exact: the rounding of binary64 is not
    modelled.  A theorem therefore states a product or a quotient as the
    term that [fmul] or [fdiv] builds, and simplifies it only where binary64
    is exact too: doubling and halving, [x / x], a zero divisor, the
    infinities and nan. *)
Definition fmul (a b : float) : float :=
  match a, b with
  | NaN, _ | _, NaN => NaN
  | Fin p, Fin q => fin (p * q)
  | Inf s, Inf t => Inf (xorb s t)
  | Inf s, Fin q | Fin q, Inf s =>
      if Qeq_bool q 0 then NaN else Inf (xorb s (Qlt_bool q 0))
  end.

(** numpy division: a zero divisor gives an infinity or nan, it does not
    raise. *)
Definition fdiv (a b : float) : float :=
  match a, b with
  | NaN, _ | _, NaN => NaN
  | Inf _, Inf _ => NaN
  | Inf s, Fin q => Inf (xorb s (Qlt_bool q 0))
  | Fin _, Inf _ => fin 0
  | Fin p, Fin q =>
      if Qeq_bool q 0
      then (if Qeq_bool p 0 then NaN else Inf (Qlt_bool p 0))
      else fin (p / q)
  end.

(** [a > b]; every comparison with nan is false. *)
Definition fgt (a b : float) : bool :=
  match a, b with
  | NaN, _ | _, NaN => false
  | Fin p, Fin q => Qlt_bool q p
  | Inf s, Fin _ => negb s
  | Fin _, Inf t => t
  | Inf s, Inf t => andb (negb s) t
  end.

(** [a != 0.0], which is also the truth value of a float. *)
Definition fnonzero (a : float) : bool :=
  match a with
  | Fin p => negb (Qeq_bool p 0)
  | _ => true
  end.

(** The values that reach the setters: [None], a [str], a number, or a
    list/tuple. *)
Inductive pyval : Type :=
| PyNone
| PyStr (s : string)
| PyNum (x : float)
| PySeq (items : list pyval).

(** Truth value of a Python object. *)
Definition truthy (v : pyval) : bool :=
  match v with
  | PyNone => false
  | PyStr s => negb (String.eqb s EmptyString)
  | PyNum x => fnonzero x
  | PySeq items => negb (Nat.eqb (length items) 0)
  end.

(** [v != 0.0] *)
Definition ne_zero (v : pyval) : bool :=
  match v with
  | PyNum x => fnonzero x
  | _ => true
  end.

(** [isinstance(v, (int, float))] *)
Definition is_number (v : pyval) : bool :=
  match v with
  | PyNum _ => true
  | _ => false
  end.

(** A point [(x, y)] given with integer hundredths, as the tables of
    [knownShapes] are. *)
Definition pt (x100 y100 : Z) : pyval :=
  PySeq [PyNum (fin (x100 # 100)); PyNum (fin (y100 # 100))].

End Py.
Export Py.

(** ** numpy arrays *)

Module Np.

(** An array of floats: its [shape] and its elements in row-major order. *)
Record ndarray : Type := mk_ndarray { shape : list nat; data : list float }.

Definition shape_eqb (s t : list nat) : bool :=
  if list_eq_dec Nat.eq_dec s t then true else false.

Definition scalar (x : float) : ndarray := mk_ndarray [] [x].

(** Stacks arrays of one shape along a new first axis; arrays of different
    shapes do not stack. *)
Definition stack (l : list ndarray) : option ndarray :=
  match l with
  | [] => Some (mk_ndarray [0%nat] [])
  | a :: _ =>
      if forallb (fun b => shape_eqb (shape b) (shape a)) l
      then Some (mk_ndarray (length l :: shape a) (concat (map data l)))
      else None
  end.

Section Array.
(** Python's [float(s)] for a string, where numpy meets one. *)
Variable float_of_string : string -> option float.

(** [numpy.array(value, float)]; [None] is the [ValueError] numpy raises
    for a string that is no number and for ragged nesting. *)
Fixpoint array (v : pyval) : option ndarray :=
  match v with
  | PyNone => Some (scalar NaN)
  | PyStr s => option_map scalar (float_of_string s)
  | PyNum x => Some (scalar x)
  | PySeq items =>
      match
        (fix each (l : list pyval) : option (list ndarray) :=
           match l with
           | [] => Some []
           | x :: r =>
               match array x, each r with
               | Some a, Some ar => Some (a :: ar)
               | _, _ => None
               end
           end) items
      with
      | Some arrs => stack arrs
      | None => None
      end
  end.
End Array.

(** [numpy.array(vs, float)] for a list of [(x, y)] pairs. *)
Definition of_pairs (vs : list (float * float)) : ndarray :=
  mk_ndarray [length vs; 2%nat] (flat_map (fun v => [fst v; snd v]) vs).

(** [numpy.array(a, float)] for what is already an array or [None]. *)
Definition of_optional (a : option ndarray) : ndarray :=
  match a with
  | Some arr => arr
  | None => scalar NaN
  end.

(** [n] consecutive pieces of length [k]. *)
Fixpoint chunks (k n : nat) (l : list float) : list (list float) :=
  match n with
  | O => []
  | S n' => firstn k l :: chunks k n' (skipn k l)
  end.

(** Iterating over an array yields its sub-arrays along the first axis. *)
Definition rows (a : ndarray) : list ndarray :=
  match shape a with
  | [] => []
  | n :: rest =>
      map (mk_ndarray rest) (chunks (fold_right Nat.mul 1%nat rest) n (data a))
  end.

(** What [a[0][0]] is, for the test [hasattr(a[0][0], '__iter__')]: indexing
    fails on a 0-d array, on an empty axis and on the float that [a[0]] is
    when [a] is 1-d; the result has [__iter__] when it is still an array. *)
Definition item00_has_iter (a : ndarray) : exn + bool :=
  match shape a with
  | [] => inl IndexError
  | O :: _ => inl IndexError
  | [S _] => inl IndexError
  | S _ :: O :: _ => inl IndexError
  | [S _; S _] => inr false
  | S _ :: S _ :: _ :: _ => inr true
  end.

(** [a.shape[0]] *)
Definition shape0 (a : ndarray) : exn + nat :=
  match shape a with
  | [] => inl IndexError
  | n :: _ => inr n
  end.

(** [a[i]] as a float, for a 1-d array. *)
Definition item (a : ndarray) (i : nat) : exn + float :=
  match shape a with
  | [n] =>
      match nth_error (data a) i with
      | Some x => if Nat.ltb i n then inr x else inl IndexError
      | None => inl IndexError
      end
  | _ => inl IndexError
  end.

(** The 1-d array [(x, y)]. *)
Definition pair (x y : float) : ndarray := mk_ndarray [2%nat] [x; y].

End Np.
Export Np.

(** ** State and exceptions *)

Module Mon.

(** The outcome of a call: a value or an exception, and in both cases the
    state the call left behind. *)
Inductive Res (S A : Type) : Type :=
| Ok (a : A) (s : S)
| Raise (e : exn) (s : S).
Arguments Ok {S A} a s.
Arguments Raise {S A} e s.

Definition M (S A : Type) : Type := S -> Res S A.

Definition ret {S A} (a : A) : M S A := fun s => Ok a s.

Definition bind {S A B} (c : M S A) (k : A -> M S B) : M S B :=
  fun s =>
    match c s with
    | Ok a s' => k a s'
    | Raise e s' => Raise e s'
    end.

Definition raise {S A} (e : exn) : M S A := fun s => Raise e s.

Definition gets {S A} (f : S -> A) : M S A := fun s => Ok (f s) s.

Definition modify {S} (f : S -> S) : M S unit := fun s => Ok tt (f s).

(** A pure computation that may raise. *)
Definition lift {S A} (r : exn + A) : M S A :=
  match r with
  | inl e => raise e
  | inr a => ret a
  end.

Definition when {S} (b : bool) (c : M S unit) : M S unit :=
  if b then c else ret tt.

(** The state a call ends in, whether it returned or raised. *)
Definition final {S A} (r : Res S A) : S :=
  match r with
  | Ok _ s => s
  | Raise _ s => s
  end.

Definition returned {S A} (r : Res S A) : bool :=
  match r with
  | Ok _ _ => true
  | Raise _ _ => false
  end.

Declare Scope monad_scope.
Delimit Scope monad_scope with monad.
Notation "x <- c ;; k" := (bind c (fun x => k))
  (at level 61, c at next level, right associativity) : monad_scope.
Notation "c ;; k" := (bind c (fun _ => k))
  (at level 61, right associativity) : monad_scope.

End Mon.
Export Mon.
Local Open Scope monad_scope.

(** ** Objects of [shape.py] *)

Module Shape.

(** Modelled from the spec: [psychopy.colors.Color], which is not part of
    these two files.  A colour object keeps the value it was requested with
    and its colour space; a colour requested as [None] is the absent colour
    ("no paint"), the one that compares equal to [None] and is false as a
    truth value. *)
Record Color : Type := mk_Color { requested : pyval; space : string }.

(** [c != None] and [bool(c)]. *)
Definition present (c : Color) : bool :=
  match requested c with
  | PyNone => false
  | _ => true
  end.

(** The window a stimulus draws in, as far as the two files read it. *)
Record Window : Type := mk_Window {
  color : pyval;
  _haveShaders : bool;
  _progSignedFrag : Z
}.

(** The class of the object, for [isinstance(self, psychopy.visual.Line)];
    [Line] is a subclass of [ShapeStim]. *)
Inductive shape_class : Type :=
| BaseShapeStim_class
| ShapeStim_class
| Line_class.

Definition is_Line (c : shape_class) : bool :=
  match c with
  | Line_class => true
  | _ => false
  end.

Record Stim : Type := mk_Stim {
  cls : shape_class;
  win : Window;
  units : pyval;
  closeShape : bool;
  windingRule : option Z;
  lineWidth : pyval;
  interpolate : bool;
  colorSpace : string;
  _fillColor : Color;
  _borderColor : Color;
  pos : ndarray;
  ori : ndarray;
  size : ndarray;
  vertices : option ndarray;
  border : option ndarray;
  _tesselVertices : ndarray;
  _needVertexUpdate : bool;
  dict_verticesPix : ndarray;
  dict__borderPix : ndarray
}.

Inductive gl_mode : Type := GL_POLYGON | GL_TRIANGLES | GL_LINE_LOOP | GL_LINE_STRIP.
Inductive gl_cap : Type := GL_TEXTURE_2D | GL_LINE_SMOOTH | GL_MULTISAMPLE.

(** The OpenGL calls of the two files, with the arguments that vary. *)
Inductive gl_call : Type :=
| glPushMatrix
| glPopMatrix
| gluTessProperty (windingRule : Z)
| glUseProgram (prog : Z)
| glActiveTexture (unit : nat)
| glEnable (cap : gl_cap)
| glDisable (cap : gl_cap)
| glBindTexture (texture : Z)
| glVertexPointer (verts : ndarray)
| glEnableClientState
| glDisableClientState
| glColor4f (rgba : pyval)
| glLineWidth (width : float)
| glDrawArrays (mode : gl_mode) (first count : nat).

Inductive log_level : Type := warning | error.

(** What a call does to the world outside the object. *)
Inductive event : Type :=
| GL (call : gl_call)
| selectWindow (w : Window)
| setScale (w : Window) (units : string)
| tesselate_call (windingRule : Z) (loops : list ndarray)
| logging (level : log_level) (msg : string)
| updateVertices.

(** The object, the winding rule the shared tessellator is set to, and the
    events so far, oldest first. *)
Record World : Type := mk_World {
  self : Stim;
  tess_winding_rule : Z;
  events : list event
}.

(** The parts of PsychoPy that the two files call and do not define. *)
Class Collaborators : Type := {
  (** Python's [float(s)], reached through [numpy.array]. *)
  float_of_string : string -> option float;
  (** [psychopy.tools.arraytools.val2array(value, withNone=True,
      withScalar=True, length=2)]: the normalised array, [None], or an
      exception. *)
  val2array : pyval -> exn + option ndarray;
  (** [psychopy.contrib.tesselate.tesselate(loops)] under the winding rule
      the tessellator is set to: the vertices of the triangles. *)
  tesselate : Z -> list ndarray -> list (float * float);
  (** [psychopy.contrib.tesselate.default_winding_rule] *)
  default_winding_rule : Z;
  (** [getattr(c, space)] and [c.render(space)] of a colour object. *)
  render : Color -> string -> pyval;
  (** Python's [a + b] and [a - b] on colour values. *)
  add : pyval -> pyval -> exn + pyval;
  sub : pyval -> pyval -> exn + pyval;
  (** The transform pipeline: an array in the units of the stimulus to
      pixels, given [pos], [size], [ori], [units] and the window. *)
  toPixelSpace :
    ndarray -> ndarray -> ndarray -> pyval -> Window -> option ndarray -> ndarray;
  (** [layout.Size((0, h), units, win).pix[1]]: a height in pixels. *)
  height_pix : pyval -> Window -> float -> float
}.

(** *** Attribute assignment *)

Definition with_closeShape (v : bool) (s : Stim) : Stim :=
  mk_Stim (cls s) (win s) (units s) v (windingRule s) (lineWidth s)
    (interpolate s) (colorSpace s) (_fillColor s) (_borderColor s) (pos s)
    (ori s) (size s) (vertices s) (border s) (_tesselVertices s)
    (_needVertexUpdate s) (dict_verticesPix s) (dict__borderPix s).

Definition with_lineWidth (v : pyval) (s : Stim) : Stim :=
  mk_Stim (cls s) (win s) (units s) (closeShape s) (windingRule s) v
    (interpolate s) (colorSpace s) (_fillColor s) (_borderColor s) (pos s)
    (ori s) (size s) (vertices s) (border s) (_tesselVertices s)
    (_needVertexUpdate s) (dict_verticesPix s) (dict__borderPix s).

Definition with_colorSpace (v : string) (s : Stim) : Stim :=
  mk_Stim (cls s) (win s) (units s) (closeShape s) (windingRule s) (lineWidth s)
    (interpolate s) v (_fillColor s) (_borderColor s) (pos s)
    (ori s) (size s) (vertices s) (border s) (_tesselVertices s)
    (_needVertexUpdate s) (dict_verticesPix s) (dict__borderPix s).

Definition with__fillColor (v : Color) (s : Stim) : Stim :=
  mk_Stim (cls s) (win s) (units s) (closeShape s) (windingRule s) (lineWidth s)
    (interpolate s) (colorSpace s) v (_borderColor s) (pos s)
    (ori s) (size s) (vertices s) (border s) (_tesselVertices s)
    (_needVertexUpdate s) (dict_verticesPix s) (dict__borderPix s).

Definition with__borderColor (v : Color) (s : Stim) : Stim :=
  mk_Stim (cls s) (win s) (units s) (closeShape s) (windingRule s) (lineWidth s)
    (interpolate s) (colorSpace s) (_fillColor s) v (pos s)
    (ori s) (size s) (vertices s) (border s) (_tesselVertices s)
    (_needVertexUpdate s) (dict_verticesPix s) (dict__borderPix s).

Definition with_pos (v : ndarray) (s : Stim) : Stim :=
  mk_Stim (cls s) (win s) (units s) (closeShape s) (windingRule s) (lineWidth s)
    (interpolate s) (colorSpace s) (_fillColor s) (_borderColor s) v
    (ori s) (size s) (vertices s) (border s) (_tesselVertices s)
    (_needVertexUpdate s) (dict_verticesPix s) (dict__borderPix s).

Definition with_ori (v : ndarray) (s : Stim) : Stim :=
  mk_Stim (cls s) (win s) (units s) (closeShape s) (windingRule s) (lineWidth s)
    (interpolate s) (colorSpace s) (_fillColor s) (_borderColor s) (pos s)
    v (size s) (vertices s) (border s) (_tesselVertices s)
    (_needVertexUpdate s) (dict_verticesPix s) (dict__borderPix s).

Definition with_size (v : ndarray) (s : Stim) : Stim :=
  mk_Stim (cls s) (win s) (units s) (closeShape s) (windingRule s) (lineWidth s)
    (interpolate s) (colorSpace s) (_fillColor s) (_borderColor s) (pos s)
    (ori s) v (vertices s) (border s) (_tesselVertices s)
    (_needVertexUpdate s) (dict_verticesPix s) (dict__borderPix s).

Definition with_vertices (v : option ndarray) (s : Stim) : Stim :=
  mk_Stim (cls s) (win s) (units s) (closeShape s) (windingRule s) (lineWidth s)
    (interpolate s) (colorSpace s) (_fillColor s) (_borderColor s) (pos s)
    (ori s) (size s) v (border s) (_tesselVertices s)
    (_needVertexUpdate s) (dict_verticesPix s) (dict__borderPix s).

Definition with_border (v : option ndarray) (s : Stim) : Stim :=
  mk_Stim (cls s) (win s) (units s) (closeShape s) (windingRule s) (lineWidth s)
    (interpolate s) (colorSpace s) (_fillColor s) (_borderColor s) (pos s)
    (ori s) (size s) (vertices s) v (_tesselVertices s)
    (_needVertexUpdate s) (dict_verticesPix s) (dict__borderPix s).

Definition with__tesselVertices (v : ndarray) (s : Stim) : Stim :=
  mk_Stim (cls s) (win s) (units s) (closeShape s) (windingRule s) (lineWidth s)
    (interpolate s) (colorSpace s) (_fillColor s) (_borderColor s) (pos s)
    (ori s) (size s) (vertices s) (border s) v
    (_needVertexUpdate s) (dict_verticesPix s) (dict__borderPix s).

Definition with__needVertexUpdate (v : bool) (s : Stim) : Stim :=
  mk_Stim (cls s) (win s) (units s) (closeShape s) (windingRule s) (lineWidth s)
    (interpolate s) (colorSpace s) (_fillColor s) (_borderColor s) (pos s)
    (ori s) (size s) (vertices s) (border s) (_tesselVertices s)
    v (dict_verticesPix s) (dict__borderPix s).

Definition with_dict_verticesPix (v : ndarray) (s : Stim) : Stim :=
  mk_Stim (cls s) (win s) (units s) (closeShape s) (windingRule s) (lineWidth s)
    (interpolate s) (colorSpace s) (_fillColor s) (_borderColor s) (pos s)
    (ori s) (size s) (vertices s) (border s) (_tesselVertices s)
    (_needVertexUpdate s) v (dict__borderPix s).

Definition with_dict__borderPix (v : ndarray) (s : Stim) : Stim :=
  mk_Stim (cls s) (win s) (units s) (closeShape s) (windingRule s) (lineWidth s)
    (interpolate s) (colorSpace s) (_fillColor s) (_borderColor s) (pos s)
    (ori s) (size s) (vertices s) (border s) (_tesselVertices s)
    (_needVertexUpdate s) (dict_verticesPix s) v.

(** [self.attr = v] and [self.attr] in the monad. *)
Definition assign (f : Stim -> Stim) : M World unit :=
  modify (fun w => mk_World (f (self w)) (tess_winding_rule w) (events w)).

Definition attr {A} (f : Stim -> A) : M World A := gets (fun w => f (self w)).

Definition emit (e : event) : M World unit :=
  modify (fun w => mk_World (self w) (tess_winding_rule w) (events w ++ [e])).

Definition gl (c : gl_call) : M World unit := emit (GL c).

(** *** The module [shape.py] *)

(** The table [knownShapes]; the coordinates are hundredths. *)
Definition knownShapes : list (string * pyval) :=
  [ ("cross",
     PySeq [ pt (-10) 50; pt 10 50; pt 10 10; pt 50 10; pt 50 (-10);
             pt 10 (-10); pt 10 (-50); pt (-10) (-50); pt (-10) (-10);
             pt (-50) (-10); pt (-50) 10; pt (-10) 10 ]);
    ("star7",
     PySeq [ pt 0 50; pt 9 18; pt 39 31; pt 19 4; pt 49 (-11); pt 16 (-12);
             pt 22 (-45); pt 0 (-20); pt (-22) (-45); pt (-16) (-12);
             pt (-49) (-11); pt (-19) 4; pt (-39) 31; pt (-9) 18 ]) ].

(** [knownShapes[newVerts] if isinstance(newVerts, basestring) and newVerts in
    knownShapes else newVerts] *)
Definition known_or_given (newVerts : pyval) : pyval :=
  match newVerts with
  | PyStr name =>
      match find (fun kv => String.eqb (fst kv) name) knownShapes with
      | Some kv => snd kv
      | None => newVerts
      end
  | _ => newVerts
  end.

(** [if self.windingRule:] *)
Definition rule_set (r : option Z) : bool :=
  match r with
  | Some z => negb (Z.eqb z 0)
  | None => false
  end.

Definition rule_value (r : option Z) : Z :=
  match r with
  | Some z => z
  | None => 0%Z
  end.

(** [newVertices[0][0]] has [__iter__]; [None] is not subscriptable. *)
Definition nested_loops (newVertices : option ndarray) : exn + bool :=
  match newVertices with
  | None => inl TypeError
  | Some a => item00_has_iter a
  end.

(** [newVertices] when it is a list of loops, [[newVertices]] otherwise. *)
Definition loops_of (nested : bool) (newVertices : option ndarray) : list ndarray :=
  match newVertices with
  | None => []
  | Some a => if nested then rows a else [a]
  end.

Definition tesselateError : exn := TesselateError "Could not properly tesselate".

Definition lineWidth_warning : string :=
  "lineWidth is greater than max width supported by OpenGL. For lines thicker than 127px, please use a filled Rect instead.".

Definition not_recognised (operation : string) : string :=
  "Operation '" ++ operation ++ "' not recognised.".

Definition setXYs_error : exn :=
  ValueError "New value for setXYs should be 2x1 or Nx2".

Section Methods.
Context {collab : Collaborators}.

(** [numpy.array(value, float)]; the message of the error is numpy's and is
    not modelled. *)
Definition np_array (value : pyval) : exn + ndarray :=
  match array float_of_string value with
  | Some a => inr a
  | None => inl (ValueError "could not convert to float array")
  end.

(** [GL.gluTessProperty(tesselate.tess, GL.GLU_TESS_WINDING_RULE, rule)] *)
Definition set_tess_winding_rule (rule : Z) : M World unit :=
  modify (fun w => mk_World (self w) rule (events w)) ;;
  gl (gluTessProperty rule).

(** [tesselate.tesselate(loops)] *)
Definition call_tesselate (loops : list ndarray) : M World (list (float * float)) :=
  rule <- gets tess_winding_rule ;;
  emit (tesselate_call rule loops) ;;
  ret (tesselate rule loops).

(** [ShapeStim._tesselate] *)
Definition _tesselate (newVertices : option ndarray) : M World unit :=
  assign (with_border newVertices) ;;
  closed <- attr closeShape ;;
  tessVertices <-
    (if closed then
       gl glPushMatrix ;;
       rule <- attr windingRule ;;
       when (rule_set rule) (set_tess_winding_rule (rule_value rule)) ;;
       nested <- lift (nested_loops newVertices) ;;
       tv <- call_tesselate (loops_of nested newVertices) ;;
       gl glPopMatrix ;;
       when (rule_set rule) (set_tess_winding_rule default_winding_rule) ;;
       ret (Some tv)
     else ret None) ;;
  closed' <- attr closeShape ;;
  initVertices <-
    match closed', tessVertices with
    | false, _ | true, Some [] =>
        (* probably got a line if tesselate returned [] *)
        assign (with_closeShape false) ;;
        ret (of_optional newVertices)
    | true, Some tv =>
        if Nat.eqb (length tv mod 3) 0
        then ret (of_pairs tv)
        else raise tesselateError
    | true, None => raise UnboundLocalError
    end ;;
  assign (with__tesselVertices initVertices).

(** The setter of [ShapeStim.vertices]. *)
Definition ShapeStim_vertices_setter (newVerts : pyval) : M World unit :=
  a <- lift (val2array (known_or_given newVerts)) ;;
  assign (with_vertices a) ;;
  assign (with__needVertexUpdate true) ;;
  v <- attr vertices ;;
  _tesselate v.

(** [shape == (2,) or (len(shape) == 2 and shape[1] == 2)] *)
Definition shape_ok (a : ndarray) : bool :=
  match shape a with
  | [n] => Nat.eqb n 2
  | [_; m] => Nat.eqb m 2
  | _ => false
  end.

(** The setter of [BaseShapeStim.vertices]: the array is stored before its
    shape is checked. *)
Definition BaseShapeStim_vertices_setter (value : pyval) : M World unit :=
  a <- lift (np_array value) ;;
  assign (with_vertices (Some a)) ;;
  v <- attr vertices ;;
  if shape_ok (of_optional v)
  then assign (with__needVertexUpdate true)
  else raise setXYs_error.

(** [self.vertices = value]: the setter of the class of the object. *)
Definition vertices_setter (value : pyval) : M World unit :=
  c <- attr cls ;;
  match c with
  | BaseShapeStim_class => BaseShapeStim_vertices_setter value
  | _ => ShapeStim_vertices_setter value
  end.

(** The setter of [BaseShapeStim.size]. *)
Definition size_setter (value : pyval) : M World unit :=
  a <- lift (np_array value) ;;
  assign (with_size a) ;;
  assign (with__needVertexUpdate true).

(** Modelled from the spec: the setters of [pos] and [ori], which
    [BaseVisualStim] defines outside these two files; a mutator of position
    or orientation stores the value and marks the vertices dirty. *)
Definition pos_setter (value : pyval) : M World unit :=
  a <- lift (np_array value) ;;
  assign (with_pos a) ;;
  assign (with__needVertexUpdate true).

Definition ori_setter (value : pyval) : M World unit :=
  a <- lift (np_array value) ;;
  assign (with_ori a) ;;
  assign (with__needVertexUpdate true).

(** The setter of [BaseShapeStim.lineWidth]. *)
Definition lineWidth_setter (value : pyval) : M World unit :=
  c <- attr cls ;;
  when (is_Line c && is_number value)
    (when (match value with
           | PyNum x => fgt x (of_Z 127)
           | _ => false
           end)
       (emit (logging warning lineWidth_warning))) ;;
  assign (with_lineWidth value).

(** The setter of [BaseShapeStim.closeShape]. *)
Definition closeShape_setter (value : bool) : M World unit :=
  assign (with_closeShape value).

(** Modelled from the spec: the properties [colorSpace], [fillColor] and
    [lineColor] of [ColorMixin], defined outside these two files.  Setting a
    colour builds the colour object from the value and the colour space of
    the stimulus; reading it gives the colour in that colour space;
    [lineColor] is the border colour. *)
Definition colorSpace_setter (value : string) : M World unit :=
  assign (with_colorSpace value).

Definition fillColor_getter : M World pyval :=
  c <- attr _fillColor ;;
  cs <- attr colorSpace ;;
  ret (render c cs).

Definition fillColor_setter (value : pyval) : M World unit :=
  cs <- attr colorSpace ;;
  assign (with__fillColor (mk_Color value cs)).

Definition lineColor_getter : M World pyval :=
  c <- attr _borderColor ;;
  cs <- attr colorSpace ;;
  ret (render c cs).

Definition lineColor_setter (value : pyval) : M World unit :=
  cs <- attr colorSpace ;;
  assign (with__borderColor (mk_Color value cs)).

(** [operation in ['', '=']] and the like. *)
Definition op_in (operation : string) (ops : list string) : bool :=
  existsb (String.eqb operation) ops.

(** [BaseShapeStim.setFillColor] *)
Definition setFillColor (color : pyval) (colorSpace : option string)
    (operation : string) : M World unit :=
  match colorSpace with
  | Some cs => colorSpace_setter cs
  | None => ret tt
  end ;;
  if op_in operation [EmptyString; "="] then
    fillColor_setter color
  else if op_in operation ["+"] then
    old <- fillColor_getter ;;
    new <- lift (add old color) ;;
    fillColor_setter new
  else if op_in operation ["-"] then
    old <- fillColor_getter ;;
    new <- lift (sub old color) ;;
    fillColor_setter new
  else
    emit (logging error (not_recognised operation)).

(** [BaseShapeStim.setLineColor] *)
Definition setLineColor (color : pyval) (colorSpace : option string)
    (operation : string) : M World unit :=
  match colorSpace with
  | Some cs => colorSpace_setter cs
  | None => ret tt
  end ;;
  if op_in operation [EmptyString; "="] then
    lineColor_setter color
  else if op_in operation ["+"] then
    old <- lineColor_getter ;;
    new <- lift (add old color) ;;
    lineColor_setter new
  else if op_in operation ["-"] then
    old <- lineColor_getter ;;
    new <- lift (sub old color) ;;
    lineColor_setter new
  else
    emit (logging error (not_recognised operation)).

(** [BaseShapeStim.setColor] *)
Definition setColor (color : pyval) (colorSpace : option string)
    (operation : string) : M World unit :=
  setLineColor color colorSpace operation ;;
  setFillColor color colorSpace operation.

(** The arrays the pixel vertices are computed from: the tessellated and
    the original vertices of a [ShapeStim], the vertices of a
    [BaseShapeStim]. *)
Definition fill_source (s : Stim) : option ndarray :=
  match cls s with
  | BaseShapeStim_class => vertices s
  | _ => Some (_tesselVertices s)
  end.

Definition border_source (s : Stim) : option ndarray :=
  match cls s with
  | BaseShapeStim_class => vertices s
  | _ => border s
  end.

Definition to_pix (s : Stim) (a : option ndarray) : ndarray :=
  toPixelSpace (pos s) (size s) (ori s) (units s) (win s) a.

(** Modelled from the spec: [_updateVertices], which [BaseVisualStim]
    defines outside these two files.  One recomputation runs the transform
    pipeline over the fill vertices and over the border vertices with the
    same parameters, and leaves the vertices clean. *)
Definition _updateVertices : M World unit :=
  s <- attr (fun s => s) ;;
  assign (with_dict_verticesPix (to_pix s (fill_source s))) ;;
  assign (with_dict__borderPix (to_pix s (border_source s))) ;;
  assign (with__needVertexUpdate false) ;;
  emit updateVertices.

(** The getter of [ShapeStim.verticesPix]. *)
Definition verticesPix : M World ndarray :=
  dirty <- attr _needVertexUpdate ;;
  when dirty _updateVertices ;;
  attr dict_verticesPix.

(** Modelled from the spec: the getter of [_borderPix], which
    [ContainerMixin] defines outside these two files.  The border pixel
    vertices are the second derived array: a read while the vertices are
    dirty recomputes, as a read of [verticesPix] does. *)
Definition _borderPix : M World ndarray :=
  dirty <- attr _needVertexUpdate ;;
  when dirty _updateVertices ;;
  attr dict__borderPix.

(** *** Drawing *)

(** Null textures on both texture units, or they modulate [glColor]. *)
Definition null_textures : M World unit :=
  gl (glActiveTexture 0) ;;
  gl (glEnable GL_TEXTURE_2D) ;;
  gl (glBindTexture 0) ;;
  gl (glActiveTexture 1) ;;
  gl (glEnable GL_TEXTURE_2D) ;;
  gl (glBindTexture 0).

Definition antialiasing : M World unit :=
  smooth <- attr interpolate ;;
  if smooth
  then gl (glEnable GL_LINE_SMOOTH) ;; gl (glEnable GL_MULTISAMPLE)
  else gl (glDisable GL_LINE_SMOOTH) ;; gl (glDisable GL_MULTISAMPLE).

(** [GL.glLineWidth(w)]: the argument has to convert to a C float. *)
Definition call_glLineWidth (w : pyval) : M World unit :=
  match w with
  | PyNum x => gl (glLineWidth x)
  | _ => raise ArgumentError
  end.

Definition rgba1 (c : Color) : pyval := render c "rgba1".

(** [win = self.win if win is None else win] *)
Definition window_of (own : Window) (win_arg : option Window) : Window :=
  match win_arg with
  | None => own
  | Some w => w
  end.

(** The end of both draw methods. *)
Definition draw_end (win : Window) (keepMatrix : bool) : M World unit :=
  gl glDisableClientState ;;
  when (_haveShaders win) (gl (glUseProgram 0)) ;;
  when (negb keepMatrix) (gl glPopMatrix).

(** [BaseShapeStim.draw], in its four parts: up to
    [glEnableClientState], the fill, the border, the end.  The pixel
    vertices are read once, through the getter [verticesPix]. *)
Definition BaseShapeStim_draw_begin (win : Window) (keepMatrix : bool)
    : M World nat :=
  emit (selectWindow win) ;;
  own <- attr Shape.win ;;
  when (_haveShaders win) (gl (glUseProgram (_progSignedFrag own))) ;;
  (* will check if it needs updating (check just once) *)
  vertsPix <- verticesPix ;;
  nVerts <- lift (shape0 vertsPix) ;;
  when (negb keepMatrix) (gl glPushMatrix ;; emit (setScale win "pix")) ;;
  null_textures ;;
  antialiasing ;;
  gl (glVertexPointer vertsPix) ;;
  gl glEnableClientState ;;
  ret nVerts.

Definition BaseShapeStim_draw_fill (nVerts : nat) : M World unit :=
  when (Nat.ltb 2 nVerts)
    (fill <- attr _fillColor ;;
     when (present fill)
       (gl (glColor4f (rgba1 fill)) ;;
        gl (glDrawArrays GL_POLYGON 0 nVerts))).

Definition BaseShapeStim_draw_border (nVerts : nat) : M World unit :=
  line <- attr _borderColor ;;
  width <- attr lineWidth ;;
  when (present line && ne_zero width)
    (call_glLineWidth width ;;
     gl (glColor4f (rgba1 line)) ;;
     closed <- attr closeShape ;;
     if closed
     then gl (glDrawArrays GL_LINE_LOOP 0 nVerts)
     else gl (glDrawArrays GL_LINE_STRIP 0 nVerts)).

Definition BaseShapeStim_draw (win_arg : option Window) (keepMatrix : bool)
    : M World unit :=
  own <- attr Shape.win ;;
  let win := window_of own win_arg in
  nVerts <- BaseShapeStim_draw_begin win keepMatrix ;;
  BaseShapeStim_draw_fill nVerts ;;
  BaseShapeStim_draw_border nVerts ;;
  draw_end win keepMatrix.

(** [ShapeStim.draw], in its four parts. *)
Definition ShapeStim_draw_begin (win : Window) (keepMatrix : bool)
    : M World unit :=
  emit (selectWindow win) ;;
  when (negb keepMatrix) (gl glPushMatrix ;; emit (setScale win "pix")) ;;
  own <- attr Shape.win ;;
  when (_haveShaders win) (gl (glUseProgram (_progSignedFrag own))) ;;
  null_textures ;;
  antialiasing ;;
  gl glEnableClientState.

(** The test of the fill: [and] evaluates its operands left to right and
    stops at the first false one. *)
Definition ShapeStim_wants_fill : M World bool :=
  closed <- attr closeShape ;;
  if closed then
    vp <- verticesPix ;;
    n <- lift (shape0 vp) ;;
    if Nat.ltb 2 n then
      fill <- attr _fillColor ;;
      ret (present fill)
    else ret false
  else ret false.

(** fill interior triangles if there are any *)
Definition ShapeStim_draw_fill : M World unit :=
  wanted <- ShapeStim_wants_fill ;;
  when wanted
    (vp <- verticesPix ;;
     gl (glVertexPointer vp) ;;
     fill <- attr _fillColor ;;
     gl (glColor4f (rgba1 fill)) ;;
     vp' <- verticesPix ;;
     n <- lift (shape0 vp') ;;
     gl (glDrawArrays GL_TRIANGLES 0 n)).

(** draw the border (= a line connecting the non-tesselated vertices) *)
Definition ShapeStim_draw_border : M World unit :=
  line <- attr _borderColor ;;
  width <- attr lineWidth ;;
  when (present line && truthy width)
    (bp <- _borderPix ;;
     gl (glVertexPointer bp) ;;
     call_glLineWidth width ;;
     gl (glColor4f (rgba1 line)) ;;
     closed <- attr closeShape ;;
     let gl_line := if closed then GL_LINE_LOOP else GL_LINE_STRIP in
     bp' <- _borderPix ;;
     n <- lift (shape0 bp') ;;
     gl (glDrawArrays gl_line 0 n)).

Definition ShapeStim_draw (win_arg : option Window) (keepMatrix : bool)
    : M World unit :=
  own <- attr Shape.win ;;
  let win := window_of own win_arg in
  ShapeStim_draw_begin win keepMatrix ;;
  ShapeStim_draw_fill ;;
  ShapeStim_draw_border ;;
  draw_end win keepMatrix.

End Methods.

End Shape.

(** ** Objects of [target.py] *)

Module Target.
Import Shape.

(** A [TargetStim]: its window, its units and the two shapes it owns. *)
Record TargetStim : Type := mk_TargetStim {
  win : Window;
  units : pyval;
  outer : Stim;
  inner : Stim
}.

(** The target with the state shared by its two shapes. *)
Record World : Type := mk_World {
  self : TargetStim;
  tess_winding_rule : Z;
  events : list event
}.

Definition with_outer (s : Stim) (t : TargetStim) : TargetStim :=
  mk_TargetStim (win t) (units t) s (inner t).

Definition with_inner (s : Stim) (t : TargetStim) : TargetStim :=
  mk_TargetStim (win t) (units t) (outer t) s.

(** Runs a method of one of the two shapes: [self.outer.m(...)] and
    [self.inner.m(...)]. *)
Definition on_shape {A} (get : TargetStim -> Stim)
    (put : Stim -> TargetStim -> TargetStim) (c : M Shape.World A) : M World A :=
  fun w =>
    let back (sw : Shape.World) :=
      mk_World (put (Shape.self sw) (self w)) (Shape.tess_winding_rule sw)
        (Shape.events sw) in
    match c (Shape.mk_World (get (self w)) (tess_winding_rule w) (events w)) with
    | Ok a sw => Ok a (back sw)
    | Raise e sw => Raise e (back sw)
    end.

Definition on_outer {A} : M Shape.World A -> M World A := on_shape outer with_outer.
Definition on_inner {A} : M Shape.World A -> M World A := on_shape inner with_inner.

Definition two : float := of_Z 2.

Section Methods.
Context {collab : Collaborators}.

(** [shape.size[1] / 2] *)
Definition half_height (s : Stim) : exn + float :=
  match item (size s) 1 with
  | inl e => inl e
  | inr h => inr (fdiv h two)
  end.

(** The getters of [outerRadius], [innerRadius] and [radius]. *)
Definition outerRadius : M World float :=
  t <- gets self ;; lift (half_height (outer t)).

Definition innerRadius : M World float :=
  t <- gets self ;; lift (half_height (inner t)).

Definition radius : M World float := outerRadius.

(** [layout.Size((_buffer.pix[1], _buffer.pix[1]), units='pix', win=self.win)]
    for [_buffer = layout.Size((0, value * 2), units=self.units,
    win=self.win)], as the pair of pixels that the size setter of the shape
    stores. *)
Definition square_pix (t : TargetStim) (value : float) : pyval :=
  let h := height_pix (units t) (win t) (fmul value two) in
  PySeq [PyNum h; PyNum h].

(** The setters of [outerRadius] and [innerRadius]. *)
Definition outerRadius_setter (value : float) : M World unit :=
  t <- gets self ;;
  on_outer (size_setter (square_pix t value)).

Definition innerRadius_setter (value : float) : M World unit :=
  t <- gets self ;;
  on_inner (size_setter (square_pix t value)).

(** The setter of [radius]. *)
Definition radius_setter (value : float) : M World unit :=
  (* Work out current ratio between inner and outer radiuses *)
  i <- innerRadius ;;
  o <- outerRadius ;;
  let scale := fdiv i o in
  (* Set outer radius *)
  outerRadius_setter value ;;
  (* Set inner radius to maintain scale *)
  innerRadius_setter (fmul value scale).

(** [shape.fillColor if shape._fillColor else fallback], and the same for
    the border colour. *)
Definition fill_or (s : Stim) (fallback : pyval) : pyval :=
  if present (_fillColor s) then render (_fillColor s) (colorSpace s) else fallback.

Definition border_or (s : Stim) (fallback : pyval) : pyval :=
  if present (_borderColor s) then render (_borderColor s) (colorSpace s) else fallback.

(** [TargetStim.__iter__]: the pairs it yields, in order. *)
Definition __iter__ : M World (list (string * pyval)) :=
  t <- gets self ;;
  (* For outer circle, use window color as transparent *)
  let fillColor := fill_or (outer t) (color (win t)) in
  let borderColor := border_or (outer t) (color (win t)) in
  (* For inner circle, use outer circle fill as transparent *)
  let innerFillColor := fill_or (inner t) fillColor in
  let innerBorderColor := border_or (inner t) borderColor in
  r <- radius ;;
  ri <- innerRadius ;;
  ret [ ("outer_diameter", PyNum (fmul r two));
        ("outer_stroke_width", lineWidth (outer t));
        ("outer_fill_color", fillColor);
        ("outer_line_color", borderColor);
        ("inner_diameter", PyNum (fmul ri two));
        ("inner_stroke_width", lineWidth (inner t));
        ("inner_fill_color", innerFillColor);
        ("inner_line_color", innerBorderColor) ].


End Methods.

(** [dict(target)[key]] *)
Definition lookup (key : string) (d : list (string * pyval)) : option pyval :=
  option_map snd (find (fun kv => String.eqb (fst kv) key) d).

End Target.

(** ** Reference collaborators

    Concrete stand-ins for the collaborators, used to evaluate the model on
    concrete inputs. *)

Module Reference.
Import Shape.

(** Modelled from the spec: [val2array], from
    [psychopy.tools.arraytools].  [None] passes; a scalar becomes the point
    [(x, x)]; a single point, an Nx2 array and a nonempty list of Nx2 arrays
    pass unchanged; anything else is an invalid vertex shape. *)
Definition val2array (value : pyval) : exn + option ndarray :=
  match value with
  | PyNone => inr None
  | _ =>
      match array (fun _ => None) value with
      | None => inl (ValueError "Invalid parameter.")
      | Some a =>
          match shape a, data a with
          | [], [x] => inr (Some (pair x x))
          | [2%nat], _ => inr (Some a)
          | [_; 2%nat], _ => inr (Some a)
          | [S _; _; 2%nat], _ => inr (Some a)
          | _, _ => inl (ValueError "Invalid parameter.")
          end
      end
  end.

Fixpoint points (l : list float) : list (float * float) :=
  match l with
  | x :: y :: r => (x, y) :: points r
  | _ => []
  end.

Fixpoint fan (v0 : float * float) (l : list (float * float)) : list (float * float) :=
  match l with
  | a :: (b :: _) as tl => v0 :: a :: b :: fan v0 tl
  | _ => []
  end.

(** Modelled from the spec: the tessellator of [psychopy.contrib.tesselate]
    on one loop: a loop of N >= 3 points gives the N - 2 triangles of the fan
    around its first point, fewer than three points give no triangle. *)
Definition tesselate (rule : Z) (loops : list ndarray) : list (float * float) :=
  match loops with
  | [a] =>
      match points (data a) with
      | v0 :: rest => fan v0 rest
      | [] => []
      end
  | _ => []
  end.

(** A tessellator whose result is corrupt: four vertices, whatever the
    loops. *)
Definition corrupt_tesselate (rule : Z) (loops : list ndarray) : list (float * float) :=
  let o := of_Z 0 in [(o, o); (o, o); (o, o); (o, o)].

(** Addition and subtraction of two numbers; other operands are a
    [TypeError]. *)
Definition fadd (a b : float) : float :=
  match a, b with
  | Fin p, Fin q => fin (p + q)
  | NaN, _ | _, NaN => NaN
  | Inf s, Fin _ | Fin _, Inf s => Inf s
  | Inf s, Inf t => if Bool.eqb s t then Inf s else NaN
  end.

Definition fneg (a : float) : float :=
  match a with
  | Fin p => fin (- p)
  | Inf s => Inf (negb s)
  | NaN => NaN
  end.

Definition add (a b : pyval) : exn + pyval :=
  match a, b with
  | PyNum x, PyNum y => inr (PyNum (fadd x y))
  | _, _ => inl TypeError
  end.

Definition sub (a b : pyval) : exn + pyval :=
  match a, b with
  | PyNum x, PyNum y => inr (PyNum (fadd x (fneg y)))
  | _, _ => inl TypeError
  end.

(** Modelled from the spec: the collaborators of a stimulus in pixel units
    at the origin, unscaled and unrotated: the pipeline returns the array it
    is given, a height in pixels is the height, a colour renders as the value
    it was requested with, no string is a number, and the default winding
    rule is [GLU_TESS_WINDING_ODD]. *)
Definition collaborators_with
    (tess : Z -> list ndarray -> list (float * float)) : Collaborators :=
  {| float_of_string := fun _ => None;
     Shape.val2array := val2array;
     Shape.tesselate := tess;
     default_winding_rule := 100130%Z;
     render := fun c _ => requested c;
     Shape.add := add;
     Shape.sub := sub;
     toPixelSpace := fun _ _ _ _ _ a => of_optional a;
     height_pix := fun _ _ h => h |}.

Definition collaborators : Collaborators := collaborators_with tesselate.

Definition window : Window := mk_Window (PyStr "grey") true 1%Z.

Definition empty : ndarray := mk_ndarray [0%nat; 2%nat] [].

(** A closed shape of a given class before its vertices are assigned: black
    border, no fill, line width 1.5. *)
Definition stim_of (c : shape_class) : Stim :=
  {| cls := c;
     win := window;
     units := PyStr "pix";
     closeShape := true;
     windingRule := None;
     lineWidth := PyNum (fin (3 # 2));
     interpolate := true;
     colorSpace := "rgb";
     _fillColor := mk_Color PyNone "rgb";
     _borderColor := mk_Color (PyStr "black") "rgb";
     pos := pair (of_Z 0) (of_Z 0);
     ori := scalar (of_Z 0);
     size := pair (of_Z 1) (of_Z 1);
     vertices := None;
     border := None;
     _tesselVertices := empty;
     _needVertexUpdate := true;
     dict_verticesPix := empty;
     dict__borderPix := empty |}.

Definition stim : Stim := stim_of ShapeStim_class.

Definition world_of (s : Stim) : World := mk_World s 100130%Z [].

Definition world : World := world_of stim.

(** The same shape as a line: [closeShape] false. *)
Definition open_world : World := world_of (with_closeShape false stim).

(** Some vertex inputs. *)
Definition point (x y : Z) : pyval := PySeq [PyNum (of_Z x); PyNum (of_Z y)].
Definition triangle : pyval := PySeq [point 0 0; point 1 0; point 0 1].
Definition square : pyval := PySeq [point 0 0; point 1 0; point 1 1; point 0 1].
Definition segment : pyval := PySeq [point 0 0; point 1 1].

Definition red : Color := mk_Color (PyStr "red") "rgb".

(** Shapes with a red fill, as the assignment of their vertices leaves
    them: a closed square, a triangle with [closeShape] false, and a triangle
    that is a [BaseShapeStim]. *)
Definition filled_square : World :=
  final (ShapeStim_vertices_setter (collab := collaborators) square
           (world_of (with__fillColor red stim))).

Definition filled_open_triangle : World :=
  final (ShapeStim_vertices_setter (collab := collaborators) triangle
           (world_of (with__fillColor red (with_closeShape false stim)))).

Definition filled_base_triangle : World :=
  final (BaseShapeStim_vertices_setter (collab := collaborators) triangle
           (world_of (with__fillColor red (stim_of BaseShapeStim_class)))).

(** A target in pixel units on the grey window: an outer circle of radius 1
    with a white border and the given fill, and an inner circle of radius 1/2
    with a red fill and no border; both lines 2 pixels wide. *)
Definition circle (diameter : Z) (fill line : pyval) : Stim :=
  with_size (pair (of_Z diameter) (of_Z diameter))
    (with_lineWidth (PyNum (of_Z 2))
       (with__fillColor (mk_Color fill "rgb")
          (with__borderColor (mk_Color line "rgb") stim))).

Definition target_with (outer_fill : pyval) : Target.World :=
  Target.mk_World
    (Target.mk_TargetStim window (PyStr "pix")
       (circle 2 outer_fill (PyStr "white"))
       (circle 1 (PyStr "red") PyNone))
    100130%Z [].

Definition target : Target.World := target_with (PyStr "blue").

End Reference.

(** ** What a trace shows *)

Module Trace.
Import Shape.

Definition is_tesselate_call (e : event) : bool :=
  match e with
  | tesselate_call _ _ => true
  | _ => false
  end.

Definition is_updateVertices (e : event) : bool :=
  match e with
  | updateVertices => true
  | _ => false
  end.

Definition is_warning (e : event) : bool :=
  match e with
  | logging warning _ => true
  | _ => false
  end.

(** How often the tessellator ran, and how often the pixel vertices were
    recomputed. *)
Definition tessellations (evs : list event) : nat :=
  length (filter is_tesselate_call evs).

Definition recomputations (evs : list event) : nat :=
  length (filter is_updateVertices evs).

(** The primitives submitted, oldest first. *)
Definition submitted (evs : list event) : list gl_mode :=
  flat_map (fun e => match e with
                     | GL (glDrawArrays mode _ _) => [mode]
                     | _ => []
                     end) evs.

(** The winding rule the tessellator runs under when [_tesselate] calls
    it. *)
Definition rule_in_force (w : World) : Z :=
  if rule_set (windingRule (self w))
  then rule_value (windingRule (self w))
  else tess_winding_rule w.

(** The vertices in an array: [a.shape[0]]. *)
Definition count (a : ndarray) : nat :=
  match shape0 a with
  | inr n => n
  | inl _ => 0
  end.

Section Expected.
Context {collab : Collaborators}.

(** What a call of the tessellator by [_tesselate] leaves in the trace,
    and the winding rule it leaves the tessellator set to. *)
Definition tessellation_events (w : World) (loops : list ndarray) : list event :=
  let rule := windingRule (self w) in
  [GL glPushMatrix]
  ++ (if rule_set rule then [GL (gluTessProperty (rule_value rule))] else [])
  ++ [tesselate_call (rule_in_force w) loops; GL glPopMatrix]
  ++ (if rule_set rule then [GL (gluTessProperty default_winding_rule)] else []).

Definition rule_left (w : World) : Z :=
  if rule_set (windingRule (self w)) then default_winding_rule
  else tess_winding_rule w.

(** The world of the setter of [ShapeStim.vertices] when it calls
    [_tesselate]. *)
Definition assigned (a : option ndarray) (w : World) : World :=
  mk_World (with__needVertexUpdate true (with_vertices a (self w)))
    (tess_winding_rule w) (events w).

(** What a read of [verticesPix] returns, and what [_borderPix] is after
    it. *)
Definition pixels (w : World) : ndarray :=
  if _needVertexUpdate (self w)
  then to_pix (self w) (fill_source (self w))
  else dict_verticesPix (self w).

Definition border_pixels (w : World) : ndarray :=
  if _needVertexUpdate (self w)
  then to_pix (self w) (border_source (self w))
  else dict__borderPix (self w).

(** The world with more events, and the world after a read of
    [verticesPix]. *)
Definition log (es : list event) (w : World) : World :=
  mk_World (self w) (tess_winding_rule w) (events w ++ es).

Definition recomputed (s : Stim) : Stim :=
  with__needVertexUpdate false
    (with_dict__borderPix (to_pix s (border_source s))
       (with_dict_verticesPix (to_pix s (fill_source s)) s)).

Definition read (w : World) : World :=
  if _needVertexUpdate (self w)
  then mk_World (recomputed (self w)) (tess_winding_rule w)
         (events w ++ [updateVertices])
  else w.

(** The window a draw call draws in. *)
Definition target_window (win_arg : option Window) (w : World) : Window :=
  window_of (win (self w)) win_arg.

Definition texture_events : list event :=
  [ GL (glActiveTexture 0); GL (glEnable GL_TEXTURE_2D); GL (glBindTexture 0);
    GL (glActiveTexture 1); GL (glEnable GL_TEXTURE_2D); GL (glBindTexture 0) ].

Definition antialiasing_events (w : World) : list event :=
  if interpolate (self w)
  then [GL (glEnable GL_LINE_SMOOTH); GL (glEnable GL_MULTISAMPLE)]
  else [GL (glDisable GL_LINE_SMOOTH); GL (glDisable GL_MULTISAMPLE)].

Definition push_events (win : Window) (keepMatrix : bool) : list event :=
  if keepMatrix then [] else [GL glPushMatrix; setScale win "pix"].

Definition program_events (win : Window) (w : World) : list event :=
  if _haveShaders win
  then [GL (glUseProgram (_progSignedFrag (Shape.win (self w))))]
  else [].

(** The end of both draw methods. *)
Definition teardown_events (win : Window) (keepMatrix : bool) : list event :=
  [GL glDisableClientState]
  ++ (if _haveShaders win then [GL (glUseProgram 0)] else [])
  ++ (if keepMatrix then [] else [GL glPopMatrix]).

Definition line_mode (w : World) : gl_mode :=
  if closeShape (self w) then GL_LINE_LOOP else GL_LINE_STRIP.

(** The line width as the float handed to [glLineWidth]. *)
Definition width_of (v : pyval) : float :=
  match v with
  | PyNum x => x
  | _ => NaN
  end.

(** [ShapeStim.draw]: when it fills and when it draws the border, the
    events of its parts, each with the recomputation its first read of the
    pixel vertices may trigger, and the world each part leaves. *)
Definition ShapeStim_fills (w : World) : bool :=
  closeShape (self w) && Nat.ltb 2 (count (pixels w))
  && present (_fillColor (self w)).

Definition ShapeStim_borders (w : World) : bool :=
  present (_borderColor (self w)) && truthy (lineWidth (self w)).

Definition update_events (w : World) : list event :=
  if _needVertexUpdate (self w) then [updateVertices] else [].

Definition ShapeStim_begin_events (win : Window) (keepMatrix : bool) (w : World)
    : list event :=
  [selectWindow win] ++ push_events win keepMatrix ++ program_events win w
  ++ texture_events ++ antialiasing_events w ++ [GL glEnableClientState].

Definition ShapeStim_fill_events (w : World) : list event :=
  (if closeShape (self w) then update_events w else [])
  ++ (if ShapeStim_fills w
      then [ GL (glVertexPointer (pixels w));
             GL (glColor4f (rgba1 (_fillColor (self w))));
             GL (glDrawArrays GL_TRIANGLES 0 (count (pixels w))) ]
      else []).

Definition after_fill (w : World) : World :=
  if closeShape (self w) then read w else w.

Definition ShapeStim_border_events (w : World) : list event :=
  if ShapeStim_borders w
  then update_events w
       ++ [ GL (glVertexPointer (border_pixels w));
            GL (glLineWidth (width_of (lineWidth (self w))));
            GL (glColor4f (rgba1 (_borderColor (self w))));
            GL (glDrawArrays (line_mode w) 0 (count (border_pixels w))) ]
  else [].

Definition after_border (w : World) : World :=
  if ShapeStim_borders w then read w else w.

(** [BaseShapeStim.draw] likewise. *)
Definition BaseShapeStim_fills (w : World) : bool :=
  Nat.ltb 2 (count (pixels w)) && present (_fillColor (self w)).

Definition BaseShapeStim_borders (w : World) : bool :=
  present (_borderColor (self w)) && ne_zero (lineWidth (self w)).

Definition BaseShapeStim_begin_events (win : Window) (keepMatrix : bool)
    (w : World) : list event :=
  [selectWindow win] ++ program_events win w ++ update_events w
  ++ push_events win keepMatrix ++ texture_events ++ antialiasing_events w
  ++ [GL (glVertexPointer (pixels w)); GL glEnableClientState].

Definition BaseShapeStim_fill_events (w : World) : list event :=
  if BaseShapeStim_fills w
  then [ GL (glColor4f (rgba1 (_fillColor (self w))));
         GL (glDrawArrays GL_POLYGON 0 (count (pixels w))) ]
  else [].

Definition BaseShapeStim_border_events (w : World) : list event :=
  if BaseShapeStim_borders w
  then [ GL (glLineWidth (width_of (lineWidth (self w))));
         GL (glColor4f (rgba1 (_borderColor (self w))));
         GL (glDrawArrays (line_mode w) 0 (count (pixels w))) ]
  else [].

(** The mutators of the geometry, and a sequence of them. *)
Inductive mutation : Type :=
| set_vertices (value : pyval)
| set_size (value : pyval)
| set_pos (value : pyval)
| set_ori (value : pyval).

Definition mutate (m : mutation) : M World unit :=
  match m with
  | set_vertices v => vertices_setter v
  | set_size v => size_setter v
  | set_pos v => pos_setter v
  | set_ori v => ori_setter v
  end.

Fixpoint mutate_all (ms : list mutation) : M World unit :=
  match ms with
  | [] => ret tt
  | m :: rest => mutate m ;; mutate_all rest
  end.

Definition is_set_vertices (m : mutation) : bool :=
  match m with
  | set_vertices _ => true
  | _ => false
  end.

(** The stimulus after [if colorSpace is not None: self.colorSpace =
    colorSpace], and its colour space. *)
Definition spaced (colorSpace : option string) (s : Stim) : Stim :=
  match colorSpace with
  | Some cs => with_colorSpace cs s
  | None => s
  end.

(** [isinstance(value, (int, float)) and value > 127] *)
Definition above_cap (value : pyval) : bool :=
  match value with
  | PyNum x => fgt x (of_Z 127)
  | _ => false
  end.

(** The vertex inputs the spec calls well formed, by the shape of their
    float array: one point, an Nx2 array, or a non-empty list of Nx2
    arrays. *)
Definition well_formed (a : ndarray) : bool :=
  match shape a with
  | [2] => true
  | [_; 2] => true
  | [S _; _; 2] => true
  | _ => false
  end.

End Expected.

End Trace.

(** ** More of [shape.py] *)

Module ShapeMore.
Import Shape Trace.

(** The depth of the OpenGL matrix stack and of the vertex-array client
    state that a trace leaves: pushes less pops, enables less disables. *)
Definition matrix_delta (e : event) : Z :=
  match e with
  | GL glPushMatrix => 1%Z
  | GL glPopMatrix => (-1)%Z
  | _ => 0%Z
  end.

Definition matrix_depth (evs : list event) : Z :=
  fold_right (fun e d => (matrix_delta e + d)%Z) 0%Z evs.

Definition client_delta (e : event) : Z :=
  match e with
  | GL glEnableClientState => 1%Z
  | GL glDisableClientState => (-1)%Z
  | _ => 0%Z
  end.

Definition client_depth (evs : list event) : Z :=
  fold_right (fun e d => (client_delta e + d)%Z) 0%Z evs.

Definition is_error (e : event) : bool :=
  match e with
  | logging error _ => true
  | _ => false
  end.

(** An argument of [__init__] whose default is [False]: left out, or the
    list, tuple, string, number or [None] that was passed. *)
Inductive argument : Type :=
| not_passed
| passed (value : pyval).

(** [a == False]: true of [False] and of a number that is zero. *)
Definition eq_False (a : argument) : bool :=
  match a with
  | not_passed => true
  | passed (PyNum (Fin q)) => Qeq_bool q 0
  | passed _ => false
  end.

(** The value of an argument for which [not a == False] holds. *)
Definition chosen (a : argument) : option pyval :=
  match a with
  | not_passed => None
  | passed v => if eq_False a then None else Some v
  end.

Definition rgb_deprecated : string :=
  "Use of rgb arguments to stimuli are deprecated. Please use color and colorSpace args instead".

Definition colorSpace_deprecated (attribute : string) : string :=
  "Setting color space by attribute rather than by object is deprecated. Value of "
  ++ attribute ++ " has been assigned to colorSpace.".

Section Methods.
Context {collab : Collaborators}.

(** The setter of [BaseShapeStim.color]. *)
Definition color_setter (color : pyval) : M World unit :=
  fillColor_setter color ;;
  lineColor_setter color.

(** The legacy properties [fillColorSpace] and [lineColorSpace]; the second
    is built from the getter of the first. *)
Definition fillColorSpace : M World string := attr colorSpace.

Definition fillColorSpace_setter (value : string) : M World unit :=
  emit (logging warning (colorSpace_deprecated "fillColorSpace")) ;;
  colorSpace_setter value.

Definition lineColorSpace : M World string := fillColorSpace.

Definition lineColorSpace_setter (value : string) : M World unit :=
  emit (logging warning (colorSpace_deprecated "lineColorSpace")) ;;
  colorSpace_setter value.

(** The block "Appearance" of [BaseShapeStim.__init__], from the assignment
    of [colorSpace] to the legacy [fillRGB]. *)
Definition init_appearance (colorSpace : string)
    (fillColor lineColor color lineRGB fillRGB : argument) : M World unit :=
  colorSpace_setter colorSpace ;;
  match chosen fillColor, chosen color with
  | Some v, _ => fillColor_setter v
  | None, Some c =>
      (* Override fillColor with color if not set *)
      fillColor_setter c
  | None, None =>
      (* Default to None if neither are set *)
      fillColor_setter PyNone
  end ;;
  match chosen lineColor, chosen color with
  | Some v, _ => lineColor_setter v
  | None, Some c =>
      (* Override lineColor with color if not set *)
      lineColor_setter c
  | None, None =>
      (* Default to black if neither are set *)
      lineColor_setter (PyStr "black")
  end ;;
  match chosen lineRGB with
  | Some v =>
      (* Override with RGB if set *)
      emit (logging warning rgb_deprecated) ;;
      setLineColor v (Some "rgb") EmptyString
  | None => ret tt
  end ;;
  match chosen fillRGB with
  | Some v =>
      (* Override with RGB if set *)
      emit (logging warning rgb_deprecated) ;;
      setFillColor v (Some "rgb") EmptyString
  | None => ret tt
  end.

(** The same block as [ShapeStim.__init__] reaches it: the call of the
    initialiser of [BaseShapeStim] passes on [colorSpace], [fillColor] and
    [lineColor], and neither [color] nor [lineRGB] nor [fillRGB], which so
    keep their default [False]. *)
Definition ShapeStim_init_appearance (colorSpace : string)
    (fillColor lineColor color lineRGB fillRGB : argument) : M World unit :=
  init_appearance colorSpace fillColor lineColor not_passed not_passed not_passed.

(** [for v in values: stim.vertices = v] on a [ShapeStim]. *)
Fixpoint assign_each (values : list pyval) : M World unit :=
  match values with
  | [] => ret tt
  | v :: rest => ShapeStim_vertices_setter v ;; assign_each rest
  end.

End Methods.

End ShapeMore.

(** ** More of [target.py] *)

Module TargetMore.
Import Shape Target.

(** [v is None] *)
Definition is_None (v : pyval) : bool :=
  match v with
  | PyNone => true
  | _ => false
  end.

(** A [TargetStim] with the attribute [_scale] that the setter of [scale]
    creates: [None] while the attribute does not exist. *)
Record Scaled : Type := mk_Scaled {
  target : World;
  _scale : option float
}.

(** Runs a method of the target on the scaled target. *)
Definition on_target {A} (c : M World A) : M Scaled A :=
  fun s =>
    match c (target s) with
    | Ok a w => Ok a (mk_Scaled w (_scale s))
    | Raise e w => Raise e (mk_Scaled w (_scale s))
    end.

(** A [TargetStim] with the attribute [_style] that the setter of [style]
    creates: [None] while the attribute does not exist. *)
Record Styled : Type := mk_Styled {
  styled : World;
  _style : option pyval
}.

Definition on_styled {A} (c : M World A) : M Styled A :=
  fun s =>
    match c (styled s) with
    | Ok a w => Ok a (mk_Styled w (_style s))
    | Raise e w => Raise e (mk_Styled w (_style s))
    end.

Section Methods.
Context {collab : Collaborators}.

(** The property [lineWidth]: the line width of the outer shape. *)
Definition TargetStim_lineWidth : M World pyval :=
  t <- gets self ;; ret (lineWidth (outer t)).

Definition TargetStim_lineWidth_setter (value : pyval) : M World unit :=
  on_outer (lineWidth_setter value).

(** The property [pos]: it moves both shapes. *)
Definition TargetStim_pos : M World ndarray :=
  t <- gets self ;; ret (pos (outer t)).

Definition TargetStim_pos_setter (value : pyval) : M World unit :=
  on_outer (pos_setter value) ;;
  on_inner (pos_setter value).

(** The property [size], for a value that is a pair [(x, y)] of numbers. *)
Definition TargetStim_size : M World ndarray :=
  t <- gets self ;; ret (size (outer t)).

Definition TargetStim_size_setter (x y : float) : M World unit :=
  on_outer (size_setter (PySeq [PyNum x; PyNum y])) ;;
  t <- gets self ;;
  o0 <- lift (item (size (outer t)) 0) ;;
  i0 <- lift (item (size (inner t)) 0) ;;
  o1 <- lift (item (size (outer t)) 1) ;;
  i1 <- lift (item (size (inner t)) 1) ;;
  on_inner (size_setter (PySeq [ PyNum (fmul (fdiv x o0) i0);
                                 PyNum (fmul (fdiv y o1) i1) ])).

(** [TargetStim.draw]; both shapes are [ShapeStim]s. *)
Definition TargetStim_draw (win_arg : option Window) (keepMatrix : bool)
    : M World unit :=
  on_outer (ShapeStim_draw win_arg keepMatrix) ;;
  on_inner (ShapeStim_draw win_arg keepMatrix).

(** The property [foreColor]; [borderColor] is the line colour of the
    shape. *)
Definition foreColor : M World pyval :=
  (* Return whichever inner color is not None *)
  fill <- on_inner fillColor_getter ;;
  if negb (is_None fill) then on_inner fillColor_getter
  else
    line <- on_inner lineColor_getter ;;
    if negb (is_None line) then on_inner lineColor_getter
    else ret PyNone.

Definition foreColor_setter (value : pyval) : M World unit :=
  (* Set whichever inner color is not None *)
  fill <- on_inner fillColor_getter ;;
  when (negb (is_None fill)) (on_inner (fillColor_setter value)) ;;
  line <- on_inner lineColor_getter ;;
  when (negb (is_None line)) (on_inner (lineColor_setter value)).

(** The property [scale]. *)
Definition scale : M Scaled float :=
  s <- gets _scale ;;
  ret (match s with
       | Some x => x
       | None => of_Z 1
       end).

Definition scale_setter (newScale : float) : M Scaled unit :=
  oldScale <- scale ;;
  r <- on_target radius ;;
  on_target (radius_setter (fmul (fdiv r oldScale) newScale)) ;;
  modify (fun s => mk_Scaled (target s) (Some newScale)).

(** [v == s] for a string [s]. *)
Definition eq_str (v : pyval) (s : string) : bool :=
  match v with
  | PyStr x => String.eqb x s
  | _ => false
  end.

(** The property [style]; the getter returns [None] while the attribute
    [_style] does not exist. *)
Definition style : M Styled pyval :=
  s <- gets _style ;;
  ret (match s with
       | Some v => v
       | None => PyNone
       end).

Definition style_setter (value : pyval) : M Styled unit :=
  modify (fun s => mk_Styled (styled s) (Some value)) ;;
  if eq_str value "circles" then
    (* Two circles *)
    on_styled (on_outer (ShapeStim_vertices_setter (PyStr "circle"))) ;;
    on_styled (on_inner (ShapeStim_vertices_setter (PyStr "circle")))
  else if eq_str value "cross" then
    (* Circle with a cross inside *)
    on_styled (on_outer (ShapeStim_vertices_setter (PyStr "circle"))) ;;
    on_styled (on_inner (ShapeStim_vertices_setter (PyStr "cross")))
  else ret tt.

(** The world a method of one of the two shapes runs in. *)
Definition shape_world (s : Stim) (w : World) : Shape.World :=
  Shape.mk_World s (tess_winding_rule w) (events w).

(** The primitives [ShapeStim.draw] submits for a shape: the triangles of
    the fill, then the line of the border. *)
Definition passes (sw : Shape.World) : list gl_mode :=
  (if Trace.ShapeStim_fills sw then [GL_TRIANGLES] else [])
  ++ (if Trace.ShapeStim_borders sw then [Trace.line_mode sw] else []).

(** A shape on which [ShapeStim.draw] returns: its pixel vertices are
    arrays with a first axis where the method reads their length, and its
    line width is a number where the method draws the border. *)
Definition drawable (sw : Shape.World) : Prop :=
  (closeShape (Shape.self sw) = true -> shape (Trace.pixels sw) <> [])
  /\ (Trace.ShapeStim_borders sw = true ->
      is_number (lineWidth (Shape.self sw)) = true
      /\ shape (Trace.border_pixels sw) <> []).

End Methods.

(** A target in pixel units whose shapes have their vertices: the filled
    square of [Reference] around its open triangle. *)
Definition square_target : World :=
  mk_World
    (mk_TargetStim Reference.window (PyStr "pix")
       (Shape.self Reference.filled_square)
       (Shape.self Reference.filled_open_triangle))
    100130%Z [].

(** *** [targetFromDict] *)

(** A Python [dict] with string keys, in insertion order. *)
Definition dict : Type := list (string * pyval).

(** [key in d] *)
Definition has_key (key : string) (d : dict) : bool :=
  existsb (fun kv => String.eqb (fst kv) key) d.

(** [d[key] = v] *)
Fixpoint set_item (key : string) (v : pyval) (d : dict) : dict :=
  match d with
  | [] => [(key, v)]
  | (k, x) :: rest =>
      if String.eqb k key then (k, v) :: rest else (k, x) :: set_item key v rest
  end.

(** What [targetFromDict] can raise. *)
Inductive raised : Type :=
| KeyError (key : string)
| Builtin (e : exn).

(** [d[key]] *)
Definition get_item (key : string) (d : dict) : raised + pyval :=
  match lookup key d with
  | Some v => inr v
  | None => inl (KeyError key)
  end.

(** [d.get(key)] *)
Definition dict_get (key : string) (d : dict) : pyval :=
  match lookup key d with
  | Some v => v
  | None => PyNone
  end.

Definition required : list string :=
  [ "outer_diameter"; "outer_stroke_width"; "outer_fill_color";
    "outer_line_color"; "inner_diameter"; "inner_stroke_width";
    "inner_fill_color"; "inner_line_color" ].

(** [for key in required: if key not in spec: spec[key] = None] *)
Definition fill_missing (spec : dict) : dict :=
  fold_left (fun d key => if has_key key d then d else set_item key PyNone d)
    required spec.

(** [v / 2] in Python: a number is halved, anything else is a
    [TypeError]. *)
Definition halved (v : pyval) : raised + pyval :=
  match v with
  | PyNum x => inr (PyNum (fdiv x two))
  | _ => inl (Builtin TypeError)
  end.

(** The arguments [targetFromDict] takes from the spec for the constructor
    of [TargetStim]; [name], [style], [pos], [units], [colorSpace],
    [autoLog] and [autoDraw] are passed on as they are. *)
Record TargetArgs : Type := mk_TargetArgs {
  arg_radius : pyval;
  arg_lineWidth : pyval;
  arg_fillColor : pyval;
  arg_borderColor : pyval;
  arg_innerRadius : pyval;
  arg_innerLineWidth : pyval;
  arg_innerFillColor : pyval;
  arg_innerBorderColor : pyval
}.

Definition and_then {A B} (r : raised + A) (k : A -> raised + B) : raised + B :=
  match r with
  | inl e => inl e
  | inr a => k a
  end.

(** [targetFromDict]: the dict it leaves in [spec], and the arguments with
    which it calls [TargetStim], evaluated left to right, or what it raises
    before the call.  The function has no [return]. *)
Definition targetFromDict (spec : dict) : dict * (raised + TargetArgs) :=
  let spec := fill_missing spec in
  (spec,
   and_then (and_then (get_item "outer_diameter" spec) halved) (fun radius =>
   and_then (get_item "outer_stroke_width" spec) (fun lineWidth =>
   and_then (get_item "outer_fill_color" spec) (fun fillColor =>
   and_then (get_item "outer_line_color" spec) (fun borderColor =>
   and_then (and_then (get_item "outer_diameter" spec) halved) (fun innerRadius =>
   and_then (get_item "inner_stroke_width" spec) (fun innerLineWidth =>
   and_then (get_item "inner_fill_color" spec) (fun innerFillColor =>
   and_then (get_item "inner_line_color" spec) (fun innerBorderColor =>
   inr (mk_TargetArgs radius lineWidth fillColor borderColor innerRadius
          innerLineWidth innerFillColor innerBorderColor)))))))))).

End TargetMore.

(** * Properties *)

Module ShapeFacts.
Import Shape Trace.

Ltac world w := destruct w as [? ? ?]; cbn [self tess_winding_rule events] in *.

Lemma bind_Ok {S A B} (c : M S A) (k : A -> M S B) (s s' : S) (a : A) :
  c s = Ok a s' -> bind c k s = k a s'.
Proof. intros H. unfold bind. rewrite H. reflexivity. Qed.

Ltac monad :=
  unfold bind, ret, when, gl, emit, modify, gets, attr, assign, lift, raise, log.

Section Tessellation.
Context {collab : Collaborators}.

Lemma tesselate_open (newVertices : option ndarray) (w : World) :
  closeShape (self w) = false ->
  _tesselate newVertices w =
    Ok tt (mk_World
             (with__tesselVertices (of_optional newVertices)
                (with_closeShape false (with_border newVertices (self w))))
             (tess_winding_rule w) (events w)).
Proof.
  intros Hopen. world w.
  unfold _tesselate, bind, assign, attr, modify, gets, ret, raise.
  repeat (cbn; rewrite ?Hopen). reflexivity.
Qed.

(** The three ways a closed shape leaves [_tesselate]. *)
Lemma tesselate_closed (a : ndarray) (nested : bool) (w : World) :
  closeShape (self w) = true ->
  item00_has_iter a = inr nested ->
  let loops := loops_of nested (Some a) in
  let tv := tesselate (rule_in_force w) loops in
  let evs := events w ++ tessellation_events w loops in
  let bordered := with_border (Some a) (self w) in
  _tesselate (Some a) w =
    match tv with
    | [] =>
        Ok tt (mk_World (with__tesselVertices a (with_closeShape false bordered))
                 (rule_left w) evs)
    | _ :: _ =>
        if Nat.eqb (length tv mod 3) 0
        then Ok tt (mk_World (with__tesselVertices (of_pairs tv) bordered)
                      (rule_left w) evs)
        else Raise tesselateError (mk_World bordered (rule_left w) evs)
    end.
Proof.
  intros Hclosed Hitem. world w.
  unfold _tesselate, call_tesselate, set_tess_winding_rule, tessellation_events,
    rule_left, rule_in_force, nested_loops, bind, assign, attr, gl, emit, modify,
    gets, ret, when, lift, raise.
  cbn. rewrite Hclosed, Hitem. cbn.
  destruct (rule_set (windingRule self0)) eqn:Hrule; cbn;
    rewrite ?Hclosed; cbn;
    match goal with
    | |- context [tesselate ?r ?l] => destruct (tesselate r l) as [|v tv] eqn:Htv
    end; cbn; rewrite <- ?app_assoc; cbn; try reflexivity;
    match goal with
    | |- context [Nat.eqb ?n 0] => destruct (Nat.eqb n 0)
    end; reflexivity.
Qed.

Lemma setter_accepts (newVerts : pyval) (a : option ndarray) (w : World) :
  val2array (known_or_given newVerts) = inr a ->
  ShapeStim_vertices_setter newVerts w = _tesselate a (assigned a w).
Proof.
  intros Hval. world w.
  unfold ShapeStim_vertices_setter, assigned, bind, lift, ret, assign, attr,
    modify, gets.
  rewrite Hval. reflexivity.
Qed.

Lemma setter_rejects (newVerts : pyval) (e : exn) (w : World) :
  val2array (known_or_given newVerts) = inl e ->
  ShapeStim_vertices_setter newVerts w = Raise e w.
Proof.
  intros Hval.
  unfold ShapeStim_vertices_setter, bind, lift, raise.
  rewrite Hval. reflexivity.
Qed.

Lemma tessellations_once (w : World) (loops : list ndarray) :
  tessellations (events w ++ tessellation_events w loops)
  = S (tessellations (events w)).
Proof.
  unfold tessellations, tessellation_events.
  rewrite filter_app, length_app.
  destruct (rule_set (windingRule (self w))); cbn; lia.
Qed.

(** C1. With [closeShape] false, [_tesselate] stores a float array of the
    vertices it is given as the fill vertices and leaves the trace as it
    was: the tessellator and OpenGL are not called.  The same holds for an
    assignment to [vertices]: it never reaches the tessellator, and once
    [val2array] has normalised the input to an array, that array is both
    the vertices and the fill vertices. *)
Theorem open_shape_is_not_tessellated (w : World) :
  closeShape (self w) = false ->
  (forall newVertices : option ndarray,
      exists s',
        _tesselate newVertices w
        = Ok tt (mk_World s' (tess_winding_rule w) (events w))
        /\ _tesselVertices s' = of_optional newVertices
        /\ border s' = newVertices
        /\ closeShape s' = false)
  /\ (forall newVerts : pyval,
         events (final (ShapeStim_vertices_setter newVerts w)) = events w
         /\ tessellations (events (final (ShapeStim_vertices_setter newVerts w)))
            = tessellations (events w)
         /\ forall a : ndarray,
             val2array (known_or_given newVerts) = inr (Some a) ->
             exists s',
               ShapeStim_vertices_setter newVerts w
               = Ok tt (mk_World s' (tess_winding_rule w) (events w))
               /\ vertices s' = Some a
               /\ _tesselVertices s' = a
               /\ closeShape s' = false).
Proof.
  intros Hopen. split.
  - intros newVertices. eexists. split.
    + apply tesselate_open, Hopen.
    + repeat split.
  - intros newVerts.
    assert (Hev : events (final (ShapeStim_vertices_setter newVerts w)) = events w).
    { destruct (val2array (known_or_given newVerts)) as [e|a] eqn:Hval.
      - rewrite (setter_rejects _ _ _ Hval). reflexivity.
      - rewrite (setter_accepts _ _ _ Hval).
        rewrite (tesselate_open _ (assigned a w) Hopen). reflexivity. }
    split; [exact Hev|]. split; [rewrite Hev; reflexivity|].
    intros a Hval. eexists. split.
    + rewrite (setter_accepts _ _ _ Hval).
      rewrite (tesselate_open _ (assigned (Some a) w) Hopen). reflexivity.
    + repeat split.
Qed.

(** C2. A closed shape whose vertices reach the tessellator and come back
    as no triangles at all: the assignment returns, the fill vertices are
    the vertices as assigned, and [closeShape] is false from then on, so
    that the border of a later draw call is a line strip. *)
Theorem degenerate_closed_shape_degrades
    (newVerts : pyval) (a : ndarray) (nested : bool) (w : World) :
  closeShape (self w) = true ->
  val2array (known_or_given newVerts) = inr (Some a) ->
  item00_has_iter a = inr nested ->
  tesselate (rule_in_force w) (loops_of nested (Some a)) = [] ->
  exists w',
    ShapeStim_vertices_setter newVerts w = Ok tt w'
    /\ vertices (self w') = Some a
    /\ border (self w') = Some a
    /\ _tesselVertices (self w') = a
    /\ closeShape (self w') = false
    /\ line_mode w' = GL_LINE_STRIP
    /\ tessellations (events w') = S (tessellations (events w)).
Proof.
  intros Hclosed Hval Hitem Hempty.
  rewrite (setter_accepts _ _ _ Hval).
  rewrite (tesselate_closed a nested (assigned (Some a) w) Hclosed Hitem).
  change (rule_in_force (assigned (Some a) w)) with (rule_in_force w).
  rewrite Hempty. eexists. split; [reflexivity|].
  repeat split. apply (tessellations_once (assigned (Some a) w)).
Qed.

(** C3, as amended. A closed shape whose vertices reach the tessellator:
    the tessellator runs once; a non-empty result whose length is not a
    multiple of 3 makes the assignment raise the tessellation error; a
    non-empty result whose length is a multiple of 3 is stored as the fill
    vertices, so their count is a multiple of 3. *)
Theorem corrupt_tessellation_is_an_error
    (newVerts : pyval) (a : ndarray) (nested : bool) (w : World) :
  closeShape (self w) = true ->
  val2array (known_or_given newVerts) = inr (Some a) ->
  item00_has_iter a = inr nested ->
  let tv := tesselate (rule_in_force w) (loops_of nested (Some a)) in
  let r := ShapeStim_vertices_setter newVerts w in
  tessellations (events (final r)) = S (tessellations (events w))
  /\ (tv <> [] -> length tv mod 3 <> 0 ->
      exists w', r = Raise tesselateError w')
  /\ (tv <> [] -> length tv mod 3 = 0 ->
      exists w',
        r = Ok tt w'
        /\ _tesselVertices (self w') = of_pairs tv
        /\ closeShape (self w') = true
        /\ shape0 (_tesselVertices (self w')) = inr (length tv)
        /\ count (_tesselVertices (self w')) mod 3 = 0).
Proof.
  intros Hclosed Hval Hitem tv r. subst r.
  rewrite (setter_accepts _ _ _ Hval).
  rewrite (tesselate_closed a nested (assigned (Some a) w) Hclosed Hitem).
  change (rule_in_force (assigned (Some a) w)) with (rule_in_force w).
  fold tv.
  pose proof (tessellations_once (assigned (Some a) w)
                (loops_of nested (Some a))) as Honce.
  change (events (assigned (Some a) w)) with (events w) in Honce.
  destruct tv as [|v tv'] eqn:Htv.
  - split; [exact Honce|]. split; intros Hne; congruence.
  - destruct (Nat.eqb (length (v :: tv') mod 3) 0) eqn:Hmod.
    + apply Nat.eqb_eq in Hmod. split; [exact Honce|].
      split; [intros _ Hbad; congruence|].
      intros _ _. eexists. split; [reflexivity|].
      split; [reflexivity|]. split; [exact Hclosed|].
      split; [reflexivity|]. exact Hmod.
    + apply Nat.eqb_neq in Hmod. split; [exact Honce|].
      split; [intros _ _; eexists; reflexivity|].
      intros _ Hgood. congruence.
Qed.

End Tessellation.

(** C1 at a triangle assigned to an open shape. *)
Lemma open_shape_is_not_tessellated_witness :
  closeShape (self Reference.open_world) = false
  /\ exists s',
       ShapeStim_vertices_setter (collab := Reference.collaborators)
         Reference.triangle Reference.open_world
       = Ok tt (mk_World s' (tess_winding_rule Reference.open_world)
                  (events Reference.open_world))
       /\ vertices s' = Some (mk_ndarray [3; 2]%nat
                                (map of_Z [0; 0; 1; 0; 0; 1]%Z))
       /\ _tesselVertices s' = mk_ndarray [3; 2]%nat
                                 (map of_Z [0; 0; 1; 0; 0; 1]%Z)
       /\ closeShape s' = false.
Proof.
  split; [reflexivity|].
  apply (open_shape_is_not_tessellated (collab := Reference.collaborators)
           Reference.open_world eq_refl).
  reflexivity.
Defined.

(** C2 at a two-point segment assigned to a closed shape: no triangle comes
    back. *)
Lemma degenerate_closed_shape_degrades_witness :
  exists w',
    ShapeStim_vertices_setter (collab := Reference.collaborators)
      Reference.segment Reference.world = Ok tt w'
    /\ vertices (self w') = Some (mk_ndarray [2; 2]%nat (map of_Z [0; 0; 1; 1]%Z))
    /\ border (self w') = Some (mk_ndarray [2; 2]%nat (map of_Z [0; 0; 1; 1]%Z))
    /\ _tesselVertices (self w') = mk_ndarray [2; 2]%nat (map of_Z [0; 0; 1; 1]%Z)
    /\ closeShape (self w') = false
    /\ line_mode w' = GL_LINE_STRIP
    /\ tessellations (events w') = S (tessellations (events Reference.world)).
Proof.
  apply (degenerate_closed_shape_degrades (collab := Reference.collaborators)
           Reference.segment _ false Reference.world);
    reflexivity.
Defined.

(** C3 as stated fails where the tessellator returns the empty list: the
    segment is stored as the fill vertices, two of them, and nothing is
    raised. *)
Lemma empty_tessellation_stores_raw_vertices :
  closeShape (self Reference.world) = true
  /\ Reference.tesselate (rule_in_force Reference.world)
       [mk_ndarray [2; 2] (map of_Z [0; 0; 1; 1]%Z)] = []
  /\ returned (ShapeStim_vertices_setter (collab := Reference.collaborators)
                 Reference.segment Reference.world) = true
  /\ shape0 (_tesselVertices
               (self (final (ShapeStim_vertices_setter
                               (collab := Reference.collaborators)
                               Reference.segment Reference.world))))
     = inr 2
  /\ 2 mod 3 <> 0.
Proof.
  repeat split; try reflexivity. discriminate.
Qed.

(** C3, as amended, at a square (two triangles come back) and under a
    tessellator that returns four vertices. *)
Lemma corrupt_tessellation_is_an_error_witness :
  (exists w',
      ShapeStim_vertices_setter (collab := Reference.collaborators)
        Reference.square Reference.world = Ok tt w'
      /\ count (_tesselVertices (self w')) = 6%nat)
  /\ (exists w',
         ShapeStim_vertices_setter
           (collab := Reference.collaborators_with Reference.corrupt_tesselate)
           Reference.square Reference.world = Raise tesselateError w').
Proof.
  split.
  - destruct (corrupt_tessellation_is_an_error
                (collab := Reference.collaborators) Reference.square
                (mk_ndarray [4; 2]%nat (map of_Z [0; 0; 1; 0; 1; 1; 0; 1]%Z))
                false Reference.world eq_refl eq_refl eq_refl)
      as (_ & _ & Hgood).
    destruct Hgood as (w' & Hrun & Hfill & _ & _ & _);
      [discriminate | reflexivity |].
    exists w'. split; [exact Hrun|]. rewrite Hfill. reflexivity.
  - destruct (corrupt_tessellation_is_an_error
                (collab := Reference.collaborators_with Reference.corrupt_tesselate)
                Reference.square
                (mk_ndarray [4; 2]%nat (map of_Z [0; 0; 1; 0; 1; 1; 0; 1]%Z))
                false Reference.world eq_refl eq_refl eq_refl)
      as (_ & Hbad & _).
    apply Hbad; discriminate.
Defined.

Section Drawing.
Context {collab : Collaborators}.

Lemma verticesPix_read (w : World) : verticesPix w = Ok (pixels w) (read w).
Proof.
  world w.
  unfold verticesPix, _updateVertices, pixels, read, recomputed. monad. cbn.
  destruct (_needVertexUpdate self0); reflexivity.
Qed.

Lemma borderPix_read (w : World) : _borderPix w = Ok (border_pixels w) (read w).
Proof.
  world w.
  unfold _borderPix, _updateVertices, border_pixels, read, recomputed. monad. cbn.
  destruct (_needVertexUpdate self0); reflexivity.
Qed.

(** What a read leaves: clean vertices, both arrays as the read returned
    them, the style as it was, one more [updateVertices] if the vertices were
    dirty. *)
Lemma read_spec (w : World) :
  _needVertexUpdate (self (read w)) = false
  /\ dict_verticesPix (self (read w)) = pixels w
  /\ dict__borderPix (self (read w)) = border_pixels w
  /\ _fillColor (self (read w)) = _fillColor (self w)
  /\ _borderColor (self (read w)) = _borderColor (self w)
  /\ lineWidth (self (read w)) = lineWidth (self w)
  /\ closeShape (self (read w)) = closeShape (self w)
  /\ tess_winding_rule (read w) = tess_winding_rule w
  /\ events (read w) = events w ++ update_events w.
Proof.
  unfold read, pixels, border_pixels, update_events.
  destruct (_needVertexUpdate (self w)) eqn:Hdirty; cbn;
    rewrite ?app_nil_r; repeat split; assumption.
Qed.

Lemma read_clean (w : World) : _needVertexUpdate (self w) = false -> read w = w.
Proof. intros Hclean. unfold read. rewrite Hclean. reflexivity. Qed.

Lemma read_read (w : World) : read (read w) = read w.
Proof. apply read_clean, read_spec. Qed.

Lemma pixels_read (w : World) :
  pixels (read w) = pixels w /\ border_pixels (read w) = border_pixels w.
Proof.
  destruct (read_spec w) as (Hclean & Hpix & Hborder & _).
  unfold pixels at 1, border_pixels at 1. rewrite Hclean. auto.
Qed.

Lemma draw_end_events (win : Window) (keepMatrix : bool) (w : World) :
  draw_end win keepMatrix w = Ok tt (log (teardown_events win keepMatrix) w).
Proof.
  world w. unfold draw_end, teardown_events. monad.
  destruct (_haveShaders win), keepMatrix; cbn; rewrite <- ?app_assoc; reflexivity.
Qed.

Lemma ShapeStim_draw_begin_events (win : Window) (keepMatrix : bool) (w : World) :
  ShapeStim_draw_begin win keepMatrix w
  = Ok tt (log (ShapeStim_begin_events win keepMatrix w) w).
Proof.
  world w.
  unfold ShapeStim_draw_begin, ShapeStim_begin_events, null_textures, antialiasing,
    push_events, program_events, texture_events, antialiasing_events.
  monad.
  destruct keepMatrix, (_haveShaders win); cbn; destruct (interpolate self0); cbn;
    rewrite <- ?app_assoc; reflexivity.
Qed.

Lemma ShapeStim_draw_fill_events (w : World) :
  (closeShape (self w) = true -> shape (pixels w) <> []) ->
  ShapeStim_draw_fill w
  = Ok tt (mk_World (self (after_fill w)) (tess_winding_rule w)
             (events w ++ ShapeStim_fill_events w)).
Proof.
  intros Hpix.
  unfold ShapeStim_draw_fill, ShapeStim_wants_fill, ShapeStim_fill_events,
    ShapeStim_fills, after_fill, count.
  unfold bind at 1. unfold bind at 1. unfold attr at 1, gets at 1.
  destruct (closeShape (self w)) eqn:Hclosed; cbn [andb].
  - specialize (Hpix eq_refl).
    rewrite (bind_Ok _ _ _ _ _ (verticesPix_read w)).
    unfold shape0. destruct (shape (pixels w)) as [|n rest] eqn:Hshape; [congruence|].
    unfold lift at 1, bind at 1, ret at 1.
    destruct (read_spec w) as (Hclean & Hdict & _ & Hfill & _ & _ & _ & Hrule & Hev).
    rewrite <- Hfill, <- Hrule, app_assoc, <- Hev.
    destruct (read w) as [s1 r1 e1]. cbn [self tess_winding_rule events] in *.
    unfold verticesPix. monad.
    destruct (Nat.ltb 2 n); cbn; [|rewrite app_nil_r; reflexivity].
    destruct (present (_fillColor s1)); cbn; [|rewrite app_nil_r; reflexivity].
    rewrite Hclean. cbn. rewrite Hclean. cbn. rewrite Hdict, Hshape. cbn.
    rewrite <- ?app_assoc. reflexivity.
  - cbn. rewrite app_nil_r. destruct w; reflexivity.
Qed.

Lemma ShapeStim_draw_border_events (w : World) :
  (ShapeStim_borders w = true ->
   is_number (lineWidth (self w)) = true /\ shape (border_pixels w) <> []) ->
  ShapeStim_draw_border w
  = Ok tt (mk_World (self (after_border w)) (tess_winding_rule w)
             (events w ++ ShapeStim_border_events w)).
Proof.
  intros Hborder.
  unfold ShapeStim_draw_border, ShapeStim_border_events, after_border, line_mode.
  unfold bind at 1, attr at 1, gets at 1.
  unfold bind at 1, attr at 1, gets at 1.
  fold (ShapeStim_borders w).
  destruct (ShapeStim_borders w); unfold when;
    [|unfold ret; rewrite app_nil_r; destruct w; reflexivity].
  destruct (Hborder eq_refl) as [Hnum Hshape].
  rewrite (bind_Ok _ _ _ _ _ (borderPix_read w)).
  destruct (read_spec w)
    as (Hclean & _ & Hdict & _ & Hline & Hwidth & Hclosed & Hrule & Hev).
  rewrite <- Hrule, app_assoc, <- Hev, <- Hclosed.
  destruct (lineWidth (self w)) as [| |x|]; try discriminate Hnum.
  unfold count, shape0.
  destruct (shape (border_pixels w)) as [|n rest] eqn:Hs; [congruence|].
  destruct (read w) as [s1 r1 e1]. cbn [self tess_winding_rule events] in *.
  unfold _borderPix, call_glLineWidth. monad. cbn.
  rewrite Hclean. cbn. rewrite Hdict, Hs. cbn.
  rewrite <- ?app_assoc. reflexivity.
Qed.

Lemma BaseShapeStim_draw_begin_events (win : Window) (keepMatrix : bool) (w : World) :
  shape (pixels w) <> [] ->
  BaseShapeStim_draw_begin win keepMatrix w
  = Ok (count (pixels w))
      (mk_World (self (read w)) (tess_winding_rule w)
         (events w ++ BaseShapeStim_begin_events win keepMatrix w)).
Proof.
  intros Hpix. world w.
  unfold BaseShapeStim_draw_begin, verticesPix, _updateVertices, null_textures,
    antialiasing, BaseShapeStim_begin_events, update_events, push_events,
    program_events, texture_events, antialiasing_events, pixels, read, recomputed,
    count, shape0 in *.
  monad. cbn in *.
  destruct (_needVertexUpdate self0) eqn:Hdirty; cbn in *.
  - destruct (shape (to_pix self0 (fill_source self0))) as [|n rest] eqn:Hshape;
      [congruence|].
    destruct (_haveShaders win); cbn; rewrite ?Hdirty; cbn; rewrite ?Hshape; cbn;
      destruct keepMatrix; cbn; destruct (interpolate self0); cbn;
      rewrite <- ?app_assoc; reflexivity.
  - destruct (shape (dict_verticesPix self0)) as [|n rest] eqn:Hshape;
      [congruence|].
    destruct (_haveShaders win); cbn; rewrite ?Hdirty; cbn; rewrite ?Hshape; cbn;
      destruct keepMatrix; cbn; destruct (interpolate self0); cbn;
      rewrite <- ?app_assoc; reflexivity.
Qed.

Lemma BaseShapeStim_draw_fill_events (w0 w : World) :
  _fillColor (self w) = _fillColor (self w0) ->
  BaseShapeStim_draw_fill (count (pixels w0)) w
  = Ok tt (log (BaseShapeStim_fill_events w0) w).
Proof.
  intros Hfill. world w.
  unfold BaseShapeStim_draw_fill, BaseShapeStim_fill_events, BaseShapeStim_fills.
  unfold when at 1.
  destruct (Nat.ltb 2 (count (pixels w0)));
    [|monad; cbn; rewrite app_nil_r; reflexivity].
  monad. cbn. rewrite Hfill.
  destruct (present (_fillColor (self w0)));
    cbn; rewrite <- ?app_assoc, ?app_nil_r; reflexivity.
Qed.

Lemma BaseShapeStim_draw_border_events (w0 w : World) :
  _borderColor (self w) = _borderColor (self w0) ->
  lineWidth (self w) = lineWidth (self w0) ->
  closeShape (self w) = closeShape (self w0) ->
  (BaseShapeStim_borders w0 = true -> is_number (lineWidth (self w0)) = true) ->
  BaseShapeStim_draw_border (count (pixels w0)) w
  = Ok tt (log (BaseShapeStim_border_events w0) w).
Proof.
  intros Hline Hwidth Hclosed Hnum. world w.
  unfold BaseShapeStim_draw_border, BaseShapeStim_border_events,
    BaseShapeStim_borders, call_glLineWidth, line_mode in *.
  monad. cbn. rewrite Hline, Hwidth.
  destruct (present (_borderColor (self w0)) && ne_zero (lineWidth (self w0)));
    [|rewrite app_nil_r; reflexivity].
  specialize (Hnum eq_refl).
  destruct (lineWidth (self w0)); try discriminate Hnum. cbn.
  rewrite Hclosed.
  destruct (closeShape (self w0)); cbn; rewrite <- ?app_assoc; reflexivity.
Qed.

(** The fill pass leaves the style and the border pixels as they were. *)
Lemma after_fill_spec (w : World) :
  _borderColor (self (after_fill w)) = _borderColor (self w)
  /\ lineWidth (self (after_fill w)) = lineWidth (self w)
  /\ closeShape (self (after_fill w)) = closeShape (self w)
  /\ border_pixels (after_fill w) = border_pixels w.
Proof.
  unfold after_fill.
  destruct (closeShape (self w)) eqn:Hclosed.
  - destruct (read_spec w) as (_ & _ & _ & _ & Hline & Hwidth & Hc & _).
    destruct (pixels_read w) as [_ Hb].
    rewrite Hline, Hwidth, Hc, Hb. auto.
  - auto.
Qed.

Lemma after_fill_log (es : list event) (w : World) :
  self (after_fill (log es w)) = self (after_fill w).
Proof.
  unfold after_fill, read, log. cbn.
  destruct (closeShape (self w)), (_needVertexUpdate (self w)); reflexivity.
Qed.

Lemma ShapeStim_border_events_self (a b : World) :
  self a = self b -> ShapeStim_border_events a = ShapeStim_border_events b.
Proof.
  intros Hself.
  unfold ShapeStim_border_events, ShapeStim_borders, update_events, border_pixels,
    line_mode.
  rewrite Hself. reflexivity.
Qed.

Lemma ShapeStim_draw_events (win_arg : option Window) (keepMatrix : bool) (w : World) :
  (closeShape (self w) = true -> shape (pixels w) <> []) ->
  (ShapeStim_borders w = true ->
   is_number (lineWidth (self w)) = true /\ shape (border_pixels w) <> []) ->
  exists w',
    ShapeStim_draw win_arg keepMatrix w = Ok tt w'
    /\ self w' = self (after_border (after_fill w))
    /\ events w'
       = events w
         ++ ShapeStim_begin_events (target_window win_arg w) keepMatrix w
         ++ ShapeStim_fill_events w
         ++ ShapeStim_border_events (after_fill w)
         ++ teardown_events (target_window win_arg w) keepMatrix.
Proof.
  intros Hpix Hborder.
  unfold ShapeStim_draw.
  unfold bind at 1, attr at 1, gets at 1.
  fold (target_window win_arg w).
  rewrite (bind_Ok _ _ _ _ _ (ShapeStim_draw_begin_events _ _ w)).
  set (w1 := log _ w).
  assert (Hpix1 : closeShape (self w1) = true -> shape (pixels w1) <> []) by exact Hpix.
  rewrite (bind_Ok _ _ _ _ _ (ShapeStim_draw_fill_events w1 Hpix1)).
  subst w1. rewrite after_fill_log.
  change (ShapeStim_fill_events (log _ w)) with (ShapeStim_fill_events w).
  set (w2 := mk_World _ _ _).
  destruct (after_fill_spec w) as (Hline & Hwidth & Hclosed & Hbp).
  assert (Hself2 : self w2 = self (after_fill w)) by reflexivity.
  assert (Hborder2 : ShapeStim_borders w2 = true ->
                     is_number (lineWidth (self w2)) = true
                     /\ shape (border_pixels w2) <> []).
  { change (border_pixels w2) with (border_pixels (after_fill w)).
    unfold ShapeStim_borders. rewrite Hself2, Hline, Hwidth, Hbp.
    exact Hborder. }
  rewrite (bind_Ok _ _ _ _ _ (ShapeStim_draw_border_events w2 Hborder2)).
  rewrite draw_end_events.
  eexists. split; [reflexivity|]. split.
  - cbn [self log]. unfold after_border.
    change (ShapeStim_borders w2) with (ShapeStim_borders (after_fill w)).
    destruct (ShapeStim_borders (after_fill w)); [|reflexivity].
    unfold read. cbn [self w2].
    destruct (_needVertexUpdate (self (after_fill w))); reflexivity.
  - cbn [events log w2].
    rewrite (ShapeStim_border_events_self w2 (after_fill w) Hself2).
    rewrite <- !app_assoc. reflexivity.
Qed.

Lemma BaseShapeStim_draw_events (win_arg : option Window) (keepMatrix : bool) (w : World) :
  shape (pixels w) <> [] ->
  (BaseShapeStim_borders w = true -> is_number (lineWidth (self w)) = true) ->
  exists w',
    BaseShapeStim_draw win_arg keepMatrix w = Ok tt w'
    /\ self w' = self (read w)
    /\ events w'
       = events w
         ++ BaseShapeStim_begin_events (target_window win_arg w) keepMatrix w
         ++ BaseShapeStim_fill_events w
         ++ BaseShapeStim_border_events w
         ++ teardown_events (target_window win_arg w) keepMatrix.
Proof.
  intros Hpix Hnum.
  unfold BaseShapeStim_draw.
  unfold bind at 1, attr at 1, gets at 1.
  fold (target_window win_arg w).
  rewrite (bind_Ok _ _ _ _ _ (BaseShapeStim_draw_begin_events _ _ w Hpix)).
  destruct (read_spec w) as (_ & _ & _ & Hfill & Hline & Hwidth & Hclosed & _).
  set (w1 := mk_World _ _ _).
  rewrite (bind_Ok _ _ _ _ _ (BaseShapeStim_draw_fill_events w w1 Hfill)).
  rewrite (bind_Ok _ _ _ _ _
             (BaseShapeStim_draw_border_events w (log _ w1) Hline Hwidth Hclosed Hnum)).
  rewrite draw_end_events.
  eexists. split; [reflexivity|]. split; [reflexivity|].
  cbn [events log w1]. rewrite <- !app_assoc. reflexivity.
Qed.

(** The primitives in the parts of a draw. *)
Lemma submitted_app (a b : list event) :
  submitted (a ++ b) = submitted a ++ submitted b.
Proof. unfold submitted. apply flat_map_app. Qed.

Lemma submitted_frame (win : Window) (keepMatrix : bool) (w : World) :
  submitted (ShapeStim_begin_events win keepMatrix w) = []
  /\ submitted (BaseShapeStim_begin_events win keepMatrix w) = []
  /\ submitted (teardown_events win keepMatrix) = [].
Proof.
  unfold ShapeStim_begin_events, BaseShapeStim_begin_events, teardown_events,
    push_events, program_events, update_events, antialiasing_events, texture_events.
  destruct keepMatrix, (_haveShaders win), (interpolate (self w)),
    (_needVertexUpdate (self w)); repeat split.
Qed.

Lemma submitted_passes (w : World) :
  submitted (ShapeStim_fill_events w)
  = (if ShapeStim_fills w then [GL_TRIANGLES] else [])
  /\ submitted (ShapeStim_border_events (after_fill w))
     = (if ShapeStim_borders w then [line_mode w] else [])
  /\ submitted (BaseShapeStim_fill_events w)
     = (if BaseShapeStim_fills w then [GL_POLYGON] else [])
  /\ submitted (BaseShapeStim_border_events w)
     = (if BaseShapeStim_borders w then [line_mode w] else []).
Proof.
  destruct (after_fill_spec w) as (Hline & Hwidth & Hclosed & _).
  unfold ShapeStim_fill_events, ShapeStim_border_events, BaseShapeStim_fill_events,
    BaseShapeStim_border_events, update_events, line_mode.
  unfold ShapeStim_borders at 1. rewrite Hline, Hwidth, Hclosed.
  fold (ShapeStim_borders w).
  destruct (ShapeStim_fills w), (ShapeStim_borders w), (BaseShapeStim_fills w),
    (BaseShapeStim_borders w), (closeShape (self w)),
    (_needVertexUpdate (self w)), (_needVertexUpdate (self (after_fill w)));
    repeat split.
Qed.

(** C6, as amended. A draw call that returns submits its fill before its
    border and nothing else.  [ShapeStim.draw] submits the fill triangles
    exactly when [closeShape] is true, there are more than two pixel vertices
    and the fill colour is present; [BaseShapeStim.draw] submits the fill
    polygon exactly when there are more than two pixel vertices and the fill
    colour is present.  Both submit the border exactly when the border
    colour is present and the line width is not zero, as a line loop when
    [closeShape] is true and as a line strip otherwise.  A draw call returns
    when the pixel vertices it reads are not 0-d arrays and the line width it
    hands to OpenGL is a number. *)
Theorem draw_submits_fill_then_border
    (win_arg : option Window) (keepMatrix : bool) (w : World) :
  ((closeShape (self w) = true -> shape (pixels w) <> []) ->
   (ShapeStim_borders w = true ->
    is_number (lineWidth (self w)) = true /\ shape (border_pixels w) <> []) ->
   exists w',
     ShapeStim_draw win_arg keepMatrix w = Ok tt w'
     /\ events w'
        = events w
          ++ ShapeStim_begin_events (target_window win_arg w) keepMatrix w
          ++ ShapeStim_fill_events w
          ++ ShapeStim_border_events (after_fill w)
          ++ teardown_events (target_window win_arg w) keepMatrix
     /\ submitted (events w')
        = submitted (events w)
          ++ (if closeShape (self w) && Nat.ltb 2 (count (pixels w))
                 && present (_fillColor (self w))
              then [GL_TRIANGLES] else [])
          ++ (if present (_borderColor (self w)) && truthy (lineWidth (self w))
              then [if closeShape (self w) then GL_LINE_LOOP else GL_LINE_STRIP]
              else []))
  /\ (shape (pixels w) <> [] ->
      (BaseShapeStim_borders w = true -> is_number (lineWidth (self w)) = true) ->
      exists w',
        BaseShapeStim_draw win_arg keepMatrix w = Ok tt w'
        /\ events w'
           = events w
             ++ BaseShapeStim_begin_events (target_window win_arg w) keepMatrix w
             ++ BaseShapeStim_fill_events w
             ++ BaseShapeStim_border_events w
             ++ teardown_events (target_window win_arg w) keepMatrix
        /\ submitted (events w')
           = submitted (events w)
             ++ (if Nat.ltb 2 (count (pixels w)) && present (_fillColor (self w))
                 then [GL_POLYGON] else [])
             ++ (if present (_borderColor (self w)) && ne_zero (lineWidth (self w))
                 then [if closeShape (self w) then GL_LINE_LOOP else GL_LINE_STRIP]
                 else []))
  /\ (forall x : float, truthy (PyNum x) = fnonzero x /\ ne_zero (PyNum x) = fnonzero x).
Proof.
  destruct (submitted_frame (target_window win_arg w) keepMatrix w)
    as (HbeginS & HbeginB & Hend).
  destruct (submitted_passes w) as (HfillS & HborderS & HfillB & HborderB).
  split; [|split].
  - intros Hpix Hborder.
    destruct (ShapeStim_draw_events win_arg keepMatrix w Hpix Hborder)
      as (w' & Hrun & _ & Hev).
    exists w'. split; [exact Hrun|]. split; [exact Hev|].
    rewrite Hev, !submitted_app, HbeginS, HfillS, HborderS, Hend, app_nil_r.
    reflexivity.
  - intros Hpix Hnum.
    destruct (BaseShapeStim_draw_events win_arg keepMatrix w Hpix Hnum)
      as (w' & Hrun & _ & Hev).
    exists w'. split; [exact Hrun|]. split; [exact Hev|].
    rewrite Hev, !submitted_app, HbeginB, HfillB, HborderB, Hend, app_nil_r.
    reflexivity.
  - intros x. split; reflexivity.
Qed.

End Drawing.

(** C6 as stated fails for [ShapeStim.draw] on a shape with [closeShape]
    false: the triangle has three pixel vertices and a fill colour, the draw
    call returns, and only the border strip is submitted. *)
Lemma open_shape_is_not_filled :
  count (pixels (collab := Reference.collaborators) Reference.filled_open_triangle)
  = 3
  /\ present (_fillColor (self Reference.filled_open_triangle)) = true
  /\ returned (ShapeStim_draw (collab := Reference.collaborators) None false
                 Reference.filled_open_triangle) = true
  /\ submitted (events (final (ShapeStim_draw (collab := Reference.collaborators)
                                 None false Reference.filled_open_triangle)))
     = [GL_LINE_STRIP].
Proof.
  repeat split.
Qed.

(** C6, as amended, at a closed square and at a triangle that is a
    [BaseShapeStim], both with a red fill and a black border. *)
Lemma draw_submits_fill_then_border_witness :
  (exists w',
      ShapeStim_draw (collab := Reference.collaborators) None false
        Reference.filled_square = Ok tt w'
      /\ submitted (events w') = [GL_TRIANGLES; GL_LINE_LOOP])
  /\ (exists w',
         BaseShapeStim_draw (collab := Reference.collaborators) None false
           Reference.filled_base_triangle = Ok tt w'
         /\ submitted (events w') = [GL_POLYGON; GL_LINE_LOOP]).
Proof.
  split.
  - destruct (draw_submits_fill_then_border (collab := Reference.collaborators)
                None false Reference.filled_square) as (Hdraw & _ & _).
    destruct Hdraw as (w' & Hrun & _ & Hsub).
    + intros _. discriminate.
    + intros _. split; [reflexivity | discriminate].
    + exists w'. split; [exact Hrun|]. rewrite Hsub. reflexivity.
  - destruct (draw_submits_fill_then_border (collab := Reference.collaborators)
                None false Reference.filled_base_triangle) as (_ & Hdraw & _).
    destruct Hdraw as (w' & Hrun & _ & Hsub).
    + discriminate.
    + intros _. reflexivity.
    + exists w'. split; [exact Hrun|]. rewrite Hsub. reflexivity.
Defined.

Section Laziness.
Context {collab : Collaborators}.

Lemma tesselate_closed_fails (newVertices : option ndarray) (e : exn) (w : World) :
  closeShape (self w) = true ->
  nested_loops newVertices = inl e ->
  _tesselate newVertices w
  = Raise e
      (mk_World (with_border newVertices (self w))
         (if rule_set (windingRule (self w))
          then rule_value (windingRule (self w)) else tess_winding_rule w)
         (events w ++ [GL glPushMatrix]
          ++ (if rule_set (windingRule (self w))
              then [GL (gluTessProperty (rule_value (windingRule (self w))))]
              else []))).
Proof.
  intros Hclosed Hitem. world w.
  unfold _tesselate, set_tess_winding_rule. monad. cbn.
  rewrite Hclosed, Hitem. cbn.
  destruct (rule_set (windingRule self0)); cbn; rewrite <- ?app_assoc; reflexivity.
Qed.

Lemma count_app (f : event -> bool) (a b : list event) :
  length (filter f (a ++ b)) = length (filter f a) + length (filter f b).
Proof. rewrite filter_app, length_app. reflexivity. Qed.

(** What [_tesselate] does to the counts, however it ends. *)
Lemma tesselate_counts (newVertices : option ndarray) (w : World) :
  recomputations (events (final (_tesselate newVertices w)))
  = recomputations (events w)
  /\ tessellations (events (final (_tesselate newVertices w)))
     <= S (tessellations (events w))
  /\ _needVertexUpdate (self (final (_tesselate newVertices w)))
     = _needVertexUpdate (self w).
Proof.
  destruct (closeShape (self w)) eqn:Hclosed.
  - destruct (nested_loops newVertices) as [e|nested] eqn:Hitem.
    + rewrite (tesselate_closed_fails _ _ _ Hclosed Hitem).
      unfold recomputations, tessellations. cbn [final events self].
      rewrite !count_app.
      destruct (rule_set (windingRule (self w))); cbn; repeat split; lia.
    + destruct newVertices as [a|]; [|discriminate Hitem].
      rewrite (tesselate_closed a nested w Hclosed Hitem).
      pose proof (tessellations_once w (loops_of nested (Some a))) as Honce.
      assert (Hre : recomputations (events w ++ tessellation_events w
                                      (loops_of nested (Some a)))
                    = recomputations (events w)).
      { unfold recomputations, tessellation_events. rewrite count_app.
        destruct (rule_set (windingRule (self w))); cbn; lia. }
      destruct (tesselate (rule_in_force w) (loops_of nested (Some a)))
        as [|v tv]; [|destruct (Nat.eqb (length (v :: tv) mod 3) 0)];
        cbn [final events self]; rewrite Hre, Honce; repeat split; lia.
  - rewrite (tesselate_open _ _ Hclosed). cbn [final events self].
    repeat split. lia.
Qed.

(** A mutator never recomputes, only an assignment to the vertices may
    tessellate, and a mutator that returns leaves the vertices dirty. *)
Lemma mutate_counts (m : mutation) (w : World) :
  recomputations (events (final (mutate m w))) = recomputations (events w)
  /\ tessellations (events (final (mutate m w)))
     <= (if is_set_vertices m then 1 else 0) + tessellations (events w)
  /\ (returned (mutate m w) = true ->
      _needVertexUpdate (self (final (mutate m w))) = true).
Proof.
  assert (HShape :
            forall v : pyval,
            recomputations (events (final (ShapeStim_vertices_setter v w)))
            = recomputations (events w)
            /\ tessellations (events (final (ShapeStim_vertices_setter v w)))
               <= 1 + tessellations (events w)
            /\ (returned (ShapeStim_vertices_setter v w) = true ->
                _needVertexUpdate (self (final (ShapeStim_vertices_setter v w)))
                = true)).
  { intros v.
    destruct (val2array (known_or_given v)) as [e|a] eqn:Hval.
    - rewrite (setter_rejects _ _ _ Hval). cbn. repeat split; [lia|discriminate].
    - rewrite (setter_accepts _ _ _ Hval).
      destruct (tesselate_counts a (assigned a w)) as (Hre & Hte & Hdirty).
      split; [exact Hre|]. split; [exact Hte|].
      intros _. rewrite Hdirty. reflexivity. }
  destruct m as [v'|v'|v'|v']; cbn [mutate is_set_vertices].
  - replace (vertices_setter v' w)
      with ((match cls (self w) with
             | BaseShapeStim_class => BaseShapeStim_vertices_setter v'
             | _ => ShapeStim_vertices_setter v'
             end) w) by reflexivity.
    destruct (cls (self w)); [|apply HShape|apply HShape].
    world w. unfold BaseShapeStim_vertices_setter. monad.
    destruct (np_array v'); cbn; [|destruct (shape_ok _)]; cbn;
      unfold tessellations, recomputations;
      repeat split; try lia; try discriminate.
  - world w. unfold size_setter. monad.
    destruct (np_array v'); cbn; unfold tessellations, recomputations;
    repeat split; try lia; try discriminate.
  - world w. unfold pos_setter. monad.
    destruct (np_array v'); cbn; unfold tessellations, recomputations;
    repeat split; try lia; try discriminate.
  - world w. unfold ori_setter. monad.
    destruct (np_array v'); cbn; unfold tessellations, recomputations;
    repeat split; try lia; try discriminate.
Qed.

Lemma mutate_all_counts (ms : list mutation) :
  forall w w' : World,
    mutate_all ms w = Ok tt w' ->
    recomputations (events w') = recomputations (events w)
    /\ tessellations (events w')
       <= length (filter is_set_vertices ms) + tessellations (events w)
    /\ (ms <> [] -> _needVertexUpdate (self w') = true).
Proof.
  induction ms as [|m rest IH]; intros w w' Hrun.
  - cbn in Hrun. injection Hrun as <-. repeat split; [cbn; lia | congruence].
  - cbn [mutate_all] in Hrun. unfold bind in Hrun.
    destruct (mutate_counts m w) as (Hre & Hte & Hdirty).
    destruct (mutate m w) as [[] w1|e w1] eqn:Hm; [|discriminate Hrun].
    cbn [final returned] in *.
    destruct (IH w1 w' Hrun) as (Hre' & Hte' & Hdirty').
    split; [congruence|]. split.
    + cbn [filter]. destruct (is_set_vertices m); cbn [length]; lia.
    + intros _. destruct rest as [|m' rest'].
      * cbn in Hrun. injection Hrun as <-. auto.
      * apply Hdirty'. discriminate.
Qed.

Lemma read_counts (w : World) :
  recomputations (events (read w))
  = (if _needVertexUpdate (self w) then 1 else 0) + recomputations (events w)
  /\ tessellations (events (read w)) = tessellations (events w).
Proof.
  destruct (read_spec w) as (_ & _ & _ & _ & _ & _ & _ & _ & Hev).
  rewrite Hev. unfold recomputations, tessellations, update_events.
  rewrite !count_app.
  destruct (_needVertexUpdate (self w)); cbn; lia.
Qed.

(** C4. Mutators of vertices, size, position and orientation that return
    leave the vertices dirty and recompute nothing.  A read of the pixel
    vertices returns, recomputes once when the vertices are dirty and not at
    all when they are clean, and leaves them clean, so that a second read
    returns the same array from the same state.  After any non-empty
    sequence of mutators, one read recomputes exactly once.  The tessellator
    runs at most once per assignment to the vertices, and neither the other
    mutators nor a read run it. *)
Theorem pixel_vertices_are_recomputed_lazily (w : World) :
  (forall (m : mutation) (w' : World),
      mutate m w = Ok tt w' ->
      _needVertexUpdate (self w') = true
      /\ recomputations (events w') = recomputations (events w))
  /\ (verticesPix w = Ok (pixels w) (read w)
      /\ _needVertexUpdate (self (read w)) = false
      /\ recomputations (events (read w))
         = (if _needVertexUpdate (self w) then 1 else 0)
           + recomputations (events w))
  /\ (verticesPix (read w) = Ok (pixels w) (read w)
      /\ recomputations
           (events (final (verticesPix (final (verticesPix w)))))
         = (if _needVertexUpdate (self w) then 1 else 0)
           + recomputations (events w))
  /\ (forall (ms : list mutation) (w' : World),
        ms <> [] ->
        mutate_all ms w = Ok tt w' ->
        recomputations (events w') = recomputations (events w)
        /\ (exists v, verticesPix w' = Ok v (read w'))
        /\ recomputations (events (read w')) = 1 + recomputations (events w)
        /\ tessellations (events (read w'))
           <= length (filter is_set_vertices ms) + tessellations (events w)).
Proof.
  split; [|split; [|split]].
  - intros m w' Hrun.
    destruct (mutate_counts m w) as (Hre & _ & Hdirty).
    rewrite Hrun in Hre, Hdirty. cbn [final returned] in *. auto.
  - split; [apply verticesPix_read|]. split; [apply read_spec|].
    apply read_counts.
  - assert (Hagain : verticesPix (read w) = Ok (pixels w) (read w)).
    { rewrite verticesPix_read, read_read.
      destruct (pixels_read w) as [-> _]. reflexivity. }
    split; [exact Hagain|].
    rewrite (verticesPix_read w). cbn [final]. rewrite Hagain. cbn [final].
    apply read_counts.
  - intros ms w' Hne Hrun.
    destruct (mutate_all_counts ms w w' Hrun) as (Hre & Hte & Hdirty).
    destruct (read_counts w') as [Hread Htess].
    rewrite (Hdirty Hne) in Hread.
    split; [exact Hre|]. split; [eexists; apply verticesPix_read|].
    split; [lia|lia].
Qed.

End Laziness.

(** C4 at a square assigned to a closed shape, then a size, then a position:
    one read recomputes once, and the tessellator has run once. *)
Lemma pixel_vertices_are_recomputed_lazily_witness :
  recomputations
    (events (read (collab := Reference.collaborators)
               (final (mutate_all (collab := Reference.collaborators)
                         [ set_vertices Reference.square;
                           set_size (Reference.point 2 2);
                           set_pos (Reference.point 5 5) ]
                         Reference.world))))
  = 1
  /\ tessellations
       (events (read (collab := Reference.collaborators)
                  (final (mutate_all (collab := Reference.collaborators)
                            [ set_vertices Reference.square;
                              set_size (Reference.point 2 2);
                              set_pos (Reference.point 5 5) ]
                            Reference.world))))
     <= 1.
Proof.
  destruct (pixel_vertices_are_recomputed_lazily
              (collab := Reference.collaborators) Reference.world)
    as (_ & _ & _ & Hseq).
  destruct (Hseq [ set_vertices Reference.square;
                   set_size (Reference.point 2 2);
                   set_pos (Reference.point 5 5) ]
              (final (mutate_all (collab := Reference.collaborators)
                        [ set_vertices Reference.square;
                          set_size (Reference.point 2 2);
                          set_pos (Reference.point 5 5) ]
                        Reference.world)))
    as (_ & _ & Hre & Hte).
  - discriminate.
  - vm_compute. reflexivity.
  - split; [exact Hre | exact Hte].
Defined.

Section Setters.
Context {collab : Collaborators}.

(** [_tesselate] touches neither the vertices nor the dirty flag, and the
    border is the vertices it was given, however it ends. *)
Lemma tesselate_frame (newVertices : option ndarray) (w : World) :
  vertices (self (final (_tesselate newVertices w))) = vertices (self w)
  /\ border (self (final (_tesselate newVertices w))) = newVertices
  /\ _needVertexUpdate (self (final (_tesselate newVertices w)))
     = _needVertexUpdate (self w).
Proof.
  destruct (closeShape (self w)) eqn:Hclosed.
  - destruct (nested_loops newVertices) as [e|nested] eqn:Hitem.
    + rewrite (tesselate_closed_fails _ _ _ Hclosed Hitem). repeat split.
    + destruct newVertices as [a|]; [|discriminate Hitem].
      rewrite (tesselate_closed a nested w Hclosed Hitem).
      destruct (tesselate (rule_in_force w) (loops_of nested (Some a)))
        as [|v tv]; [|destruct (Nat.eqb (length (v :: tv) mod 3) 0)];
        repeat split.
  - rewrite (tesselate_open _ _ Hclosed). repeat split.
Qed.

(** C5, as amended. The setter of [BaseShapeStim.vertices] raises at once
    for every input whose float array is neither of shape (2,) nor Nx2, a
    list of loops included, and for every input of shape (2,) or Nx2 it
    returns with the array stored and the vertices dirty.  The setter of
    [ShapeStim.vertices] raises at once, with the shape unchanged, whatever
    [val2array] raises; whenever [val2array] returns, its result is the
    stored vertices and the border, and the vertices are dirty.  On an open
    shape the assignment then returns, with the float array of the vertices
    as fill vertices.  On a closed shape, for a non-empty Nx2 array and for
    a non-empty list of non-empty loops, it returns unless the tessellator
    gives a number of vertices that is no multiple of 3, which is the
    tessellation error.  What a closed shape does with a single point, which
    raises [IndexError] at [newVertices[0][0]], is left out. *)
Theorem vertices_setter_checks_shape (value : pyval) (w : World) :
  (forall e : exn,
      np_array value = inl e ->
      BaseShapeStim_vertices_setter value w = Raise e w)
  /\ (forall a : ndarray,
        np_array value = inr a ->
        (shape_ok a = true <-> shape a = [2] \/ exists n, shape a = [n; 2])
        /\ (shape_ok a = false ->
            BaseShapeStim_vertices_setter value w
            = Raise setXYs_error
                (mk_World (with_vertices (Some a) (self w))
                   (tess_winding_rule w) (events w)))
        /\ (shape_ok a = true ->
            BaseShapeStim_vertices_setter value w
            = Ok tt (mk_World
                       (with__needVertexUpdate true
                          (with_vertices (Some a) (self w)))
                       (tess_winding_rule w) (events w))))
  /\ (forall e : exn,
        val2array (known_or_given value) = inl e ->
        ShapeStim_vertices_setter value w = Raise e w)
  /\ (forall a : option ndarray,
        val2array (known_or_given value) = inr a ->
        vertices (self (final (ShapeStim_vertices_setter value w))) = a
        /\ border (self (final (ShapeStim_vertices_setter value w))) = a
        /\ _needVertexUpdate (self (final (ShapeStim_vertices_setter value w)))
           = true)
  /\ (forall a : option ndarray,
        val2array (known_or_given value) = inr a ->
        closeShape (self w) = false ->
        returned (ShapeStim_vertices_setter value w) = true
        /\ _tesselVertices (self (final (ShapeStim_vertices_setter value w)))
           = of_optional a)
  /\ (forall arr : ndarray,
        val2array (known_or_given value) = inr (Some arr) ->
        closeShape (self w) = true ->
        (exists n : nat, shape arr = [S n; 2])
        \/ (exists k m : nat, shape arr = [S k; S m; 2]) ->
        exists nested : bool,
          item00_has_iter arr = inr nested
          /\ (length (tesselate (rule_in_force w) (loops_of nested (Some arr)))
                mod 3 = 0 ->
              returned (ShapeStim_vertices_setter value w) = true)
          /\ (length (tesselate (rule_in_force w) (loops_of nested (Some arr)))
                mod 3 <> 0 ->
              exists w' : World,
                ShapeStim_vertices_setter value w = Raise tesselateError w')).
Proof.
  split; [|split; [|split; [|split; [|split]]]].
  - intros e Harr. world w.
    unfold BaseShapeStim_vertices_setter. monad. rewrite Harr. reflexivity.
  - intros a Harr. split; [|split].
    + unfold shape_ok. destruct (shape a) as [|n [|m [|k rest]]].
      * split; [discriminate|]. intros [H|[n H]]; discriminate.
      * rewrite Nat.eqb_eq. split.
        -- intros ->. left. reflexivity.
        -- intros [H|[k H]]; [injection H as ->; reflexivity | discriminate].
      * rewrite Nat.eqb_eq. split.
        -- intros ->. right. exists n. reflexivity.
        -- intros [H|[k H]]; [discriminate | injection H as _ ->; reflexivity].
      * split; [discriminate|]. intros [H|[j H]]; discriminate.
    + intros Hbad. world w.
      unfold BaseShapeStim_vertices_setter. monad. rewrite Harr. cbn.
      rewrite Hbad. reflexivity.
    + intros Hgood. world w.
      unfold BaseShapeStim_vertices_setter. monad. rewrite Harr. cbn.
      rewrite Hgood. reflexivity.
  - intros e Hval. apply setter_rejects, Hval.
  - intros a Hval. rewrite (setter_accepts _ _ _ Hval).
    destruct (tesselate_frame a (assigned a w)) as (Hv & Hb & Hd).
    rewrite Hv, Hb, Hd. repeat split.
  - intros a Hval Hopen. rewrite (setter_accepts _ _ _ Hval).
    rewrite (tesselate_open a (assigned a w) Hopen). split; reflexivity.
  - intros arr Hval Hclosed Hshape.
    assert (Hitem : exists nested : bool, item00_has_iter arr = inr nested).
    { unfold item00_has_iter.
      destruct Hshape as [(n & Hs)|(k & m & Hs)]; rewrite Hs; eexists;
        reflexivity. }
    destruct Hitem as (nested & Hitem). exists nested.
    split; [exact Hitem|].
    rewrite (setter_accepts _ _ _ Hval).
    rewrite (tesselate_closed arr nested (assigned (Some arr) w) Hclosed Hitem).
    change (rule_in_force (assigned (Some arr) w)) with (rule_in_force w).
    destruct (tesselate (rule_in_force w) (loops_of nested (Some arr)))
      as [|v tv].
    + split; [reflexivity|]. intros Hbad. exfalso. apply Hbad. reflexivity.
    + destruct (Nat.eqb (length (v :: tv) mod 3) 0) eqn:Hmod.
      * split; [reflexivity|]. intros Hbad. exfalso. apply Hbad.
        apply Nat.eqb_eq. exact Hmod.
      * split.
        -- intros Hgood. apply Nat.eqb_eq in Hgood. congruence.
        -- intros _. eexists. reflexivity.
Qed.

(** C7. [setFillColor] with an operation other than [''], ['='], ['+'] and
    ['-'] returns, logs one error and changes neither colour; the only thing
    it may change is the colour space, when one is passed.  With [''] or
    ['='] the fill colour becomes the colour passed, and with ['+'] or ['-']
    it becomes the sum or difference of the current fill colour and the
    colour passed, when Python can compute it. *)
Theorem unsupported_color_operation_is_logged
    (color : pyval) (colorSpace : option string) (operation : string) (w : World) :
  (op_in operation [EmptyString; "="; "+"; "-"] = false ->
   setFillColor color colorSpace operation w
   = Ok tt (mk_World (spaced colorSpace (self w)) (tess_winding_rule w)
              (events w ++ [logging error (not_recognised operation)]))
   /\ _fillColor (spaced colorSpace (self w)) = _fillColor (self w)
   /\ _borderColor (spaced colorSpace (self w)) = _borderColor (self w))
  /\ (op_in operation [EmptyString; "="] = true ->
      setFillColor color colorSpace operation w
      = Ok tt (mk_World
                 (with__fillColor
                    (mk_Color color (Shape.colorSpace (spaced colorSpace (self w))))
                    (spaced colorSpace (self w)))
                 (tess_winding_rule w) (events w)))
  /\ (forall new : pyval,
        operation = "+" ->
        add (render (_fillColor (self w))
               (Shape.colorSpace (spaced colorSpace (self w)))) color = inr new ->
        setFillColor color colorSpace operation w
        = Ok tt (mk_World
                   (with__fillColor
                      (mk_Color new (Shape.colorSpace (spaced colorSpace (self w))))
                      (spaced colorSpace (self w)))
                   (tess_winding_rule w) (events w)))
  /\ (forall new : pyval,
        operation = "-" ->
        sub (render (_fillColor (self w))
               (Shape.colorSpace (spaced colorSpace (self w)))) color = inr new ->
        setFillColor color colorSpace operation w
        = Ok tt (mk_World
                   (with__fillColor
                      (mk_Color new (Shape.colorSpace (spaced colorSpace (self w))))
                      (spaced colorSpace (self w)))
                   (tess_winding_rule w) (events w))).
Proof.
  split; [|split; [|split]].
  - intros Hop. cbn in Hop.
    destruct (String.eqb operation EmptyString) eqn:H1; [discriminate|].
    destruct (String.eqb operation "=") eqn:H2; [discriminate|].
    destruct (String.eqb operation "+") eqn:H3; [discriminate|].
    destruct (String.eqb operation "-") eqn:H4; [discriminate|].
    world w. split; [|destruct colorSpace; split; reflexivity].
    unfold setFillColor, colorSpace_setter, op_in. monad. cbn.
    rewrite H1, H2, H3, H4. destruct colorSpace; reflexivity.
  - intros Hop. world w.
    unfold setFillColor, colorSpace_setter, fillColor_setter. monad.
    destruct colorSpace; cbn -[op_in]; rewrite Hop; reflexivity.
  - intros new -> Hadd. world w.
    unfold setFillColor, colorSpace_setter, fillColor_setter, fillColor_getter.
    monad. destruct colorSpace; cbn in *; rewrite Hadd; reflexivity.
  - intros new -> Hsub. world w.
    unfold setFillColor, colorSpace_setter, fillColor_setter, fillColor_getter.
    monad. destruct colorSpace; cbn in *; rewrite Hsub; reflexivity.
Qed.

(** C8, as amended. Assigning a line width returns and stores the value as
    assigned, whatever it is; a warning is logged exactly when the shape is a
    [Line] and the value is a number above 127. *)
Theorem wide_line_is_kept (value : pyval) (w : World) :
  lineWidth_setter value w
  = Ok tt (mk_World (with_lineWidth value (self w)) (tess_winding_rule w)
             (events w
              ++ (if is_Line (cls (self w)) && above_cap value
                  then [logging warning lineWidth_warning] else [])))
  /\ lineWidth (with_lineWidth value (self w)) = value
  /\ (forall x : float,
        value = PyNum x -> fgt x (of_Z 127) = true ->
        length (filter is_warning (events (final (lineWidth_setter value w))))
        = (if is_Line (cls (self w)) then 1 else 0)
          + length (filter is_warning (events w))).
Proof.
  assert (Hrun : lineWidth_setter value w
                 = Ok tt (mk_World (with_lineWidth value (self w))
                            (tess_winding_rule w)
                            (events w
                             ++ (if is_Line (cls (self w)) && above_cap value
                                 then [logging warning lineWidth_warning]
                                 else [])))).
  { world w. unfold lineWidth_setter, above_cap. monad. cbn.
    destruct (is_Line (cls self0)); cbn; [|rewrite app_nil_r; reflexivity].
    destruct value as [| |x|]; cbn; rewrite ?app_nil_r; try reflexivity.
    destruct (fgt x (of_Z 127)); cbn; rewrite ?app_nil_r; reflexivity. }
  split; [exact Hrun|]. split; [reflexivity|].
  intros x -> Hwide. rewrite Hrun. cbn [final events above_cap].
  rewrite Hwide, count_app.
  destruct (is_Line (cls (self w))); cbn; lia.
Qed.

End Setters.

(** C5 as stated fails for [BaseShapeStim]: a list of one loop is a
    non-empty list of Nx2 arrays, and its assignment raises. *)
Lemma BaseShapeStim_rejects_a_list_of_loops :
  np_array (collab := Reference.collaborators) (PySeq [Reference.triangle])
  = inr (mk_ndarray [1; 3; 2] (map of_Z [0; 0; 1; 0; 0; 1]%Z))
  /\ well_formed (mk_ndarray [1; 3; 2] (map of_Z [0; 0; 1; 0; 0; 1]%Z)) = true
  /\ returned (BaseShapeStim_vertices_setter (collab := Reference.collaborators)
                 (PySeq [Reference.triangle])
                 (Reference.world_of (Reference.stim_of BaseShapeStim_class)))
     = false.
Proof.
  repeat split.
Qed.

(** A single point assigned to a closed [ShapeStim] is accepted by
    [val2array] and then fails in [_tesselate], at [newVertices[0][0]]. *)
Remark single_point_on_a_closed_ShapeStim :
  exists w',
    ShapeStim_vertices_setter (collab := Reference.collaborators)
      (Reference.point 0 0) Reference.world = Raise IndexError w'.
Proof.
  eexists. reflexivity.
Qed.

(** C5, as amended, at a triangle, at a list of one loop and at a name
    given to a [BaseShapeStim], and at a triangle given to a closed and to an
    open [ShapeStim]. *)
Lemma vertices_setter_checks_shape_witness :
  returned (BaseShapeStim_vertices_setter (collab := Reference.collaborators)
              Reference.triangle
              (Reference.world_of (Reference.stim_of BaseShapeStim_class)))
  = true
  /\ BaseShapeStim_vertices_setter (collab := Reference.collaborators)
       (PySeq [Reference.triangle])
       (Reference.world_of (Reference.stim_of BaseShapeStim_class))
     = Raise setXYs_error
         (mk_World
            (with_vertices
               (Some (mk_ndarray [1; 3; 2] (map of_Z [0; 0; 1; 0; 0; 1]%Z)))
               (Reference.stim_of BaseShapeStim_class))
            100130%Z [])
  /\ BaseShapeStim_vertices_setter (collab := Reference.collaborators)
       (PyStr "cross")
       (Reference.world_of (Reference.stim_of BaseShapeStim_class))
     = Raise (ValueError "could not convert to float array")
         (Reference.world_of (Reference.stim_of BaseShapeStim_class))
  /\ vertices (self (final (ShapeStim_vertices_setter
                              (collab := Reference.collaborators)
                              Reference.triangle Reference.world)))
     = Some (mk_ndarray [3; 2] (map of_Z [0; 0; 1; 0; 0; 1]%Z))
  /\ returned (ShapeStim_vertices_setter (collab := Reference.collaborators)
                 Reference.triangle Reference.world) = true
  /\ returned (ShapeStim_vertices_setter (collab := Reference.collaborators)
                 Reference.triangle Reference.open_world) = true.
Proof.
  split; [|split; [|split; [|split; [|split]]]].
  - destruct (vertices_setter_checks_shape (collab := Reference.collaborators)
                Reference.triangle
                (Reference.world_of (Reference.stim_of BaseShapeStim_class)))
      as (_ & Hbase & _).
    destruct (Hbase (mk_ndarray [3; 2] (map of_Z [0; 0; 1; 0; 0; 1]%Z)) eq_refl)
      as (_ & _ & Hgood).
    rewrite (Hgood eq_refl). reflexivity.
  - destruct (vertices_setter_checks_shape (collab := Reference.collaborators)
                (PySeq [Reference.triangle])
                (Reference.world_of (Reference.stim_of BaseShapeStim_class)))
      as (_ & Hbase & _).
    destruct (Hbase (mk_ndarray [1; 3; 2] (map of_Z [0; 0; 1; 0; 0; 1]%Z)) eq_refl)
      as (_ & Hbad & _).
    exact (Hbad eq_refl).
  - destruct (vertices_setter_checks_shape (collab := Reference.collaborators)
                (PyStr "cross")
                (Reference.world_of (Reference.stim_of BaseShapeStim_class)))
      as (Hraise & _).
    exact (Hraise _ eq_refl).
  - destruct (vertices_setter_checks_shape (collab := Reference.collaborators)
                Reference.triangle Reference.world)
      as (_ & _ & _ & Hshape & _).
    destruct (Hshape _ eq_refl) as (Hv & _). exact Hv.
  - destruct (vertices_setter_checks_shape (collab := Reference.collaborators)
                Reference.triangle Reference.world)
      as (_ & _ & _ & _ & _ & Hclosed).
    destruct (Hclosed (mk_ndarray [3; 2] (map of_Z [0; 0; 1; 0; 0; 1]%Z))
                eq_refl eq_refl)
      as (nested & Hitem & Hreturns & _).
    + left. exists 2. reflexivity.
    + apply Hreturns. injection Hitem as <-. vm_compute. reflexivity.
  - destruct (vertices_setter_checks_shape (collab := Reference.collaborators)
                Reference.triangle Reference.open_world)
      as (_ & _ & _ & _ & Hopen & _).
    destruct (Hopen _ eq_refl eq_refl) as (Hreturns & _). exact Hreturns.
Defined.

(** C7 at the operation ['*'] on a white fill. *)
Lemma unsupported_color_operation_is_logged_witness :
  setFillColor (collab := Reference.collaborators) (PyNum (of_Z 1)) None "*"
    (Reference.world_of (with__fillColor (mk_Color (PyNum (of_Z 1)) "rgb")
                           Reference.stim))
  = Ok tt (mk_World
             (with__fillColor (mk_Color (PyNum (of_Z 1)) "rgb") Reference.stim)
             100130%Z
             [logging error "Operation '*' not recognised."])
  /\ setFillColor (collab := Reference.collaborators) (PyNum (of_Z 1)) None "+"
       (Reference.world_of (with__fillColor (mk_Color (PyNum (of_Z 1)) "rgb")
                              Reference.stim))
     = Ok tt (mk_World
                (with__fillColor (mk_Color (PyNum (of_Z 2)) "rgb")
                   (with__fillColor (mk_Color (PyNum (of_Z 1)) "rgb")
                      Reference.stim))
                100130%Z []).
Proof.
  split.
  - destruct (unsupported_color_operation_is_logged
                (collab := Reference.collaborators) (PyNum (of_Z 1)) None "*"
                (Reference.world_of
                   (with__fillColor (mk_Color (PyNum (of_Z 1)) "rgb")
                      Reference.stim)))
      as (Hlog & _).
    destruct (Hlog eq_refl) as (Hrun & _). exact Hrun.
  - destruct (unsupported_color_operation_is_logged
                (collab := Reference.collaborators) (PyNum (of_Z 1)) None "+"
                (Reference.world_of
                   (with__fillColor (mk_Color (PyNum (of_Z 1)) "rgb")
                      Reference.stim)))
      as (_ & _ & Hadd & _).
    exact (Hadd (PyNum (of_Z 2)) eq_refl eq_refl).
Defined.

(** C8 as stated fails for a shape that is no [Line]: the width 200 is
    stored and nothing is logged. *)
Lemma wide_line_on_a_ShapeStim_is_not_logged :
  fgt (of_Z 200) (of_Z 127) = true
  /\ lineWidth (self (final (lineWidth_setter
                              (PyNum (of_Z 200)) Reference.world)))
     = PyNum (of_Z 200)
  /\ filter is_warning
       (events (final (lineWidth_setter
                         (PyNum (of_Z 200)) Reference.world)))
     = [].
Proof.
  repeat split.
Qed.

(** C8, as amended, at the width 200 on a [Line]. *)
Lemma wide_line_is_kept_witness :
  length (filter is_warning
            (events (final (lineWidth_setter
                              (PyNum (of_Z 200))
                              (Reference.world_of
                                 (Reference.stim_of Line_class))))))
  = 1.
Proof.
  destruct (wide_line_is_kept
              (PyNum (of_Z 200))
              (Reference.world_of (Reference.stim_of Line_class)))
    as (_ & _ & Hwarn).
  exact (Hwarn (of_Z 200) eq_refl eq_refl).
Defined.

End ShapeFacts.

Module TargetFacts.
Import Shape Target.

Ltac monad :=
  unfold bind, ret, when, gets, modify, lift, raise, assign, attr.

Section Iteration.
Context {collab : Collaborators}.

(** C9. A target whose two sizes can be read yields, in this order, the
    eight pairs of diameter, stroke width, fill colour and line colour of the
    outer and of the inner shape.  A colour that is present is exported in
    the colour space of its shape; an absent outer fill or border colour is
    exported as the colour of the window, and an absent inner fill or border
    colour as the outer fill or border colour that is exported. *)
Theorem iter_resolves_absent_colours
    (w : World) (r ri : float) :
  half_height (outer (self w)) = inr r ->
  half_height (inner (self w)) = inr ri ->
  exists d : list (string * pyval),
    __iter__ w = Ok d w
    /\ map fst d
       = [ "outer_diameter"; "outer_stroke_width"; "outer_fill_color";
           "outer_line_color"; "inner_diameter"; "inner_stroke_width";
           "inner_fill_color"; "inner_line_color" ]
    /\ lookup "outer_diameter" d = Some (PyNum (fmul r two))
    /\ lookup "outer_stroke_width" d = Some (lineWidth (outer (self w)))
    /\ lookup "inner_diameter" d = Some (PyNum (fmul ri two))
    /\ lookup "inner_stroke_width" d = Some (lineWidth (inner (self w)))
    /\ lookup "outer_fill_color" d
       = Some (if present (_fillColor (outer (self w)))
               then render (_fillColor (outer (self w)))
                      (colorSpace (outer (self w)))
               else color (win (self w)))
    /\ lookup "outer_line_color" d
       = Some (if present (_borderColor (outer (self w)))
               then render (_borderColor (outer (self w)))
                      (colorSpace (outer (self w)))
               else color (win (self w)))
    /\ (if present (_fillColor (inner (self w)))
        then lookup "inner_fill_color" d
             = Some (render (_fillColor (inner (self w)))
                       (colorSpace (inner (self w))))
        else lookup "inner_fill_color" d = lookup "outer_fill_color" d)
    /\ (if present (_borderColor (inner (self w)))
        then lookup "inner_line_color" d
             = Some (render (_borderColor (inner (self w)))
                       (colorSpace (inner (self w))))
        else lookup "inner_line_color" d = lookup "outer_line_color" d).
Proof.
  intros Hr Hri. destruct w as [t rule evs]. cbn [self] in *.
  unfold __iter__, radius, outerRadius, innerRadius, fill_or, border_or. monad.
  cbn [self]. rewrite Hr. cbn -[fmul two]. rewrite Hri. cbn -[fmul two].
  eexists. split; [reflexivity|].
  unfold lookup. cbn -[fmul two].
  destruct (present (_fillColor (inner t))), (present (_borderColor (inner t)));
    repeat split.
Qed.

End Iteration.

(** *** Arithmetic of finite floats *)

Lemma fin_eq (p q : Q) : p == q -> fin p = fin q.
Proof. intros H. unfold fin. f_equal. apply Qred_complete, H. Qed.



Section Radius.
Context {collab : Collaborators}.

Lemma size_setter_square (h : float) (sw : Shape.World) :
  size_setter (PySeq [PyNum h; PyNum h]) sw
  = Ok tt (Shape.mk_World
             (with__needVertexUpdate true (with_size (pair h h) (Shape.self sw)))
             (Shape.tess_winding_rule sw) (Shape.events sw)).
Proof.
  destruct sw as [s rule evs]. unfold size_setter, np_array. monad. reflexivity.
Qed.

(** The radius setters store the square of the converted diameter and
    change nothing else of the target. *)
Lemma outerRadius_setter_runs (value : float) (w : World) :
  outerRadius_setter value w
  = Ok tt (mk_World
             (with_outer
                (with__needVertexUpdate true
                   (with_size
                      (pair (height_pix (units (self w)) (win (self w)) (fmul value two))
                            (height_pix (units (self w)) (win (self w)) (fmul value two)))
                      (outer (self w))))
                (self w))
             (tess_winding_rule w) (events w)).
Proof.
  destruct w as [t rule evs].
  unfold outerRadius_setter, on_outer, on_shape, square_pix. monad.
  cbn [self tess_winding_rule events]. rewrite size_setter_square. reflexivity.
Qed.

Lemma innerRadius_setter_runs (value : float) (w : World) :
  innerRadius_setter value w
  = Ok tt (mk_World
             (with_inner
                (with__needVertexUpdate true
                   (with_size
                      (pair (height_pix (units (self w)) (win (self w)) (fmul value two))
                            (height_pix (units (self w)) (win (self w)) (fmul value two)))
                      (inner (self w))))
                (self w))
             (tess_winding_rule w) (events w)).
Proof.
  destruct w as [t rule evs].
  unfold innerRadius_setter, on_inner, on_shape, square_pix. monad.
  cbn [self tess_winding_rule events]. rewrite size_setter_square. reflexivity.
Qed.

Lemma half_height_square (h : float) (s : Stim) :
  half_height (with__needVertexUpdate true (with_size (pair h h) s))
  = inr (fdiv h two).
Proof. reflexivity. Qed.

Lemma outerRadius_reads (x : float) (w : World) :
  half_height (outer (self w)) = inr x -> outerRadius w = Ok x w.
Proof. intros H. unfold outerRadius. monad. rewrite H. reflexivity. Qed.

Lemma innerRadius_reads (x : float) (w : World) :
  half_height (inner (self w)) = inr x -> innerRadius w = Ok x w.
Proof. intros H. unfold innerRadius. monad. rewrite H. reflexivity. Qed.





(** The world an assignment to [radius] leaves. *)
Lemma radius_setter_runs (v i o : float) (w : World) :
  half_height (inner (self w)) = inr i ->
  half_height (outer (self w)) = inr o ->
  exists w' : World,
    radius_setter v w = Ok tt w'
    /\ half_height (outer (self w'))
       = inr (fdiv (height_pix (units (self w)) (win (self w)) (fmul v two)) two)
    /\ half_height (inner (self w'))
       = inr (fdiv (height_pix (units (self w)) (win (self w))
                      (fmul (fmul v (fdiv i o)) two)) two)
    /\ units (self w') = units (self w)
    /\ win (self w') = win (self w).
Proof.
  intros Hi Ho. unfold radius_setter.
  rewrite (ShapeFacts.bind_Ok _ _ _ _ _ (innerRadius_reads _ _ Hi)).
  rewrite (ShapeFacts.bind_Ok _ _ _ _ _ (outerRadius_reads _ _ Ho)).
  unfold bind. rewrite outerRadius_setter_runs, innerRadius_setter_runs.
  cbn [self win units outer inner with_outer with_inner tess_winding_rule events].
  eexists. split; [reflexivity|].
  cbn [self win units outer inner with_outer with_inner].
  rewrite !half_height_square. repeat split.
Qed.


End Radius.

(** C9 at a target whose inner border is absent, with a blue outer fill and
    with no outer fill on the grey window. *)
Lemma iter_resolves_absent_colours_witness :
  (exists d,
      __iter__ (collab := Reference.collaborators) Reference.target
      = Ok d Reference.target
      /\ lookup "outer_fill_color" d = Some (PyStr "blue")
      /\ lookup "inner_line_color" d = Some (PyStr "white"))
  /\ (exists d,
         __iter__ (collab := Reference.collaborators)
           (Reference.target_with PyNone)
         = Ok d (Reference.target_with PyNone)
         /\ lookup "outer_fill_color" d = Some (PyStr "grey")
         /\ lookup "inner_line_color" d = Some (PyStr "white")).
Proof.
  split.
  - destruct (iter_resolves_absent_colours (collab := Reference.collaborators)
                Reference.target (of_Z 1) (fin (1 # 2)) eq_refl eq_refl)
      as (d & Hrun & _ & _ & _ & _ & _ & Hfill & Hline & _ & Hinner).
    exists d. split; [exact Hrun|]. split; [exact Hfill|].
    cbn in Hinner. rewrite Hinner. exact Hline.
  - destruct (iter_resolves_absent_colours (collab := Reference.collaborators)
                (Reference.target_with PyNone) (of_Z 1) (fin (1 # 2))
                eq_refl eq_refl)
      as (d & Hrun & _ & _ & _ & _ & _ & Hfill & Hline & _ & Hinner).
    exists d. split; [exact Hrun|]. split; [exact Hfill|].
    cbn in Hinner. rewrite Hinner. exact Hline.
Defined.



End TargetFacts.

(** * More properties of [shape.py] *)

Module MoreShapeFacts.
Import Shape Trace ShapeMore ShapeFacts.

Lemma matrix_depth_app (a b : list event) :
  matrix_depth (a ++ b) = (matrix_depth a + matrix_depth b)%Z.
Proof.
  unfold matrix_depth. induction a as [|e a IH]; cbn [app fold_right]; lia.
Qed.

Lemma client_depth_app (a b : list event) :
  client_depth (a ++ b) = (client_depth a + client_depth b)%Z.
Proof.
  unfold client_depth. induction a as [|e a IH]; cbn [app fold_right]; lia.
Qed.

Section Assignment.
Context {collab : Collaborators}.

(** X1. A [ShapeStim] whose [closeShape] is false stays open through any
    sequence of assignments to its vertices, whatever the vertices are and
    wherever the sequence stops: the tessellator and OpenGL are never
    called. *)
Theorem open_shape_stays_open (values : list pyval) :
  forall w : World,
    closeShape (self w) = false ->
    closeShape (self (final (assign_each values w))) = false
    /\ events (final (assign_each values w)) = events w
    /\ tess_winding_rule (final (assign_each values w)) = tess_winding_rule w.
Proof.
  induction values as [|v rest IH]; intros w Hopen.
  - repeat split. exact Hopen.
  - cbn [assign_each]. unfold bind.
    destruct (val2array (known_or_given v)) as [e|a] eqn:Hval.
    + rewrite (setter_rejects _ _ _ Hval). repeat split. exact Hopen.
    + rewrite (setter_accepts _ _ _ Hval).
      rewrite (tesselate_open a (assigned a w) Hopen).
      match goal with
      | |- context [assign_each rest ?w1] =>
          destruct (IH w1 eq_refl) as (Hc & He & Hr)
      end.
      split; [exact Hc|]. split; [exact He | exact Hr].
Qed.

(** X2. What every assignment to the vertices of a [ShapeStim] that returns
    leaves behind: the border is the vertices, the vertices are dirty, and
    either the shape is closed, it was closed before, and the fill vertices
    are an Nx2 array of a positive multiple of 3 vertices, or the shape is
    open and the fill vertices are the float array of the vertices. *)
Theorem assignment_invariant (newVerts : pyval) (w w' : World) :
  ShapeStim_vertices_setter newVerts w = Ok tt w' ->
  border (self w') = vertices (self w')
  /\ _needVertexUpdate (self w') = true
  /\ (if closeShape (self w')
      then closeShape (self w) = true
           /\ exists n : nat,
               shape (_tesselVertices (self w')) = [n; 2]
               /\ 0 < n /\ n mod 3 = 0
      else _tesselVertices (self w') = of_optional (vertices (self w'))).
Proof.
  intros Hrun.
  destruct (val2array (known_or_given newVerts)) as [e|a] eqn:Hval.
  { rewrite (setter_rejects _ _ _ Hval) in Hrun. discriminate. }
  rewrite (setter_accepts _ _ _ Hval) in Hrun.
  destruct (closeShape (self w)) eqn:Hclosed.
  - destruct (nested_loops a) as [e|nested] eqn:Hitem.
    { rewrite (tesselate_closed_fails a e (assigned a w) Hclosed Hitem) in Hrun.
      discriminate. }
    destruct a as [a|]; [|discriminate Hitem].
    rewrite (tesselate_closed a nested (assigned (Some a) w) Hclosed Hitem) in Hrun.
    destruct (tesselate (rule_in_force (assigned (Some a) w))
                (loops_of nested (Some a))) as [|v tv].
    + injection Hrun as <-. repeat split.
    + destruct (Nat.eqb (length (v :: tv) mod 3) 0) eqn:Hmod; [|discriminate].
      injection Hrun as <-. cbn [self closeShape with__tesselVertices
        with_border with__needVertexUpdate with_vertices assigned].
      repeat split. cbn [closeShape border vertices _needVertexUpdate].
      rewrite Hclosed. split; [reflexivity|].
      exists (length (v :: tv)). split; [reflexivity|].
      split; [cbn; lia | apply Nat.eqb_eq, Hmod].
  - rewrite (tesselate_open a (assigned a w) Hclosed) in Hrun.
    injection Hrun as <-. repeat split.
Qed.

(** X3. A closed shape in [_tesselate]: once the vertices reach the
    tessellator, the matrix stack is as deep as before and a winding rule
    of the shape has been replaced by the default one, whether the call
    returns or raises the tessellation error; but vertices that fail at
    [newVertices[0][0]] leave one matrix pushed and the winding rule of the
    shape set. *)
Theorem tesselate_restores_or_leaks (newVertices : option ndarray) (w : World) :
  closeShape (self w) = true ->
  (forall nested : bool,
      nested_loops newVertices = inr nested ->
      matrix_depth (events (final (_tesselate newVertices w)))
      = matrix_depth (events w)
      /\ tess_winding_rule (final (_tesselate newVertices w)) = rule_left w)
  /\ (forall e : exn,
        nested_loops newVertices = inl e ->
        returned (_tesselate newVertices w) = false
        /\ matrix_depth (events (final (_tesselate newVertices w)))
           = (matrix_depth (events w) + 1)%Z
        /\ tess_winding_rule (final (_tesselate newVertices w))
           = rule_in_force w).
Proof.
  intros Hclosed. split.
  - intros nested Hitem.
    destruct newVertices as [a|]; [|discriminate Hitem].
    rewrite (tesselate_closed a nested w Hclosed Hitem).
    assert (Hdepth : matrix_depth (events w ++ tessellation_events w
                                     (loops_of nested (Some a)))
                     = matrix_depth (events w)).
    { rewrite matrix_depth_app. unfold tessellation_events.
      destruct (rule_set (windingRule (self w))); cbn; lia. }
    destruct (tesselate (rule_in_force w) (loops_of nested (Some a)))
      as [|v tv]; [|destruct (Nat.eqb (length (v :: tv) mod 3) 0)];
      cbn [final events tess_winding_rule]; auto.
  - intros e Hitem.
    rewrite (tesselate_closed_fails _ _ _ Hclosed Hitem).
    cbn [final returned events tess_winding_rule].
    split; [reflexivity|]. split; [|reflexivity].
    rewrite !matrix_depth_app. unfold rule_in_force.
    destruct (rule_set (windingRule (self w))); cbn; lia.
Qed.

(** X8. A [BaseShapeStim] never takes a string for its vertices, the name of
    a known shape included: the assignment raises a [ValueError] and the
    vertices are not marked dirty. *)
Theorem BaseShapeStim_takes_no_name (name : string) (w : World) :
  exists (msg : string) (w' : World),
    BaseShapeStim_vertices_setter (PyStr name) w = Raise (ValueError msg) w'
    /\ _needVertexUpdate (self w') = _needVertexUpdate (self w)
    /\ events w' = events w.
Proof.
  world w. unfold BaseShapeStim_vertices_setter, np_array. monad.
  cbn [array]. destruct (float_of_string name) as [x|]; cbn.
  - do 2 eexists. split; [reflexivity|]. split; reflexivity.
  - do 2 eexists. split; [reflexivity|]. split; reflexivity.
Qed.

End Assignment.
Section Drawing.
Context {collab : Collaborators}.

(** What the parts of a draw call do to the two depths and to the number of
    recomputations. *)
Lemma depth_of_parts (win : Window) (keepMatrix : bool) (w : World) :
  matrix_depth (ShapeStim_begin_events win keepMatrix w)
  = (if keepMatrix then 0 else 1)%Z
  /\ matrix_depth (BaseShapeStim_begin_events win keepMatrix w)
     = (if keepMatrix then 0 else 1)%Z
  /\ matrix_depth (teardown_events win keepMatrix)
     = (if keepMatrix then 0 else -1)%Z
  /\ matrix_depth (ShapeStim_fill_events w) = 0%Z
  /\ matrix_depth (ShapeStim_border_events w) = 0%Z
  /\ matrix_depth (BaseShapeStim_fill_events w) = 0%Z
  /\ matrix_depth (BaseShapeStim_border_events w) = 0%Z
  /\ client_depth (ShapeStim_begin_events win keepMatrix w) = 1%Z
  /\ client_depth (BaseShapeStim_begin_events win keepMatrix w) = 1%Z
  /\ client_depth (teardown_events win keepMatrix) = (-1)%Z
  /\ client_depth (ShapeStim_fill_events w) = 0%Z
  /\ client_depth (ShapeStim_border_events w) = 0%Z
  /\ client_depth (BaseShapeStim_fill_events w) = 0%Z
  /\ client_depth (BaseShapeStim_border_events w) = 0%Z.
Proof.
  unfold ShapeStim_begin_events, BaseShapeStim_begin_events, teardown_events,
    ShapeStim_fill_events, ShapeStim_border_events, BaseShapeStim_fill_events,
    BaseShapeStim_border_events, push_events, program_events, update_events,
    antialiasing_events, texture_events.
  destruct keepMatrix, (_haveShaders win), (interpolate (self w)),
    (_needVertexUpdate (self w)), (closeShape (self w)), (ShapeStim_fills w),
    (ShapeStim_borders w), (BaseShapeStim_fills w), (BaseShapeStim_borders w);
    repeat split.
Qed.

(** X4. A draw call that returns leaves the matrix stack as deep as it
    found it and the vertex-array client state disabled again, with or
    without [keepMatrix]. *)
Theorem draw_restores_GL_state
    (win_arg : option Window) (keepMatrix : bool) (w : World) :
  ((closeShape (self w) = true -> shape (pixels w) <> []) ->
   (ShapeStim_borders w = true ->
    is_number (lineWidth (self w)) = true /\ shape (border_pixels w) <> []) ->
   exists w',
     ShapeStim_draw win_arg keepMatrix w = Ok tt w'
     /\ matrix_depth (events w') = matrix_depth (events w)
     /\ client_depth (events w') = client_depth (events w))
  /\ (shape (pixels w) <> [] ->
      (BaseShapeStim_borders w = true -> is_number (lineWidth (self w)) = true) ->
      exists w',
        BaseShapeStim_draw win_arg keepMatrix w = Ok tt w'
        /\ matrix_depth (events w') = matrix_depth (events w)
        /\ client_depth (events w') = client_depth (events w)).
Proof.
  destruct (depth_of_parts (target_window win_arg w) keepMatrix w)
    as (M1 & M2 & M3 & M4 & _ & M6 & M7 & C1 & C2 & C3 & C4 & _ & C6 & C7).
  destruct (depth_of_parts (target_window win_arg w) keepMatrix (after_fill w))
    as (_ & _ & _ & _ & M5 & _ & _ & _ & _ & _ & _ & C5 & _ & _).
  split.
  - intros Hpix Hborder.
    destruct (ShapeStim_draw_events win_arg keepMatrix w Hpix Hborder)
      as (w' & Hrun & _ & Hev).
    exists w'. split; [exact Hrun|]. rewrite Hev.
    rewrite !matrix_depth_app, !client_depth_app, M1, M3, M4, M5, C1, C3, C4, C5.
    destruct keepMatrix; split; lia.
  - intros Hpix Hnum.
    destruct (BaseShapeStim_draw_events win_arg keepMatrix w Hpix Hnum)
      as (w' & Hrun & _ & Hev).
    exists w'. split; [exact Hrun|]. rewrite Hev.
    rewrite !matrix_depth_app, !client_depth_app, M2, M3, M6, M7, C2, C3, C6, C7.
    destruct keepMatrix; split; lia.
Qed.

(** X5. [ShapeStim.draw] reads the pixel vertices up to five times and
    recomputes them at most once: exactly once when the vertices are dirty
    and the shape is closed or its border is drawn, and then it leaves them
    clean.  It changes nothing else of the shape. *)
Theorem draw_recomputes_at_most_once
    (win_arg : option Window) (keepMatrix : bool) (w : World) :
  (closeShape (self w) = true -> shape (pixels w) <> []) ->
  (ShapeStim_borders w = true ->
   is_number (lineWidth (self w)) = true /\ shape (border_pixels w) <> []) ->
  exists w',
    ShapeStim_draw win_arg keepMatrix w = Ok tt w'
    /\ recomputations (events w')
       = (if _needVertexUpdate (self w)
             && (closeShape (self w) || ShapeStim_borders w)
          then 1 else 0)
         + recomputations (events w)
    /\ _needVertexUpdate (self w')
       = _needVertexUpdate (self w)
         && negb (closeShape (self w) || ShapeStim_borders w)
    /\ vertices (self w') = vertices (self w)
    /\ border (self w') = border (self w)
    /\ _tesselVertices (self w') = _tesselVertices (self w)
    /\ closeShape (self w') = closeShape (self w)
    /\ lineWidth (self w') = lineWidth (self w)
    /\ _fillColor (self w') = _fillColor (self w)
    /\ _borderColor (self w') = _borderColor (self w).
Proof.
  intros Hpix Hborder.
  destruct (ShapeStim_draw_events win_arg keepMatrix w Hpix Hborder)
    as (w' & Hrun & Hself & Hev).
  exists w'. split; [exact Hrun|]. rewrite Hself, Hev. clear Hrun Hself Hev.
  unfold recomputations. rewrite !count_app.
  unfold ShapeStim_begin_events, teardown_events, ShapeStim_fill_events,
    ShapeStim_border_events, push_events, program_events, update_events,
    antialiasing_events, texture_events.
  rewrite !count_app.
  destruct w as [s rule evs]. cbn [self events] in *.
  unfold after_border, after_fill, read, ShapeStim_borders, ShapeStim_fills.
  cbn [self].
  destruct (closeShape s) eqn:Hc, (_needVertexUpdate s) eqn:Hd,
    (present (_borderColor s)) eqn:Hp, (truthy (lineWidth s)) eqn:Ht;
    cbn; rewrite ?Hc, ?Hd, ?Hp, ?Ht; cbn; rewrite ?Hc, ?Hd, ?Hp, ?Ht; cbn;
    destruct keepMatrix, (_haveShaders (target_window win_arg (mk_World s rule evs))),
      (interpolate s);
    cbn;
    repeat match goal with
           | |- context [if ?b then _ else _] => destruct b
           end;
    cbn; repeat split; try lia; auto.
Qed.

Lemma BaseShapeStim_draw_border_raises (nVerts : nat) (w : World) :
  present (_borderColor (self w)) = true ->
  is_number (lineWidth (self w)) = false ->
  BaseShapeStim_draw_border nVerts w = Raise ArgumentError w.
Proof.
  intros Hline Hnum. world w.
  unfold BaseShapeStim_draw_border, call_glLineWidth. monad. cbn.
  rewrite Hline. destruct (lineWidth self0); try discriminate Hnum; reflexivity.
Qed.

(** X7. The two draw methods differ on a line width that is no number.
    [ShapeStim.draw] tests its truth value: with [None], an empty string or
    an empty list (or zero) it draws no border and returns.
    [BaseShapeStim.draw] tests [!= 0.0]: with a border colour and a line
    width that is no number, [None] included, it raises from [glLineWidth]
    after the fill has been submitted, and leaves the client state enabled
    and, without [keepMatrix], one matrix pushed. *)
Theorem draw_with_a_line_width_that_is_no_number
    (win_arg : option Window) (keepMatrix : bool) (w : World) :
  (truthy (lineWidth (self w)) = false ->
   (closeShape (self w) = true -> shape (pixels w) <> []) ->
   exists w',
     ShapeStim_draw win_arg keepMatrix w = Ok tt w'
     /\ submitted (events w')
        = submitted (events w)
          ++ (if ShapeStim_fills w then [GL_TRIANGLES] else []))
  /\ (is_number (lineWidth (self w)) = false ->
      present (_borderColor (self w)) = true ->
      shape (pixels w) <> [] ->
      exists w',
        BaseShapeStim_draw win_arg keepMatrix w = Raise ArgumentError w'
        /\ submitted (events w')
           = submitted (events w)
             ++ (if BaseShapeStim_fills w then [GL_POLYGON] else [])
        /\ matrix_depth (events w')
           = (matrix_depth (events w) + (if keepMatrix then 0 else 1))%Z
        /\ client_depth (events w') = (client_depth (events w) + 1)%Z).
Proof.
  split.
  - intros Hfalsy Hpix.
    assert (Hno : ShapeStim_borders w = false).
    { unfold ShapeStim_borders. rewrite Hfalsy. apply andb_false_r. }
    assert (Hborder : ShapeStim_borders w = true ->
                      is_number (lineWidth (self w)) = true
                      /\ shape (border_pixels w) <> []).
    { rewrite Hno. discriminate. }
    destruct (ShapeStim_draw_events win_arg keepMatrix w Hpix Hborder)
      as (w' & Hrun & _ & Hev).
    exists w'. split; [exact Hrun|].
    destruct (submitted_frame (target_window win_arg w) keepMatrix w)
      as (Hbegin & _ & Hend).
    destruct (submitted_passes w) as (Hfill & Hline & _).
    rewrite Hev, !submitted_app, Hbegin, Hfill, Hline, Hend, Hno, !app_nil_r.
    reflexivity.
  - intros Hnum Hline Hpix.
    unfold BaseShapeStim_draw.
    unfold bind at 1, attr at 1, gets at 1.
    fold (target_window win_arg w).
    rewrite (bind_Ok _ _ _ _ _ (BaseShapeStim_draw_begin_events _ _ w Hpix)).
    destruct (read_spec w) as (_ & _ & _ & Hfill & Hl & Hw & _).
    set (w1 := mk_World _ _ _).
    rewrite (bind_Ok _ _ _ _ _ (BaseShapeStim_draw_fill_events w w1 Hfill)).
    unfold bind.
    rewrite (BaseShapeStim_draw_border_raises _ (log (BaseShapeStim_fill_events w) w1)).
    + eexists. split; [reflexivity|]. cbn [events log w1].
      destruct (submitted_frame (target_window win_arg w) keepMatrix w)
        as (_ & Hbegin & _).
      destruct (submitted_passes w) as (_ & _ & Hf & _).
      destruct (depth_of_parts (target_window win_arg w) keepMatrix w)
        as (_ & M2 & _ & _ & _ & M6 & _ & _ & C2 & _ & _ & _ & C6 & _).
      rewrite !submitted_app, !matrix_depth_app, !client_depth_app,
        Hbegin, Hf, M2, M6, C2, C6, ?app_nil_r.
      repeat split; lia.
    + cbn [self log w1]. rewrite Hl. exact Hline.
    + cbn [self log w1]. rewrite Hw. exact Hnum.
Qed.

End Drawing.

Section Colours.
Context {collab : Collaborators}.

(** X6. [setColor] with an operation other than [''], ['='], ['+'] and
    ['-'] returns, logs the error twice, once for the line and once for the
    fill, and changes neither colour; with [''] or ['='] the fill and the
    border colour become the same colour object, as they do on an
    assignment to [color]. *)
Theorem setColor_sets_both
    (color : pyval) (colorSpace : option string) (operation : string) (w : World) :
  (op_in operation [EmptyString; "="; "+"; "-"] = false ->
   exists w',
     setColor color colorSpace operation w = Ok tt w'
     /\ events w'
        = events w ++ [ logging error (not_recognised operation);
                        logging error (not_recognised operation) ]
     /\ _fillColor (self w') = _fillColor (self w)
     /\ _borderColor (self w') = _borderColor (self w))
  /\ (op_in operation [EmptyString; "="] = true ->
      exists w',
        setColor color colorSpace operation w = Ok tt w'
        /\ events w' = events w
        /\ _fillColor (self w')
           = mk_Color color (Shape.colorSpace (spaced colorSpace (self w)))
        /\ _borderColor (self w') = _fillColor (self w'))
  /\ (exists w',
        color_setter color w = Ok tt w'
        /\ events w' = events w
        /\ _fillColor (self w') = mk_Color color (Shape.colorSpace (self w))
        /\ _borderColor (self w') = _fillColor (self w')).
Proof.
  split; [|split].
  - intros Hop. cbn in Hop.
    destruct (String.eqb operation EmptyString) eqn:H1; [discriminate|].
    destruct (String.eqb operation "=") eqn:H2; [discriminate|].
    destruct (String.eqb operation "+") eqn:H3; [discriminate|].
    destruct (String.eqb operation "-") eqn:H4; [discriminate|].
    world w.
    unfold setColor, setLineColor, setFillColor, colorSpace_setter, op_in.
    monad. cbn. rewrite H1, H2, H3, H4.
    destruct colorSpace; cbn; eexists; (split; [reflexivity|]);
      cbn; rewrite <- ?app_assoc; repeat split.
  - intros Hop. world w.
    unfold setColor, setLineColor, setFillColor, colorSpace_setter,
      fillColor_setter, lineColor_setter.
    monad.
    destruct colorSpace; cbn -[op_in]; rewrite Hop; cbn -[op_in];
      eexists; (split; [reflexivity|]); repeat split.
  - world w. unfold color_setter, fillColor_setter, lineColor_setter. monad.
    eexists. split; [reflexivity|]. repeat split.
Qed.

(** X10. The block "Appearance" of [BaseShapeStim.__init__] returns.
    Without the legacy arguments the fill colour is the first of
    [fillColor], [color] and [None] that was passed, and the line colour
    the first of [lineColor], [color] and ['black'], in the colour space
    passed; an argument equal to [False], the number 0 included, counts as
    not passed.  A legacy [lineRGB] or [fillRGB] replaces its colour, logs
    one warning each, and leaves the colour space of the stimulus at
    ['rgb'], whatever colour space was passed. *)
Theorem init_appearance_precedence
    (colorSpace : string) (fillColor lineColor color lineRGB fillRGB : argument)
    (w : World) :
  exists w',
    init_appearance colorSpace fillColor lineColor color lineRGB fillRGB w
    = Ok tt w'
    /\ _fillColor (self w')
       = match chosen fillRGB, chosen fillColor, chosen color with
         | Some v, _, _ => mk_Color v "rgb"
         | None, Some v, _ => mk_Color v colorSpace
         | None, None, Some c => mk_Color c colorSpace
         | None, None, None => mk_Color PyNone colorSpace
         end
    /\ _borderColor (self w')
       = match chosen lineRGB, chosen lineColor, chosen color with
         | Some v, _, _ => mk_Color v "rgb"
         | None, Some v, _ => mk_Color v colorSpace
         | None, None, Some c => mk_Color c colorSpace
         | None, None, None => mk_Color (PyStr "black") colorSpace
         end
    /\ Shape.colorSpace (self w')
       = match chosen lineRGB, chosen fillRGB with
         | None, None => colorSpace
         | _, _ => "rgb"
         end
    /\ events w'
       = events w
         ++ match chosen lineRGB with
            | Some _ => [logging warning rgb_deprecated]
            | None => []
            end
         ++ match chosen fillRGB with
            | Some _ => [logging warning rgb_deprecated]
            | None => []
            end
    /\ chosen (passed (PyNum (of_Z 0))) = None
    /\ chosen (passed PyNone) = Some PyNone.
Proof.
  world w.
  unfold init_appearance, setLineColor, setFillColor, colorSpace_setter,
    fillColor_setter, lineColor_setter.
  monad.
  destruct (chosen fillColor), (chosen lineColor), (chosen color),
    (chosen lineRGB), (chosen fillRGB);
    cbn; eexists; (split; [reflexivity|]); cbn;
    rewrite <- ?app_assoc, ?app_nil_r; repeat split.
Qed.

(** X9. [ShapeStim.__init__] drops the legacy colour arguments: whatever
    [color], [lineRGB] and [fillRGB] are, the fill colour is [fillColor], or
    absent when that was not passed, the line colour is [lineColor], or
    black, the colour space is the one passed, and nothing is logged. *)
Theorem ShapeStim_drops_the_legacy_colours
    (colorSpace : string) (fillColor lineColor color lineRGB fillRGB : argument)
    (w : World) :
  exists w',
    ShapeStim_init_appearance colorSpace fillColor lineColor color lineRGB
      fillRGB w = Ok tt w'
    /\ _fillColor (self w')
       = mk_Color (match chosen fillColor with
                   | Some v => v
                   | None => PyNone
                   end) colorSpace
    /\ _borderColor (self w')
       = mk_Color (match chosen lineColor with
                   | Some v => v
                   | None => PyStr "black"
                   end) colorSpace
    /\ Shape.colorSpace (self w') = colorSpace
    /\ events w' = events w.
Proof.
  world w.
  unfold ShapeStim_init_appearance, init_appearance, colorSpace_setter,
    fillColor_setter, lineColor_setter.
  monad.
  destruct (chosen fillColor), (chosen lineColor);
    cbn; eexists; (split; [reflexivity|]); repeat split.
Qed.

End Colours.

(** X1 at an open shape that is assigned a triangle and then a square. *)
Lemma open_shape_stays_open_witness :
  closeShape
    (self (final (assign_each (collab := Reference.collaborators)
                    [Reference.triangle; Reference.square]
                    Reference.open_world))) = false
  /\ events (final (assign_each (collab := Reference.collaborators)
                      [Reference.triangle; Reference.square]
                      Reference.open_world))
     = events Reference.open_world
  /\ tess_winding_rule
       (final (assign_each (collab := Reference.collaborators)
                 [Reference.triangle; Reference.square] Reference.open_world))
     = tess_winding_rule Reference.open_world.
Proof.
  apply (open_shape_stays_open (collab := Reference.collaborators)
           [Reference.triangle; Reference.square] Reference.open_world).
  reflexivity.
Defined.

(** X2 at the assignment of a square to a closed shape. *)
Lemma assignment_invariant_witness :
  border (self Reference.filled_square) = vertices (self Reference.filled_square)
  /\ _needVertexUpdate (self Reference.filled_square) = true
  /\ (if closeShape (self Reference.filled_square)
      then closeShape
             (self (Reference.world_of
                      (with__fillColor Reference.red Reference.stim))) = true
           /\ exists n : nat,
               shape (_tesselVertices (self Reference.filled_square)) = [n; 2]
               /\ 0 < n /\ n mod 3 = 0
      else _tesselVertices (self Reference.filled_square)
           = of_optional (vertices (self Reference.filled_square))).
Proof.
  apply (assignment_invariant (collab := Reference.collaborators)
           Reference.square
           (Reference.world_of (with__fillColor Reference.red Reference.stim))
           Reference.filled_square).
  vm_compute. reflexivity.
Defined.

(** X3 at a closed shape and the vertices [None], which fail at
    [newVertices[0][0]]. *)
Lemma tesselate_restores_or_leaks_witness :
  returned (_tesselate (collab := Reference.collaborators) None Reference.world)
  = false
  /\ matrix_depth
       (events (final (_tesselate (collab := Reference.collaborators) None
                         Reference.world)))
     = (matrix_depth (events Reference.world) + 1)%Z.
Proof.
  destruct (tesselate_restores_or_leaks (collab := Reference.collaborators)
              None Reference.world eq_refl) as (_ & Hleak).
  destruct (Hleak TypeError eq_refl) as (Hret & Hdepth & _).
  split; [exact Hret|exact Hdepth].
Defined.

(** X4 at the filled square and at the filled triangle of a
    [BaseShapeStim]. *)
Lemma draw_restores_GL_state_witness :
  (exists w',
      ShapeStim_draw (collab := Reference.collaborators) None false
        Reference.filled_square = Ok tt w'
      /\ matrix_depth (events w') = matrix_depth (events Reference.filled_square)
      /\ client_depth (events w') = client_depth (events Reference.filled_square))
  /\ (exists w',
         BaseShapeStim_draw (collab := Reference.collaborators) None false
           Reference.filled_base_triangle = Ok tt w'
         /\ matrix_depth (events w')
            = matrix_depth (events Reference.filled_base_triangle)
         /\ client_depth (events w')
            = client_depth (events Reference.filled_base_triangle)).
Proof.
  destruct (draw_restores_GL_state (collab := Reference.collaborators) None false
              Reference.filled_square) as (Hshape & _).
  destruct (draw_restores_GL_state (collab := Reference.collaborators) None false
              Reference.filled_base_triangle) as (_ & Hbase).
  split.
  - apply Hshape.
    + intros _. vm_compute. discriminate.
    + intros _. split; [reflexivity|]. vm_compute. discriminate.
  - apply Hbase.
    + vm_compute. discriminate.
    + intros _. reflexivity.
Defined.

(** X5 at the filled square, whose vertices are dirty. *)
Lemma draw_recomputes_at_most_once_witness :
  exists w',
    ShapeStim_draw (collab := Reference.collaborators) None false
      Reference.filled_square = Ok tt w'
    /\ recomputations (events w') = 1
    /\ _needVertexUpdate (self w') = false.
Proof.
  destruct (draw_recomputes_at_most_once (collab := Reference.collaborators)
              None false Reference.filled_square)
    as (w' & Hrun & Hcount & Hdirty & _).
  - intros _. vm_compute. discriminate.
  - intros _. split; [reflexivity|]. vm_compute. discriminate.
  - exists w'. split; [exact Hrun|]. split.
    + rewrite Hcount. vm_compute. reflexivity.
    + rewrite Hdirty. vm_compute. reflexivity.
Defined.

(** X6 at the operation ['*'] and at the operation ['=']. *)
Lemma setColor_sets_both_witness :
  (exists w',
      setColor (collab := Reference.collaborators) (PyStr "red") None "*"
        Reference.world = Ok tt w'
      /\ events w'
         = events Reference.world
           ++ [ logging error (not_recognised "*");
                logging error (not_recognised "*") ]
      /\ _fillColor (self w') = _fillColor (self Reference.world)
      /\ _borderColor (self w') = _borderColor (self Reference.world))
  /\ (exists w',
         setColor (collab := Reference.collaborators) (PyStr "red") None "="
           Reference.world = Ok tt w'
         /\ events w' = events Reference.world
         /\ _fillColor (self w')
            = mk_Color (PyStr "red")
                (Shape.colorSpace (spaced None (self Reference.world)))
         /\ _borderColor (self w') = _fillColor (self w')).
Proof.
  split.
  - apply (proj1 (setColor_sets_both (collab := Reference.collaborators)
                    (PyStr "red") None "*" Reference.world)).
    reflexivity.
  - apply (proj1 (proj2 (setColor_sets_both (collab := Reference.collaborators)
                           (PyStr "red") None "=" Reference.world))).
    reflexivity.
Defined.

(** X7 at the filled square and at the filled triangle of a
    [BaseShapeStim], each with the line width [None]. *)
Lemma draw_with_a_line_width_that_is_no_number_witness :
  (exists w',
      ShapeStim_draw (collab := Reference.collaborators) None false
        (Reference.world_of (with_lineWidth PyNone (self Reference.filled_square)))
      = Ok tt w'
      /\ submitted (events w') = [GL_TRIANGLES])
  /\ (exists w',
         BaseShapeStim_draw (collab := Reference.collaborators) None false
           (Reference.world_of
              (with_lineWidth PyNone (self Reference.filled_base_triangle)))
         = Raise ArgumentError w'
         /\ submitted (events w') = [GL_POLYGON]
         /\ matrix_depth (events w') = 1%Z
         /\ client_depth (events w') = 1%Z).
Proof.
  destruct (draw_with_a_line_width_that_is_no_number
              (collab := Reference.collaborators) None false
              (Reference.world_of
                 (with_lineWidth PyNone (self Reference.filled_square))))
    as (Hshape & _).
  destruct (draw_with_a_line_width_that_is_no_number
              (collab := Reference.collaborators) None false
              (Reference.world_of
                 (with_lineWidth PyNone (self Reference.filled_base_triangle))))
    as (_ & Hbase).
  split.
  - destruct Hshape as (w' & Hrun & Hsub).
    + reflexivity.
    + intros _. vm_compute. discriminate.
    + exists w'. split; [exact Hrun|]. rewrite Hsub. vm_compute. reflexivity.
  - destruct Hbase as (w' & Hrun & Hsub & Hm & Hc).
    + reflexivity.
    + reflexivity.
    + vm_compute. discriminate.
    + exists w'. split; [exact Hrun|]. split; [|split].
      * rewrite Hsub. vm_compute. reflexivity.
      * rewrite Hm. reflexivity.
      * rewrite Hc. reflexivity.
Defined.

End MoreShapeFacts.

(** * More properties of [target.py] *)

Module MoreTargetFacts.
Import Shape Target TargetMore TargetFacts.

(** *** Dicts *)

Lemma lookup_set_item (k key : string) (v : pyval) (d : dict) :
  lookup k (set_item key v d) = if String.eqb key k then Some v else lookup k d.
Proof.
  unfold lookup. induction d as [|[k0 x] rest IH]; cbn.
  - destruct (String.eqb key k); reflexivity.
  - destruct (String.eqb k0 key) eqn:H0; cbn.
    + apply String.eqb_eq in H0. subst k0.
      destruct (String.eqb key k); reflexivity.
    + destruct (String.eqb k0 k) eqn:H1.
      * apply String.eqb_eq in H1. subst k0.
        rewrite String.eqb_sym, H0. reflexivity.
      * exact IH.
Qed.

Lemma has_key_lookup (key : string) (d : dict) :
  has_key key d = match lookup key d with Some _ => true | None => false end.
Proof.
  unfold has_key, lookup. induction d as [|[k0 x] rest IH]; cbn.
  - reflexivity.
  - destruct (String.eqb k0 key); [reflexivity|exact IH].
Qed.

Lemma lookup_fill (k : string) (keys : list string) (d : dict) :
  lookup k
    (fold_left (fun d key => if has_key key d then d else set_item key PyNone d)
       keys d)
  = match lookup k d with
    | Some v => Some v
    | None => if existsb (String.eqb k) keys then Some PyNone else None
    end.
Proof.
  revert d. induction keys as [|key keys IH]; intros d; cbn [fold_left existsb].
  - destruct (lookup k d); reflexivity.
  - rewrite IH, has_key_lookup.
    destruct (lookup key d) eqn:Hkey.
    + destruct (lookup k d) eqn:Hk; [reflexivity|].
      destruct (String.eqb k key) eqn:E; [|reflexivity].
      apply String.eqb_eq in E. subst key. congruence.
    + rewrite lookup_set_item, (String.eqb_sym key k).
      destruct (String.eqb k key) eqn:E.
      * apply String.eqb_eq in E. subst key. rewrite Hkey. reflexivity.
      * reflexivity.
Qed.

Lemma get_item_fill (key : string) (spec : dict) :
  existsb (String.eqb key) required = true ->
  get_item key (fill_missing spec) = inr (dict_get key spec).
Proof.
  intros Hreq. unfold get_item, fill_missing, dict_get.
  rewrite lookup_fill, Hreq. destruct (lookup key spec); reflexivity.
Qed.

(** X11. [targetFromDict] changes the dict it is given, also when it
    raises: an entry the dict has is kept, each of the eight required keys
    it lacks is added with the value [None], and no other key is added. *)
Theorem targetFromDict_completes_the_spec (spec : dict) (key : string) :
  lookup key (fst (targetFromDict spec))
  = match lookup key spec with
    | Some v => Some v
    | None => if existsb (String.eqb key) required then Some PyNone else None
    end.
Proof.
  unfold targetFromDict. cbn [fst]. apply lookup_fill.
Qed.

(** X12. [targetFromDict] never raises a [KeyError]: with an
    ['outer_diameter'] that is a number it reaches the constructor, with the
    other arguments as the dict has them and [None] for a missing one; with
    an ['outer_diameter'] that is missing, [None] or no number it raises a
    [TypeError].  The inner radius it passes is half the outer diameter, as
    the radius is: the entry ['inner_diameter'] has no effect. *)
Theorem targetFromDict_reads_the_outer_diameter_twice (spec : dict) :
  snd (targetFromDict spec)
  = match dict_get "outer_diameter" spec with
    | PyNum x =>
        inr (mk_TargetArgs
               (PyNum (fdiv x two)) (dict_get "outer_stroke_width" spec)
               (dict_get "outer_fill_color" spec)
               (dict_get "outer_line_color" spec)
               (PyNum (fdiv x two)) (dict_get "inner_stroke_width" spec)
               (dict_get "inner_fill_color" spec)
               (dict_get "inner_line_color" spec))
    | _ => inl (Builtin TypeError)
    end
  /\ (forall v : pyval,
         snd (targetFromDict (set_item "inner_diameter" v spec))
         = snd (targetFromDict spec)).
Proof.
  assert (Hsnd : forall s : dict,
             snd (targetFromDict s)
             = match dict_get "outer_diameter" s with
               | PyNum x =>
                   inr (mk_TargetArgs
                          (PyNum (fdiv x two)) (dict_get "outer_stroke_width" s)
                          (dict_get "outer_fill_color" s)
                          (dict_get "outer_line_color" s)
                          (PyNum (fdiv x two)) (dict_get "inner_stroke_width" s)
                          (dict_get "inner_fill_color" s)
                          (dict_get "inner_line_color" s))
               | _ => inl (Builtin TypeError)
               end).
  { intros s. unfold targetFromDict. cbn [snd].
    rewrite !get_item_fill by reflexivity.
    destruct (dict_get "outer_diameter" s); reflexivity. }
  split; [apply Hsnd|].
  intros v. rewrite !Hsnd. unfold dict_get.
  rewrite !lookup_set_item. reflexivity.
Qed.

Section Properties.
Context {collab : Collaborators}.

(** X13. An assignment to [lineWidth] of a target reaches the outer shape
    only: the property then reads as the value assigned, the line width of
    the inner shape is what it was, and of the eight entries the target
    yields, ['outer_stroke_width'] is the value assigned and the other seven
    are unchanged. *)
Theorem lineWidth_is_the_outer_line_width
    (value : pyval) (w : World) (d : list (string * pyval)) :
  __iter__ w = Ok d w ->
  exists (w' : World) (d' : list (string * pyval)),
    TargetStim_lineWidth_setter value w = Ok tt w'
    /\ TargetStim_lineWidth w' = Ok value w'
    /\ lineWidth (inner (self w')) = lineWidth (inner (self w))
    /\ __iter__ w' = Ok d' w'
    /\ lookup "outer_stroke_width" d' = Some value
    /\ (forall key : string,
           key <> "outer_stroke_width" -> lookup key d' = lookup key d).
Proof.
  intros Hiter. destruct w as [t rule evs].
  unfold __iter__, radius, outerRadius, innerRadius, half_height in Hiter.
  unfold bind, ret, gets, lift, raise in Hiter. cbn [self] in Hiter.
  destruct (item (size (outer t)) 1) as [e|ho] eqn:Ho;
    [cbn in Hiter; discriminate|].
  cbn -[fmul two item] in Hiter.
  destruct (item (size (inner t)) 1) as [e|hi] eqn:Hi;
    [cbn in Hiter; discriminate|].
  cbn -[fmul two] in Hiter. injection Hiter as Hd. subst d.
  assert (Hset : exists evs',
             TargetStim_lineWidth_setter value (mk_World t rule evs)
             = Ok tt (mk_World (with_outer (with_lineWidth value (outer t)) t)
                        rule evs')).
  { unfold TargetStim_lineWidth_setter, on_outer, on_shape, lineWidth_setter.
    monad. cbn [self tess_winding_rule events Shape.self].
    unfold emit. monad. cbn -[fgt of_Z is_Line].
    destruct (is_Line (cls (outer t))), value as [| |x|]; cbn -[fgt of_Z];
      try destruct (fgt x (of_Z 127)); cbn; eexists; reflexivity. }
  destruct Hset as (evs' & Hset).
  eexists. eexists. split; [exact Hset|].
  split; [reflexivity|]. split; [reflexivity|].
  unfold __iter__, radius, outerRadius, innerRadius, half_height.
  unfold bind, ret, gets, lift.
  cbn [self outer inner with_outer with_lineWidth size].
  rewrite Ho. cbn -[fmul two item]. rewrite Hi. cbn -[fmul two].
  split; [reflexivity|]. split; [reflexivity|].
  intros key Hkey. unfold lookup. cbn [find fst].
  destruct (String.eqb "outer_diameter" key); [reflexivity|].
  destruct (String.eqb "outer_stroke_width" key) eqn:E.
  { apply String.eqb_eq in E. congruence. }
  reflexivity.
Qed.

(** X14. An assignment of a pair of finite numbers to [size] of a target
    sets the size of the outer shape and leaves the size of the inner shape
    as it was: the factor by which it scales the inner shape is the new
    size over the size just stored.  Where the value is 0 the factor is
    [0 / 0] and the inner size becomes nan.  Both shapes are marked for a
    recomputation of their pixel vertices. *)
Theorem size_of_the_target_is_the_outer_size (x y i0 i1 : Q) (w : World) :
  size (inner (self w)) = pair (Fin i0) (Fin i1) ->
  exists w' : World,
    TargetStim_size_setter (Fin x) (Fin y) w = Ok tt w'
    /\ TargetStim_size w' = Ok (pair (Fin x) (Fin y)) w'
    /\ size (inner (self w'))
       = pair (if Qeq_bool x 0 then NaN else fin i0)
              (if Qeq_bool y 0 then NaN else fin i1)
    /\ _needVertexUpdate (outer (self w')) = true
    /\ _needVertexUpdate (inner (self w')) = true.
Proof.
  intros Hinner. destruct w as [t rule evs]. cbn [self] in Hinner.
  assert (Hfactor : forall a i : Q,
             fmul (fdiv (Fin a) (Fin a)) (Fin i)
             = if Qeq_bool a 0 then NaN else fin i).
  { intros a i. unfold fdiv. destruct (Qeq_bool a 0) eqn:Ha; [reflexivity|].
    unfold fin at 1. unfold fmul. apply fin_eq.
    rewrite Qred_correct. field. intros Hz.
    apply Qeq_bool_iff in Hz. congruence. }
  unfold TargetStim_size_setter, TargetStim_size, on_outer, on_inner, on_shape,
    size_setter, np_array.
  monad. cbn [self tess_winding_rule events Shape.self Shape.tess_winding_rule
              Shape.events].
  cbn -[fmul fdiv]. rewrite Hinner. cbn -[fmul fdiv].
  rewrite !Hfactor.
  eexists. split; [reflexivity|]. repeat split.
Qed.

Lemma shape_world_events (s : Stim) (rule rule' : Z) (evs evs' : list event)
    (win_arg : option Window) (keepMatrix : bool) :
  Trace.ShapeStim_begin_events
    (Trace.target_window win_arg (Shape.mk_World s rule' evs')) keepMatrix
    (Shape.mk_World s rule' evs')
  = Trace.ShapeStim_begin_events
      (Trace.target_window win_arg (Shape.mk_World s rule evs)) keepMatrix
      (Shape.mk_World s rule evs)
  /\ passes (Shape.mk_World s rule' evs') = passes (Shape.mk_World s rule evs)
  /\ (drawable (Shape.mk_World s rule evs)
      -> drawable (Shape.mk_World s rule' evs')).
Proof.
  repeat split; try reflexivity.
  - destruct H as (H & _). exact H.
  - destruct H as (_ & H). apply H. exact H0.
  - destruct H as (_ & H). apply H. exact H0.
Qed.

Lemma ShapeStim_draw_passes
    (win_arg : option Window) (keepMatrix : bool) (sw : Shape.World) :
  drawable sw ->
  exists sw' : Shape.World,
    ShapeStim_draw win_arg keepMatrix sw = Ok tt sw'
    /\ Trace.submitted (Shape.events sw')
       = Trace.submitted (Shape.events sw) ++ passes sw.
Proof.
  intros (Hpix & Hborder).
  destruct (ShapeFacts.ShapeStim_draw_events win_arg keepMatrix sw Hpix Hborder)
    as (sw' & Hrun & _ & Hev).
  exists sw'. split; [exact Hrun|].
  destruct (ShapeFacts.submitted_frame (Trace.target_window win_arg sw)
              keepMatrix sw) as (Hbegin & _ & Hend).
  destruct (ShapeFacts.submitted_passes sw) as (Hfill & Hline & _).
  rewrite Hev, !ShapeFacts.submitted_app, Hbegin, Hfill, Hline, Hend, app_nil_r.
  reflexivity.
Qed.

(** X15. [TargetStim.draw] on a target whose two shapes can be drawn
    returns and submits the primitives of the outer shape, then those of
    the inner shape, each as [ShapeStim.draw] decides for that shape: the
    inner shape is painted over the outer one. *)
Theorem target_draws_outer_then_inner
    (win_arg : option Window) (keepMatrix : bool) (w : World) :
  drawable (shape_world (outer (self w)) w) ->
  drawable (shape_world (inner (self w)) w) ->
  exists w' : World,
    TargetStim_draw win_arg keepMatrix w = Ok tt w'
    /\ Trace.submitted (events w')
       = Trace.submitted (events w)
         ++ passes (shape_world (outer (self w)) w)
         ++ passes (shape_world (inner (self w)) w).
Proof.
  intros Houter Hinner. destruct w as [t rule evs].
  unfold shape_world in *. cbn [self tess_winding_rule events] in *.
  destruct (ShapeStim_draw_passes win_arg keepMatrix _ Houter)
    as ([so ro eo] & Hrun & Hsub).
  cbn [Shape.events] in Hsub.
  destruct (shape_world_events (inner t) rule ro evs eo win_arg keepMatrix)
    as (_ & Hpasses & Hdraw).
  destruct (ShapeStim_draw_passes win_arg keepMatrix _ (Hdraw Hinner))
    as ([si ri ei] & Hrun' & Hsub').
  cbn [Shape.events] in Hsub'.
  unfold TargetStim_draw, on_outer, on_inner, on_shape, bind.
  cbn [self tess_winding_rule events].
  rewrite Hrun.
  cbn [self tess_winding_rule events Shape.self Shape.tess_winding_rule
       Shape.events inner with_outer].
  rewrite Hrun'.
  eexists. split; [reflexivity|].
  cbn [events Shape.events]. rewrite Hsub', Hsub, Hpasses, app_assoc.
  reflexivity.
Qed.

(** X16. An assignment to [foreColor] sets the colours of the inner shape
    that are not [None] and leaves the others: a transparent fill or border
    stays transparent, and the outer shape is not touched.  After an
    assignment of [None] both inner colours are absent, [foreColor] reads as
    [None], and a later assignment to [foreColor] changes nothing.  Here a
    colour reads as [None] exactly when it is absent. *)
Theorem foreColor_keeps_transparency (value : pyval) (w : World) :
  (forall (c : Color) (cs : string), is_None (render c cs) = negb (present c)) ->
  exists w' : World,
    foreColor_setter value w = Ok tt w'
    /\ _fillColor (inner (self w'))
       = (if present (_fillColor (inner (self w)))
          then mk_Color value (colorSpace (inner (self w)))
          else _fillColor (inner (self w)))
    /\ _borderColor (inner (self w'))
       = (if present (_borderColor (inner (self w)))
          then mk_Color value (colorSpace (inner (self w)))
          else _borderColor (inner (self w)))
    /\ outer (self w') = outer (self w)
    /\ events w' = events w
    /\ (value = PyNone ->
        foreColor w' = Ok PyNone w'
        /\ forall later : pyval, foreColor_setter later w' = Ok tt w').
Proof.
  intros Hrender. destruct w as [t rule evs].
  unfold foreColor_setter, foreColor, on_inner, on_shape, fillColor_getter,
    fillColor_setter, lineColor_getter, lineColor_setter.
  monad. cbn [self tess_winding_rule events].
  cbn -[is_None present]. rewrite !Hrender, !negb_involutive.
  destruct (present (_fillColor (inner t))) eqn:Hfill;
    cbn -[is_None present]; rewrite ?Hrender, ?negb_involutive;
    destruct (present (_borderColor (inner t))) eqn:Hline;
    cbn -[is_None present]; rewrite ?Hrender, ?negb_involutive;
    (eexists; split; [reflexivity|]);
    cbn -[is_None present]; rewrite ?Hfill, ?Hline;
    (split; [reflexivity|]); (split; [reflexivity|]);
    (split; [reflexivity|]); (split; [reflexivity|]);
    intros ->; cbn -[is_None]; rewrite ?Hrender;
    cbn -[is_None]; rewrite ?Hfill, ?Hline; cbn -[is_None];
    rewrite ?Hrender; cbn -[is_None]; rewrite ?Hfill, ?Hline;
    (split; [reflexivity|]); intros later;
    cbn -[is_None]; rewrite ?Hrender; cbn -[is_None];
    rewrite ?Hfill, ?Hline; cbn -[is_None]; rewrite ?Hrender;
    cbn -[is_None]; rewrite ?Hfill, ?Hline; reflexivity.
Qed.

Lemma scale_setter_runs (newScale oldScale r i : float) (sw : Scaled) :
  scale sw = Ok oldScale sw ->
  half_height (outer (self (target sw))) = inr r ->
  half_height (inner (self (target sw))) = inr i ->
  exists sw' : Scaled,
    scale_setter newScale sw = Ok tt sw'
    /\ _scale sw' = Some newScale
    /\ half_height (outer (self (target sw')))
       = inr (fdiv (height_pix (units (self (target sw))) (win (self (target sw)))
                      (fmul (fmul (fdiv r oldScale) newScale) two)) two)
    /\ half_height (inner (self (target sw')))
       = inr (fdiv (height_pix (units (self (target sw))) (win (self (target sw)))
                      (fmul (fmul (fmul (fdiv r oldScale) newScale) (fdiv i r))
                         two)) two)
    /\ units (self (target sw')) = units (self (target sw))
    /\ win (self (target sw')) = win (self (target sw)).
Proof.
  intros Hscale Ho Hi.
  destruct (radius_setter_runs (fmul (fdiv r oldScale) newScale) i r (target sw)
              Hi Ho) as (w' & Hrun & Ho' & Hi' & Hu & Hw).
  unfold scale_setter.
  rewrite (ShapeFacts.bind_Ok _ _ _ _ _ Hscale).
  unfold bind at 1. unfold on_target at 1. unfold radius.
  rewrite (outerRadius_reads _ _ Ho).
  unfold bind at 1. unfold on_target at 1. cbn [target _scale]. rewrite Hrun.
  unfold modify. cbn [target].
  eexists. split; [reflexivity|]. cbn [target _scale].
  repeat split; assumption.
Qed.


(** X18. In pixel units, the scale 0 cannot be undone: after an assignment
    of 0 to [scale], an assignment of any scale returns and leaves both
    radii nan. *)
Theorem scale_zero_is_not_undone (s r i : float) (sw : Scaled) :
  (forall x : float,
      height_pix (units (self (target sw))) (win (self (target sw))) x = x) ->
  half_height (outer (self (target sw))) = inr r ->
  half_height (inner (self (target sw))) = inr i ->
  exists sw' : Scaled,
    (scale_setter (of_Z 0) ;; scale_setter s) sw = Ok tt sw'
    /\ scale sw' = Ok s sw'
    /\ on_target outerRadius sw' = Ok NaN sw'
    /\ on_target innerRadius sw' = Ok NaN sw'.
Proof.
  intros Hpix Ho Hi.
  assert (Hscale : exists old, scale sw = Ok old sw).
  { unfold scale. monad. eexists. reflexivity. }
  destruct Hscale as (old & Hscale).
  destruct (scale_setter_runs (of_Z 0) old r i sw Hscale Ho Hi)
    as (sw1 & Hrun1 & Hsc1 & Ho1 & Hi1 & Hu1 & Hw1).
  rewrite !Hpix in Ho1, Hi1.
  assert (Hscale1 : scale sw1 = Ok (of_Z 0) sw1).
  { unfold scale. monad. rewrite Hsc1. reflexivity. }
  destruct (scale_setter_runs s (of_Z 0) _ _ sw1 Hscale1 Ho1 Hi1)
    as (sw2 & Hrun2 & Hsc2 & Ho2 & Hi2 & _ & _).
  rewrite Hu1, Hw1, !Hpix in Ho2, Hi2.
  assert (Hnan : fdiv (fdiv (fmul (fmul (fdiv r old) (of_Z 0)) two) two) (of_Z 0)
                 = NaN).
  { destruct (fdiv r old) as [q|b|].
    - change (fmul (Fin q) (of_Z 0)) with (fin (q * 0)).
      replace (fin (q * 0)) with (fin 0) by (apply fin_eq; ring).
      reflexivity.
    - reflexivity.
    - reflexivity. }
  rewrite Hnan in Ho2, Hi2.
  exists sw2. split.
  - unfold bind. rewrite Hrun1. exact Hrun2.
  - destruct sw2 as [w2 sc2]. cbn [target _scale] in *. subst sc2.
    split; [reflexivity|].
    unfold on_target. cbn [target _scale].
    rewrite (outerRadius_reads _ _ Ho2), (innerRadius_reads _ _ Hi2).
    split; reflexivity.
Qed.

(** X19. The setter of [style] stores any value and checks it against
    nothing: a value other than ['circles'] and ['cross'] returns and changes
    no shape.  For those two it assigns the name ['circle'] to the vertices
    of the outer shape, which is no known shape: when [val2array] rejects the
    string, the assignment raises its exception with the style stored and
    both shapes as they were, so that for ['cross'] the inner shape never
    gets the cross. *)
Theorem style_names_a_shape_that_is_not_known (value : pyval) (sw : Styled) :
  (eq_str value "circles" || eq_str value "cross" = false ->
   exists sw' : Styled,
     style_setter value sw = Ok tt sw'
     /\ style sw' = Ok value sw'
     /\ styled sw' = styled sw)
  /\ (forall e : exn,
        eq_str value "circles" || eq_str value "cross" = true ->
        val2array (PyStr "circle") = inl e ->
        exists sw' : Styled,
          style_setter value sw = Raise e sw'
          /\ style sw' = Ok value sw'
          /\ styled sw' = styled sw).
Proof.
  destruct sw as [[[win units o i] rule evs] st].
  split.
  - intros Hno. apply orb_false_elim in Hno. destruct Hno as (H1 & H2).
    unfold style_setter, style. monad. cbn [styled _style].
    rewrite H1, H2. eexists. split; [reflexivity|]. split; reflexivity.
  - intros e Hyes Hcircle.
    unfold style_setter, style, on_styled, on_outer, on_inner, on_shape,
      ShapeStim_vertices_setter.
    monad. cbn [styled _style self tess_winding_rule events outer].
    change (known_or_given (PyStr "circle")) with (PyStr "circle").
    rewrite Hcircle.
    destruct (eq_str value "circles"); [|destruct (eq_str value "cross")];
      try discriminate Hyes;
      eexists; (split; [reflexivity|]); split; reflexivity.
Qed.

End Properties.

(** X13 at the line width 5 assigned to the target whose two lines are 2
    pixels wide. *)
Lemma lineWidth_is_the_outer_line_width_witness :
  exists (w' : World) (d' : list (string * pyval)),
    TargetStim_lineWidth_setter (PyNum (of_Z 5)) Reference.target = Ok tt w'
    /\ TargetStim_lineWidth w' = Ok (PyNum (of_Z 5)) w'
    /\ __iter__ (collab := Reference.collaborators) w' = Ok d' w'
    /\ lookup "outer_stroke_width" d' = Some (PyNum (of_Z 5))
    /\ lookup "inner_stroke_width" d' = Some (PyNum (of_Z 2)).
Proof.
  destruct (lineWidth_is_the_outer_line_width (collab := Reference.collaborators)
              (PyNum (of_Z 5)) Reference.target _ eq_refl)
    as (w' & d' & Hset & Hget & _ & Hiter & Houter & Hrest).
  exists w', d'. split; [exact Hset|]. split; [exact Hget|].
  split; [exact Hiter|]. split; [exact Houter|].
  rewrite Hrest by discriminate. reflexivity.
Defined.

(** X14 at the size (3, 4) assigned to the target whose inner shape has the
    size (1, 1). *)
Lemma size_of_the_target_is_the_outer_size_witness :
  exists w' : World,
    TargetStim_size_setter (collab := Reference.collaborators)
      (Fin (3 # 1)) (Fin (4 # 1)) Reference.target = Ok tt w'
    /\ TargetStim_size w' = Ok (pair (Fin (3 # 1)) (Fin (4 # 1))) w'
    /\ size (inner (self w')) = pair (of_Z 1) (of_Z 1).
Proof.
  destruct (size_of_the_target_is_the_outer_size
              (collab := Reference.collaborators) (3 # 1) (4 # 1) 1 1
              Reference.target eq_refl)
    as (w' & Hrun & Hsize & Hinner & _).
  exists w'. split; [exact Hrun|]. split; [exact Hsize|]. exact Hinner.
Defined.

(** X15 at the target of the filled square around the open triangle: the
    triangles and the closed border of the square, then the open border of
    the triangle. *)
Lemma target_draws_outer_then_inner_witness :
  exists w' : World,
    TargetStim_draw (collab := Reference.collaborators) None false square_target
    = Ok tt w'
    /\ Trace.submitted (events w') = [GL_TRIANGLES; GL_LINE_LOOP; GL_LINE_STRIP].
Proof.
  destruct (target_draws_outer_then_inner (collab := Reference.collaborators)
              None false square_target)
    as (w' & Hrun & Hsub).
  - split.
    + intros _. vm_compute. discriminate.
    + intros _. split; [reflexivity|]. vm_compute. discriminate.
  - split.
    + intros H. vm_compute in H. discriminate H.
    + intros _. split; [reflexivity|]. vm_compute. discriminate.
  - exists w'. split; [exact Hrun|]. rewrite Hsub. vm_compute. reflexivity.
Defined.

(** X16 at [None] assigned to the target whose inner shape has a red fill
    and no border. *)
Lemma foreColor_keeps_transparency_witness :
  exists w' : World,
    foreColor_setter (collab := Reference.collaborators) PyNone Reference.target
    = Ok tt w'
    /\ present (_fillColor (inner (self w'))) = false
    /\ present (_borderColor (inner (self w'))) = false
    /\ foreColor_setter (collab := Reference.collaborators) (PyStr "red") w'
       = Ok tt w'.
Proof.
  destruct (foreColor_keeps_transparency (collab := Reference.collaborators)
              PyNone Reference.target)
    as (w' & Hrun & Hfill & Hline & _ & _ & Hlater).
  - intros [[| | |] space] cs; reflexivity.
  - exists w'. split; [exact Hrun|]. split; [|split].
    + rewrite Hfill. reflexivity.
    + rewrite Hline. reflexivity.
    + apply (proj2 (Hlater eq_refl)).
Defined.


(** X18 at the scales 0 and then 3 assigned to the target of radii 1 and
    1/2. *)
Lemma scale_zero_is_not_undone_witness :
  exists sw' : Scaled,
    (scale_setter (collab := Reference.collaborators) (of_Z 0) ;;
     scale_setter (collab := Reference.collaborators) (Fin (3 # 1)))
      (mk_Scaled Reference.target None) = Ok tt sw'
    /\ scale sw' = Ok (Fin (3 # 1)) sw'
    /\ on_target outerRadius sw' = Ok NaN sw'
    /\ on_target innerRadius sw' = Ok NaN sw'.
Proof.
  apply (scale_zero_is_not_undone (collab := Reference.collaborators)
           (Fin (3 # 1)) (Fin 1) (Fin (1 # 2))
           (mk_Scaled Reference.target None)).
  - intros x. reflexivity.
  - reflexivity.
  - reflexivity.
Defined.

(** X19 at the style ['cross'] assigned to the target in pixel units, and
    at a style that is not known. *)
Lemma style_names_a_shape_that_is_not_known_witness :
  (exists sw' : Styled,
      style_setter (collab := Reference.collaborators) (PyStr "cross")
        (mk_Styled Reference.target None)
      = Raise (ValueError "Invalid parameter.") sw'
      /\ style sw' = Ok (PyStr "cross") sw'
      /\ styled sw' = Reference.target)
  /\ (exists sw' : Styled,
         style_setter (collab := Reference.collaborators) (PyStr "square")
           (mk_Styled Reference.target None) = Ok tt sw'
         /\ style sw' = Ok (PyStr "square") sw'
         /\ styled sw' = Reference.target).
Proof.
  split.
  - apply (proj2 (style_names_a_shape_that_is_not_known
                    (collab := Reference.collaborators) (PyStr "cross")
                    (mk_Styled Reference.target None))).
    + reflexivity.
    + reflexivity.
  - apply (proj1 (style_names_a_shape_that_is_not_known
                    (collab := Reference.collaborators) (PyStr "square")
                    (mk_Styled Reference.target None))).
    reflexivity.
Defined.

End MoreTargetFacts.
